(** * SureSafe demo: the webhook proxy, the extraction gateway and the portal

    A shallow embedding of the route handlers of the repository:
    - the n8n reverse proxy with its trigger dispatcher,
    - the Box AI extraction gateway ([/extract], [/webhook/box]),
    - the portal backend (claim submission, admin login, status update,
      task completion).

    Handlers are functions from the request and the answers of the outside
    world (storage platform, workflow engine, database) to a response, the
    new database and the list of outgoing calls. *)

From Stdlib Require Import ZArith List String Ascii Bool Lia.
From stdpp Require Import gmap strings list pretty.
Import ListNotations.
Local Open Scope Z_scope.
#[local] Set Warnings "-register-all".

(** ** JavaScript values *)

Module JS.

(** The values that cross the handlers: what [JSON.parse] produces, plus
    [undefined] (an absent property) and the built-in functions that every
    object inherits.  Numbers are the integer-valued ones: [JNum n] is the
    Number that the literal [n] denotes, the double nearest to [n].  The
    properties of an object are listed in insertion order. *)
Inductive jsval : Type :=
| JUndefined
| JNull
| JBool (b : bool)
| JNum (n : Z)
| JStr (s : string)
| JArr (xs : list jsval)
| JObj (props : list (string * jsval))
| JFun (name : string).

(** ToBoolean. *)
Definition truthy (v : jsval) : bool :=
  match v with
  | JUndefined | JNull => false
  | JBool b => b
  | JNum n => negb (n =? 0)
  | JStr s => negb (String.eqb s "")
  | JArr _ | JObj _ | JFun _ => true
  end.

(** [a || b] on values. *)
Definition js_or (a b : jsval) : jsval := if truthy a then a else b.

(** Own properties of an object, as a table in enumeration order. *)
Fixpoint own_property (props : list (string * jsval)) (k : string) : option jsval :=
  match props with
  | [] => None
  | (k', v) :: rest => if String.eqb k' k then Some v else own_property rest k
  end.

(** The function-valued members every ordinary object inherits from
    [Object.prototype]. *)
Definition object_prototype_functions : list string :=
  [ "constructor"; "hasOwnProperty"; "isPrototypeOf"; "propertyIsEnumerable";
    "toLocaleString"; "toString"; "valueOf";
    "__defineGetter__"; "__defineSetter__"; "__lookupGetter__"; "__lookupSetter__" ].

Definition string_mem (k : string) (ks : list string) : bool :=
  existsb (String.eqb k) ks.

(** The built-in function a member name denotes: [constructor] is [Object]
    itself, the others are methods named after the member. *)
Definition prototype_function_name (k : string) : string :=
  if String.eqb k "constructor" then "Object" else k.

(** Lookup along the prototype chain of an object literal (or of a parsed
    JSON object): own properties first, then [Object.prototype]; the accessor
    [__proto__] answers [Object.prototype] itself, an object. *)
Definition inherited_property (k : string) : jsval :=
  if string_mem k object_prototype_functions then JFun (prototype_function_name k)
  else if String.eqb k "__proto__" then JObj []
  else JUndefined.

Definition object_get (props : list (string * jsval)) (k : string) : jsval :=
  match own_property props k with
  | Some v => v
  | None => inherited_property k
  end.

(** A statement either completes with a value or throws an [Error] with a
    message. *)
Inductive completion (A : Type) : Type :=
| Return (a : A)
| Throw (message : string).
Arguments Return {A} a.
Arguments Throw {A} message.

Definition bind {A B : Type} (c : completion A) (k : A -> completion B) : completion B :=
  match c with
  | Return a => k a
  | Throw m => Throw m
  end.

(** [v.k] for the property names the handlers read ([trigger], [fileId],
    [value], [name], ...): none of them is a built-in member of a string,
    number, boolean or array, and a function has its [name] only, so
    otherwise only objects answer.  Reading a property of [undefined] or
    [null] throws a TypeError (V8's wording). *)
Definition js_get (v : jsval) (k : string) : completion jsval :=
  match v with
  | JUndefined => Throw ("Cannot read properties of undefined (reading '" +:+ k +:+ "')")
  | JNull => Throw ("Cannot read properties of null (reading '" +:+ k +:+ "')")
  | JObj props => Return (object_get props k)
  | JFun name => Return (if String.eqb k "name" then JStr name else JUndefined)
  | _ => Return JUndefined
  end.

(** [v?.k] *)
Definition js_get_opt (v : jsval) (k : string) : jsval :=
  match js_get v k with
  | Return x => x
  | Throw _ => JUndefined
  end.

(** *** Numbers *)

(** The Number value of an integer literal: the nearest double, ties to
    even (a magnitude of [2^1024] or more is an infinity). *)
Definition to_double (n : Z) : Z :=
  let m := Z.abs n in
  let e := Z.log2 m + 1 - 53 in
  if e <=? 0 then n
  else
    let q := Z.shiftr m e in
    let r := m - Z.shiftl q e in
    let half := Z.shiftl 1 (e - 1) in
    let q' := if (half <? r) || ((r =? half) && Z.odd q) then q + 1 else q in
    Z.sgn n * Z.shiftl q' e.

Definition is_infinite (d : Z) : bool := 2 ^ 1024 <=? Z.abs d.

Definition decimal_length (m : Z) : Z := Z.of_nat (String.length (pretty m)).

(** The decimal with [k] significant digits that Number::toString picks
    for the positive double [d], if one with so few digits denotes [d]. *)
Definition with_digits (d : Z) (k : Z) : option Z :=
  let e := decimal_length d - k in
  if e <=? 0 then Some d
  else
    let lo := d / 10 ^ e * 10 ^ e in
    let hi := lo + 10 ^ e in
    let lo_ok := (0 <? lo) && (to_double lo =? d) in
    let hi_ok := to_double hi =? d in
    if lo_ok && hi_ok then
      Some (if d - lo <? hi - d then lo
            else if hi - d <? d - lo then hi
            else if Z.even (lo / 10 ^ e) then lo else hi)
    else if lo_ok then Some lo
    else if hi_ok then Some hi
    else None.

(** The shortest decimal that denotes [d]; seventeen digits always do. *)
Fixpoint shortest (d : Z) (k : Z) (fuel : nat) : Z :=
  match fuel with
  | O => d
  | S fuel' =>
      match with_digits d k with
      | Some v => v
      | None => shortest d (k + 1) fuel'
      end
  end.

Fixpoint strip_zeros (l : list ascii) : list ascii :=
  match l with
  | [] => []
  | c :: rest =>
      match strip_zeros rest with
      | [] => if Ascii.eqb c "0" then [] else [c]
      | rest' => c :: rest'
      end
  end.

(** Number::toString on a positive finite double with an integer value:
    plain digits up to 21 of them, exponent notation from [1e+21] on. *)
Definition render (d : Z) : string :=
  let v := shortest d 1 17 in
  let n := decimal_length v in
  if n <=? 21 then pretty v
  else
    match strip_zeros (list_ascii_of_string (pretty v)) with
    | [] => "0"
    | [c] => String c ("e+" +:+ pretty (n - 1))
    | c :: rest => String c ("." +:+ string_of_list_ascii rest +:+ "e+" +:+ pretty (n - 1))
    end.

Definition Number_toString (n : Z) : string :=
  let d := to_double n in
  if d =? 0 then "0"
  else if is_infinite d then (if d <? 0 then "-Infinity" else "Infinity")
  else if d <? 0 then "-" +:+ render (- d)
  else render d.

(** *** ToString *)

Definition function_to_string (name : string) : string :=
  "function " +:+ name +:+ "() { [native code] }".

(** ToString of a primitive value. *)
Definition primitive_to_string (v : jsval) : string :=
  match v with
  | JUndefined => "undefined"
  | JNull => "null"
  | JBool true => "true"
  | JBool false => "false"
  | JNum n => Number_toString n
  | JStr s => s
  | _ => ""
  end.

(** A built-in of [Object.prototype] called without arguments as a method
    of an object with the own properties [props]: a primitive, an object
    ([None]) or a TypeError. *)
Definition call_plain_builtin (name : string) (props : list (string * jsval))
  : completion (option jsval) :=
  let has_undefined :=
    match own_property props "undefined" with Some _ => true | None => false end in
  if String.eqb name "toString" then Return (Some (JStr "[object Object]"))
  else if String.eqb name "hasOwnProperty" || String.eqb name "propertyIsEnumerable"
  then Return (Some (JBool has_undefined))
  else if String.eqb name "isPrototypeOf" then Return (Some (JBool false))
  else if String.eqb name "__lookupGetter__" || String.eqb name "__lookupSetter__"
  then Return (Some JUndefined)
  else if String.eqb name "__defineGetter__" || String.eqb name "__defineSetter__"
  then Throw "Object.prototype.__defineGetter__: Expecting function"
  else Return None.

Definition call_builtin (name : string) (props : list (string * jsval))
  : completion (option jsval) :=
  if String.eqb name "toLocaleString" then
    (* [this.toString()] *)
    match own_property props "toString" with
    | None => Return (Some (JStr "[object Object]"))
    | Some (JFun g) =>
        if String.eqb g "toLocaleString" then Throw "Maximum call stack size exceeded"
        else call_plain_builtin g props
    | Some _ => Throw "this.toString is not a function"
    end
  else call_plain_builtin name props.

(** OrdinaryToPrimitive with hint string: [toString], then [valueOf]; a
    member that is not callable, or that answers an object, is passed over.
    An object that names none of the two inherits both: [toString] answers
    at once. *)
Definition method_to_primitive (props : list (string * jsval)) (name : string)
  : completion (option jsval) :=
  match own_property props name with
  | None =>
      if String.eqb name "toString" then Return (Some (JStr "[object Object]"))
      else Return None
  | Some (JFun f) => call_builtin f props
  | Some _ => Return None
  end.

Definition object_to_primitive (props : list (string * jsval)) : completion jsval :=
  match method_to_primitive props "toString" with
  | Throw m => Throw m
  | Return (Some p) => Return p
  | Return None =>
      match method_to_primitive props "valueOf" with
      | Throw m => Throw m
      | Return (Some p) => Return p
      | Return None => Throw "Cannot convert object to primitive value"
      end
  end.

(** ToString, as a template literal, a property key or [parseFloat] applies
    it: a TypeError for an object that has no usable [toString] or
    [valueOf], such as the parsed [{"toString":1}]. *)
Fixpoint js_to_string (v : jsval) : completion string :=
  match v with
  | JArr xs =>
      (fix join (l : list jsval) : completion string :=
         match l with
         | [] => Return ""
         | x :: rest =>
             match
               match x with
               | JUndefined | JNull => Return ""
               | _ => js_to_string x
               end
             with
             | Throw m => Throw m
             | Return s =>
                 match rest with
                 | [] => Return s
                 | _ =>
                     match join rest with
                     | Throw m => Throw m
                     | Return t => Return (s +:+ "," +:+ t)
                     end
                 end
             end
         end) xs
  | JObj props =>
      match object_to_primitive props with
      | Throw m => Throw m
      | Return p => Return (primitive_to_string p)
      end
  | JFun name => Return (function_to_string name)
  | _ => Return (primitive_to_string v)
  end.

(** [v === 'literal'] *)
Definition js_is_string (v : jsval) (s : string) : bool :=
  match v with
  | JStr s' => String.eqb s' s
  | _ => false
  end.

(** [String.prototype.toLowerCase] and [String.prototype.includes] on
    ASCII text. *)
Definition lower_ascii (c : ascii) : ascii :=
  let n := nat_of_ascii c in
  if ((65 <=? n) && (n <=? 90))%nat then ascii_of_nat (n + 32) else c.

Definition toLowerCase (s : string) : string :=
  string_of_list_ascii (map lower_ascii (list_ascii_of_string s)).

Fixpoint includes (s sub : string) : bool :=
  String.prefix sub s ||
  match s with
  | EmptyString => false
  | String _ rest => includes rest sub
  end.

Definition upper_ascii (c : ascii) : ascii :=
  let n := nat_of_ascii c in
  if ((97 <=? n) && (n <=? 122))%nat then ascii_of_nat (n - 32) else c.

Definition toUpperCase (s : string) : string :=
  string_of_list_ascii (map upper_ascii (list_ascii_of_string s)).

(** [s.replace(/\s+/g, '_')]: every run of (ASCII) white space becomes one
    underscore. *)
Definition is_space (c : ascii) : bool :=
  let n := nat_of_ascii c in
  ((9 <=? n) && (n <=? 13) || (n =? 32))%nat.

Fixpoint replace_spaces (in_run : bool) (s : string) : string :=
  match s with
  | EmptyString => EmptyString
  | String c rest =>
      if is_space c
      then (if in_run then replace_spaces true rest
            else String "_"%char (replace_spaces true rest))
      else String c (replace_spaces false rest)
  end.

(** [a === b] on values of different provenance: primitives compare by
    value, two objects (arrays, functions) are never the same object. *)
Definition js_strict_eq (a b : jsval) : bool :=
  match a, b with
  | JUndefined, JUndefined | JNull, JNull => true
  | JBool x, JBool y => Bool.eqb x y
  | JNum x, JNum y => to_double x =? to_double y
  | JStr x, JStr y => String.eqb x y
  | _, _ => false
  end.

(** [v[0]] *)
Definition js_first (v : jsval) : completion jsval :=
  match v with
  | JArr (x :: _) => Return x
  | JStr (String c _) => Return (JStr (String c EmptyString))
  | JObj props => Return (object_get props "0")
  | JUndefined => Throw "Cannot read properties of undefined (reading '0')"
  | JNull => Throw "Cannot read properties of null (reading '0')"
  | _ => Return JUndefined
  end.

End JS.
Export JS.

#[global] Instance completion_ret : MRet completion := @Return.
#[global] Instance completion_bind : MBind completion :=
  fun A B k c => bind c k.

(** ** The reverse proxy (n8n-proxy) *)

Module Proxy.

(** What the dispatcher reads of the request and what it may rewrite. *)
Record Request : Type := mkRequest {
  url : string;
  body : jsval
}.

(** Box event trigger to n8n webhook path mapping. *)
Definition TRIGGER_ROUTES : list (string * jsval) :=
  [ ("FILE.UPLOADED", JStr "box-file-upload");
    ("METADATA_INSTANCE.CREATED", JStr "box-metadata");
    ("METADATA_INSTANCE.UPDATED", JStr "box-metadata");
    ("METADATA_INSTANCE.DELETED", JStr "box-metadata");
    ("TASK_ASSIGNMENT.CREATED", JStr "box-tasks");
    ("TASK_ASSIGNMENT.UPDATED", JStr "box-tasks");
    ("SIGN_REQUEST.COMPLETED", JStr "box-sign");
    ("SIGN_REQUEST.DECLINED", JStr "box-sign");
    ("SIGN_REQUEST.EXPIRED", JStr "box-sign");
    ("COLLABORATION.CREATED", JStr "box-collab");
    ("COLLABORATION.REMOVED", JStr "box-collab") ].

(** The eleven trigger names of the table. *)
Definition known_triggers : list string := map fst TRIGGER_ROUTES.

(** [app.post('/webhook/box-file-upload', ...)]: the request as the
    dispatcher hands it to [next()].  What the proxy middleware mounted on
    [/webhook] then sends upstream is the library's matter and not
    modelled.  The handler has no [try]: a TypeError of the key lookup goes
    to Express, which answers 500 without calling [next()]. *)
Definition box_dispatcher (req : Request) : completion Request :=
  let trigger := js_get_opt (body req) "trigger" in
  if truthy trigger then
    key ← js_to_string trigger;
    let route := object_get TRIGGER_ROUTES key in
    if truthy route && negb (js_is_string route "box-file-upload") then
      path ← js_to_string route;
      let targetPath := "/webhook/" +:+ path in
      mret (mkRequest targetPath (body req))
    else mret req
  else mret req.

End Proxy.

(** ** Node's [crypto] and [JSON.stringify], as far as the webhook receiver
    uses them *)

Module Crypto.

(** Strings are read as their UTF-8 bytes. *)
Definition byte_of_ascii (c : ascii) : Z := Z.of_N (N_of_ascii c).
Definition ascii_of_byte (b : Z) : ascii := ascii_of_N (Z.to_N b).
Definition bytes_of_string (s : string) : list Z :=
  map byte_of_ascii (list_ascii_of_string s).
Definition string_of_bytes (l : list Z) : string :=
  string_of_list_ascii (map ascii_of_byte l).

(** *** SHA-256 (FIPS 180-4) on 32-bit words held in [Z] *)

Definition w32 (x : Z) : Z := x mod 2 ^ 32.
Definition add32 (x y : Z) : Z := w32 (x + y).
Definition rotr (n x : Z) : Z := Z.lor (Z.shiftr x n) (w32 (Z.shiftl x (32 - n))).
Definition not32 (x : Z) : Z := Z.lxor x (2 ^ 32 - 1).
Definition Ch (x y z : Z) : Z := Z.lxor (Z.land x y) (Z.land (not32 x) z).
Definition Maj (x y z : Z) : Z :=
  Z.lxor (Z.lxor (Z.land x y) (Z.land x z)) (Z.land y z).
Definition bsig0 (x : Z) : Z := Z.lxor (Z.lxor (rotr 2 x) (rotr 13 x)) (rotr 22 x).
Definition bsig1 (x : Z) : Z := Z.lxor (Z.lxor (rotr 6 x) (rotr 11 x)) (rotr 25 x).
Definition ssig0 (x : Z) : Z := Z.lxor (Z.lxor (rotr 7 x) (rotr 18 x)) (Z.shiftr x 3).
Definition ssig1 (x : Z) : Z := Z.lxor (Z.lxor (rotr 17 x) (rotr 19 x)) (Z.shiftr x 10).

(** The round constants are the first 32 fractional bits of the cube roots
    of the first 64 primes, the initial state those of the square roots of
    the first 8. *)
Definition is_prime (n : Z) : bool :=
  (1 <? n) &&
  forallb (fun d => (n <? d * d) || negb (n mod d =? 0))
          (map Z.of_nat (seq 2 (Z.to_nat n - 2))).

Definition first_primes (k : nat) : list Z :=
  firstn k (List.filter is_prime (map Z.of_nat (seq 2 310))).

Definition icbrt (n : Z) : Z :=
  fold_left (fun r b => let c := r + 2 ^ b in if c * c * c <=? n then c else r)
            (map Z.of_nat (rev (seq 0 36))) 0.

Definition K256 : list Z :=
  Eval vm_compute in map (fun p => w32 (icbrt (p * 2 ^ 96))) (first_primes 64).

Definition H256 : list Z :=
  Eval vm_compute in map (fun p => w32 (Z.sqrt (p * 2 ^ 64))) (first_primes 8).

(** Big-endian packing. *)
Fixpoint be_bytes (n : nat) (x : Z) : list Z :=
  match n with
  | O => []
  | S n' => (Z.shiftr x (8 * Z.of_nat n')) mod 256 :: be_bytes n' x
  end.

Fixpoint words_of_bytes (fuel : nat) (l : list Z) : list Z :=
  match fuel, l with
  | S fuel', a :: b :: c :: d :: rest =>
      (a * 2 ^ 24 + b * 2 ^ 16 + c * 2 ^ 8 + d) :: words_of_bytes fuel' rest
  | _, _ => []
  end.

Definition pad (msg : list Z) : list Z :=
  let len := Z.of_nat (length msg) in
  let zeros := Z.to_nat ((55 - len) mod 64) in
  msg ++ [128] ++ repeat 0 zeros ++ be_bytes 8 (8 * len).

Definition schedule (block : list Z) : list Z :=
  fold_left
    (fun W t =>
       W ++ [ add32 (add32 (ssig1 (nth (t - 2) W 0)) (nth (t - 7) W 0))
                    (add32 (ssig0 (nth (t - 15) W 0)) (nth (t - 16) W 0)) ])
    (seq 16 48) block.

Record regs : Type := mkRegs { ra : Z; rb : Z; rc : Z; rd : Z; re : Z; rf : Z; rg : Z; rh : Z }.

Definition round (s : regs) (kw : Z * Z) : regs :=
  let t1 := add32 (add32 (add32 (rh s) (bsig1 (re s))) (Ch (re s) (rf s) (rg s)))
                  (add32 (fst kw) (snd kw)) in
  let t2 := add32 (bsig0 (ra s)) (Maj (ra s) (rb s) (rc s)) in
  mkRegs (add32 t1 t2) (ra s) (rb s) (rc s) (add32 (rd s) t1) (re s) (rf s) (rg s).

Definition compress (h : regs) (block : list Z) : regs :=
  let s := fold_left round (combine K256 (schedule block)) h in
  mkRegs (add32 (ra h) (ra s)) (add32 (rb h) (rb s)) (add32 (rc h) (rc s))
         (add32 (rd h) (rd s)) (add32 (re h) (re s)) (add32 (rf h) (rf s))
         (add32 (rg h) (rg s)) (add32 (rh h) (rh s)).

Fixpoint blocks (fuel : nat) (ws : list Z) : list (list Z) :=
  match fuel, ws with
  | S fuel', _ :: _ => firstn 16 ws :: blocks fuel' (skipn 16 ws)
  | _, _ => []
  end.

Definition sha256 (msg : list Z) : list Z :=
  let padded := pad msg in
  let ws := words_of_bytes (length padded) padded in
  let h0 := mkRegs (nth 0 H256 0) (nth 1 H256 0) (nth 2 H256 0) (nth 3 H256 0)
                   (nth 4 H256 0) (nth 5 H256 0) (nth 6 H256 0) (nth 7 H256 0) in
  let h := fold_left compress (blocks (length ws) ws) h0 in
  flat_map (be_bytes 4) [ra h; rb h; rc h; rd h; re h; rf h; rg h; rh h].

(** *** HMAC (RFC 2104) with SHA-256 *)

Definition hmac_sha256 (key msg : list Z) : list Z :=
  let k0 := if (64 <? Z.of_nat (length key)) then sha256 key else key in
  let k := k0 ++ repeat 0 (64 - length k0)%nat in
  let ipad := map (fun b => Z.lxor b 54) k in
  let opad := map (fun b => Z.lxor b 92) k in
  sha256 (opad ++ sha256 (ipad ++ msg)).

(** *** Base64 (RFC 4648, with padding) *)

Definition base64_alphabet : string :=
  "ABCDEFGHIJKLMNOPQRSTUVWXYZabcdefghijklmnopqrstuvwxyz0123456789+/".

Definition base64_char (i : Z) : ascii :=
  match String.get (Z.to_nat i) base64_alphabet with
  | Some c => c
  | None => "="%char
  end.

Fixpoint base64_encode (fuel : nat) (l : list Z) : list ascii :=
  match fuel, l with
  | S fuel', a :: b :: c :: rest =>
      let n := a * 65536 + b * 256 + c in
      base64_char (n / 262144) :: base64_char ((n / 4096) mod 64) ::
      base64_char ((n / 64) mod 64) :: base64_char (n mod 64) ::
      base64_encode fuel' rest
  | S _, [a; b] =>
      let n := a * 65536 + b * 256 in
      [base64_char (n / 262144); base64_char ((n / 4096) mod 64);
       base64_char ((n / 64) mod 64); "="%char]
  | S _, [a] =>
      let n := a * 65536 in
      [base64_char (n / 262144); base64_char ((n / 4096) mod 64); "="%char; "="%char]
  | _, _ => []
  end.

(** [crypto.createHmac('sha256', key).update(data).digest('base64')] *)
Definition createHmac_sha256_base64 (key data : string) : string :=
  let mac := hmac_sha256 (bytes_of_string key) (bytes_of_string data) in
  string_of_list_ascii (base64_encode (length mac) mac).

(** *** [JSON.stringify] *)

Definition dquote : ascii := ascii_of_nat 34.
Definition backslash : ascii := ascii_of_nat 92.

Definition hex_digit (d : Z) : ascii :=
  match String.get (Z.to_nat d) "0123456789abcdef" with
  | Some c => c
  | None => "0"%char
  end.

Definition json_escape_char (c : ascii) : list ascii :=
  let b := byte_of_ascii c in
  if b =? 34 then [backslash; dquote]
  else if b =? 92 then [backslash; backslash]
  else if b =? 8 then [backslash; "b"%char]
  else if b =? 12 then [backslash; "f"%char]
  else if b =? 10 then [backslash; "n"%char]
  else if b =? 13 then [backslash; "r"%char]
  else if b =? 9 then [backslash; "t"%char]
  else if b <? 32 then
    [backslash; "u"%char; "0"%char; "0"%char; hex_digit (b / 16); hex_digit (b mod 16)]
  else [c].

Definition json_quote (s : string) : string :=
  string_of_list_ascii
    ([dquote] ++ flat_map json_escape_char (list_ascii_of_string s) ++ [dquote]).

(** A Number in JSON text: as ToString prints it, [null] for an infinity. *)
Definition json_number (n : Z) : string :=
  if is_infinite (to_double n) then "null" else Number_toString n.

(** The order in which the own properties of an object are enumerated:
    the keys that are array indices first, ascending, then the other keys
    in insertion order.  (A key that is listed twice counts once, with the
    value that a lookup finds.) *)
Definition is_digit (c : ascii) : bool :=
  let n := nat_of_ascii c in ((48 <=? n) && (n <=? 57))%nat.

Fixpoint decimal_value (acc : Z) (s : string) : Z :=
  match s with
  | EmptyString => acc
  | String c rest => decimal_value (10 * acc + (Z.of_nat (nat_of_ascii c) - 48)) rest
  end.

Definition array_index (k : string) : option Z :=
  match k with
  | EmptyString => None
  | String c rest =>
      if forallb is_digit (list_ascii_of_string k)
         && (negb (Ascii.eqb c "0") || String.eqb rest "")
         && (decimal_value 0 k <=? 2 ^ 32 - 2)
      then Some (decimal_value 0 k)
      else None
  end.

Fixpoint insert_index {A : Type} (i : Z) (e : string * A) (l : list (Z * (string * A)))
  : list (Z * (string * A)) :=
  match l with
  | [] => [(i, e)]
  | (j, e') :: rest =>
      if i <? j then (i, e) :: l
      else if i =? j then l
      else (j, e') :: insert_index i e rest
  end.

Fixpoint enumerate {A : Type} (seen : list string) (indices : list (Z * (string * A)))
  (others : list (string * A)) (l : list (string * A)) : list (string * A) :=
  match l with
  | [] => map snd indices ++ rev others
  | (k, x) :: rest =>
      if string_mem k seen then enumerate seen indices others rest
      else
        match array_index k with
        | Some i => enumerate (k :: seen) (insert_index i (k, x) indices) others rest
        | None => enumerate (k :: seen) indices ((k, x) :: others) rest
        end
  end.

Definition enumeration_order {A : Type} (l : list (string * A)) : list (string * A) :=
  enumerate [] [] [] l.

(** [None] is the [undefined] that [JSON.stringify] answers for [undefined]
    and for functions; inside an object such a property is left out, inside
    an array it is written [null]. *)
Fixpoint JSON_stringify (v : jsval) : option string :=
  match v with
  | JUndefined | JFun _ => None
  | JNull => Some "null"
  | JBool true => Some "true"
  | JBool false => Some "false"
  | JNum n => Some (json_number n)
  | JStr s => Some (json_quote s)
  | JArr xs =>
      let element (x : jsval) : string :=
        match JSON_stringify x with Some s => s | None => "null" end in
      Some ("[" +:+
            (fix join (l : list jsval) : string :=
               match l with
               | [] => ""
               | [x] => element x
               | x :: rest => element x +:+ "," +:+ join rest
               end) xs +:+ "]")
  | JObj props =>
      let texts :=
        (fix each (l : list (string * jsval)) : list (string * option string) :=
           match l with
           | [] => []
           | (k, x) :: rest => (k, JSON_stringify x) :: each rest
           end) props in
      Some ("{" +:+
            (fix members (first : bool) (l : list (string * option string)) : string :=
               match l with
               | [] => ""
               | (k, Some s) :: rest =>
                   (if first then "" else ",") +:+ json_quote k +:+ ":" +:+ s
                   +:+ members false rest
               | (k, None) :: rest => members first rest
               end) true (enumeration_order texts) +:+ "}")
  end.

End Crypto.

(** ** Responses and outgoing calls, shared by the services *)

Record Response : Type := mkResponse {
  statusCode : Z;
  payload : jsval
}.

(** [res.json(v)] and [res.status(n).json(v)] *)
Definition json (v : jsval) : Response := mkResponse 200 v.
Definition status_json (n : Z) (v : jsval) : Response := mkResponse n v.

(** A field of the JSON body of a response. *)
Definition field (r : Response) (k : string) : jsval := js_get_opt (payload r) k.

(** The answer of an awaited call: it resolves with a value, or rejects
    with an error ([message], and the [response.body] the Box SDK attaches
    to its errors). *)
Inductive Outcome : Type :=
| Resolved (v : jsval)
| Rejected (message : string) (details : jsval).

(** ** The extraction gateway (Box AI service) *)

Module Gateway.

Record Field : Type := mkField {
  key : string;
  type : string;
  description : string
}.

Record Config : Type := mkConfig {
  name : string;
  prompt : string;
  fields : list Field
}.

(** Extraction field definitions for different document types. *)
Definition fnol_config : Config :=
  {| name := "FNOL_Extraction";
     prompt := "Extract the following information from this First Notice of Loss document:

1. Claimant full name
2. Date of loss (incident date)
3. Time of loss
4. Location of incident (address)
5. Description of incident
6. Type of loss (auto collision, property damage, injury, etc.)
7. Policy number
8. Contact phone number
9. Contact email
10. Injuries reported (yes/no, description if yes)
11. Police report filed (yes/no, report number if yes)
12. Other parties involved (names, contact info)
13. Witnesses (names, contact info)
14. Estimated damage amount
15. Vehicle information (if auto claim: year, make, model, VIN)

Return the extracted data in a structured JSON format.";
     fields :=
       [ mkField "claimantName" "string" "Full name of the claimant";
         mkField "dateOfLoss" "date" "Date when the incident occurred";
         mkField "timeOfLoss" "string" "Time when the incident occurred";
         mkField "incidentLocation" "string" "Full address where incident occurred";
         mkField "incidentDescription" "string" "Detailed description of what happened";
         mkField "lossType" "string" "Type of loss (auto collision, property damage, etc.)";
         mkField "policyNumber" "string" "Insurance policy number";
         mkField "contactPhone" "string" "Claimant phone number";
         mkField "contactEmail" "string" "Claimant email address";
         mkField "injuriesReported" "string" "Were injuries reported (yes/no)";
         mkField "injuryDescription" "string" "Description of injuries if any";
         mkField "policeReportFiled" "string" "Was police report filed (yes/no)";
         mkField "policeReportNumber" "string" "Police report number if filed";
         mkField "otherParties" "string" "Names of other parties involved";
         mkField "witnesses" "string" "Names of witnesses";
         mkField "estimatedDamage" "string" "Estimated damage amount in dollars";
         mkField "vehicleYear" "string" "Vehicle year";
         mkField "vehicleMake" "string" "Vehicle make";
         mkField "vehicleModel" "string" "Vehicle model";
         mkField "vehicleVIN" "string" "Vehicle identification number" ] |}.

Definition medical_config : Config :=
  {| name := "Medical_Record_Extraction";
     prompt := "Extract the following information from this medical record:

1. Patient name
2. Date of service
3. Provider name and facility
4. Provider type (ER, physician, specialist, etc.)
5. Chief complaint
6. Diagnosis (ICD-10 codes if available)
7. Treatment provided
8. Procedures performed (CPT codes if available)
9. Medications prescribed
10. Follow-up instructions
11. Work restrictions (if any)
12. Prognosis
13. Total charges
14. Is this related to an accident/injury? (yes/no)

Return structured JSON format.";
     fields :=
       [ mkField "patientName" "string" "Patient full name";
         mkField "dateOfService" "date" "Date of medical service";
         mkField "providerName" "string" "Doctor or provider name";
         mkField "facilityName" "string" "Hospital or clinic name";
         mkField "providerType" "string" "Type of provider (ER, specialist, etc.)";
         mkField "chiefComplaint" "string" "Primary reason for visit";
         mkField "diagnoses" "string" "Medical diagnoses";
         mkField "icd10Codes" "string" "ICD-10 diagnosis codes";
         mkField "treatmentProvided" "string" "Treatment provided";
         mkField "procedures" "string" "Procedures performed";
         mkField "cptCodes" "string" "CPT procedure codes";
         mkField "medications" "string" "Medications prescribed";
         mkField "followUpInstructions" "string" "Follow-up care instructions";
         mkField "workRestrictions" "string" "Work restrictions if any";
         mkField "prognosis" "string" "Expected recovery prognosis";
         mkField "totalCharges" "string" "Total charges in dollars";
         mkField "accidentRelated" "string" "Is treatment accident related (yes/no)" ] |}.

Definition estimate_config : Config :=
  {| name := "Repair_Estimate_Extraction";
     prompt := "Extract the following from this repair estimate:

1. Estimate provider (shop name)
2. Estimate date
3. Estimate number
4. Vehicle/Property information
5. Line items (description, quantity, unit price, total)
6. Parts total
7. Labor total
8. Labor hours
9. Labor rate
10. Materials/supplies total
11. Sublet work
12. Tax
13. Grand total
14. Repair vs Replace decisions
15. Supplemental estimate? (yes/no)

Return structured JSON.";
     fields :=
       [ mkField "estimateProvider" "string" "Name of repair shop";
         mkField "estimateDate" "date" "Date estimate was created";
         mkField "estimateNumber" "string" "Estimate reference number";
         mkField "vehicleInfo" "string" "Vehicle year/make/model";
         mkField "lineItems" "string" "Description of repair items";
         mkField "partsTotal" "string" "Total cost of parts";
         mkField "laborTotal" "string" "Total labor cost";
         mkField "laborHours" "string" "Total labor hours";
         mkField "laborRate" "string" "Labor rate per hour";
         mkField "materialsTotal" "string" "Materials and supplies total";
         mkField "subletTotal" "string" "Sublet work total";
         mkField "tax" "string" "Tax amount";
         mkField "grandTotal" "string" "Grand total amount";
         mkField "repairVsReplace" "string" "Repair or replace decision";
         mkField "isSupplemental" "string" "Is this a supplemental estimate (yes/no)" ] |}.

Definition police_config : Config :=
  {| name := "Police_Report_Extraction";
     prompt := "Extract the following from this police/accident report:

1. Report number
2. Report date and time
3. Incident date and time
4. Incident location (full address)
5. Reporting officer name and badge number
6. Agency name
7. Involved parties (names, DOB, addresses, driver license)
8. Vehicles involved (year, make, model, plate, VIN)
9. Narrative/description of incident
10. Citations issued (to whom, violation)
11. Fault determination (if stated)
12. Injuries reported
13. Witnesses
14. Damage description
15. Weather/road conditions
16. Diagram included? (yes/no)

Return structured JSON.";
     fields :=
       [ mkField "reportNumber" "string" "Police report number";
         mkField "reportDate" "date" "Date report was filed";
         mkField "incidentDateTime" "string" "Date and time of incident";
         mkField "incidentLocation" "string" "Full address of incident";
         mkField "officerName" "string" "Reporting officer name";
         mkField "badgeNumber" "string" "Officer badge number";
         mkField "agencyName" "string" "Police department name";
         mkField "involvedParties" "string" "Names of all involved parties";
         mkField "vehicles" "string" "Vehicle information";
         mkField "narrative" "string" "Description of what happened";
         mkField "citations" "string" "Citations issued";
         mkField "faultDetermination" "string" "Fault determination if stated";
         mkField "injuries" "string" "Injuries reported";
         mkField "witnesses" "string" "Witness names";
         mkField "damageDescription" "string" "Description of damages";
         mkField "weatherConditions" "string" "Weather conditions";
         mkField "roadConditions" "string" "Road conditions";
         mkField "diagramIncluded" "string" "Diagram included (yes/no)" ] |}.

Definition invoice_config : Config :=
  {| name := "Vendor_Invoice_Extraction";
     prompt := "Extract the following from this vendor invoice:

1. Vendor name
2. Vendor address
3. Invoice number
4. Invoice date
5. Due date
6. Service description
7. Line items with amounts
8. Subtotal
9. Tax
10. Total amount
11. Payment terms
12. Reference/claim number

Return structured JSON.";
     fields :=
       [ mkField "vendorName" "string" "Vendor company name";
         mkField "vendorAddress" "string" "Vendor address";
         mkField "invoiceNumber" "string" "Invoice number";
         mkField "invoiceDate" "date" "Invoice date";
         mkField "dueDate" "date" "Payment due date";
         mkField "serviceDescription" "string" "Description of services";
         mkField "lineItems" "string" "Line items and amounts";
         mkField "subtotal" "string" "Subtotal amount";
         mkField "tax" "string" "Tax amount";
         mkField "totalAmount" "string" "Total invoice amount";
         mkField "paymentTerms" "string" "Payment terms";
         mkField "claimReference" "string" "Related claim number" ] |}.

Definition insurance_claim_config : Config :=
  {| name := "Insurance_Claim_Extraction";
     prompt := "Extract the following information from this insurance claim document:

1. Claimant full name
2. Policy number
3. Claim type (auto, property, health, life, etc.)
4. Date of incident/loss
5. Location of incident
6. Description of incident
7. Estimated claim amount
8. Contact information (phone, email, address)
9. Injuries reported (if any)
10. Property damage description (if any)
11. Third parties involved (names, contact info)
12. Witnesses (names, contact info)
13. Police/fire report filed (yes/no, report number)
14. Supporting documents listed
15. Claim status

Return the extracted data in a structured JSON format.";
     fields :=
       [ mkField "claimantName" "string" "Full name of the claimant";
         mkField "policyNumber" "string" "Insurance policy number";
         mkField "claimType" "string" "Type of insurance claim";
         mkField "dateOfIncident" "date" "Date when the incident occurred";
         mkField "incidentLocation" "string" "Location where incident occurred";
         mkField "incidentDescription" "string" "Detailed description of the incident";
         mkField "estimatedAmount" "string" "Estimated claim amount in dollars";
         mkField "contactPhone" "string" "Claimant phone number";
         mkField "contactEmail" "string" "Claimant email address";
         mkField "contactAddress" "string" "Claimant address";
         mkField "injuriesReported" "string" "Description of injuries if any";
         mkField "propertyDamage" "string" "Description of property damage";
         mkField "thirdParties" "string" "Third parties involved";
         mkField "witnesses" "string" "Witness names and contact info";
         mkField "policeReportFiled" "string" "Police/fire report filed (yes/no)";
         mkField "reportNumber" "string" "Police/fire report number";
         mkField "supportingDocuments" "string" "List of supporting documents";
         mkField "claimStatus" "string" "Current status of the claim" ] |}.

Definition EXTRACTION_CONFIGS : list (string * Config) :=
  [ ("fnol", fnol_config);
    ("medical", medical_config);
    ("estimate", estimate_config);
    ("police", police_config);
    ("invoice", invoice_config);
    ("insurance_claim", insurance_claim_config) ].

Fixpoint own_config (table : list (string * Config)) (k : string) : option Config :=
  match table with
  | [] => None
  | (k', c) :: rest => if String.eqb k' k then Some c else own_config rest k
  end.

(** [EXTRACTION_CONFIGS[extractionType]]: an entry of the table, a member
    inherited from [Object.prototype] (truthy, but no configuration), or
    [undefined]. *)
Inductive config_lookup : Type :=
| Entry (c : Config)
| Inherited (v : jsval)
| NoEntry.

Definition lookup_config (k : string) : config_lookup :=
  match own_config EXTRACTION_CONFIGS k with
  | Some c => Entry c
  | None => if truthy (inherited_property k) then Inherited (inherited_property k) else NoEntry
  end.

(** What leaves the service. *)
Inductive Call : Type :=
| BoxPost (path : string) (body : jsval)
| Fetch (url : string) (body : jsval).

(** The process: the module-level [boxClient] and the environment. *)
Record Service : Type := mkService {
  boxClient : bool;
  BOX_WEBHOOK_PRIMARY_KEY : option string;
  N8N_WEBHOOK_URL : option string
}.

(** What the outside world answers during one request. *)
Record World : Type := mkWorld {
  initializeBoxClient : option string; (* [Some m]: it throws with message [m] *)
  vendor : Outcome;                    (* the answer to [boxClient.post] *)
  n8n : Outcome;                       (* the answer to [fetch] *)
  now : string                         (* [new Date().toISOString()] *)
}.

Record Result : Type := mkResult {
  response : Response;
  calls : list Call;
  service : Service
}.

(** The field list sent to [/ai/extract_structured]. *)
Definition vendor_field (f : Field) : jsval :=
  JObj [ ("key", JStr (key f));
         ("type", JStr (if String.eqb (type f) "date" then "string" else type f));
         ("description", JStr (description f));
         ("prompt", JStr ("What is the " +:+ toLowerCase (description f) +:+ "?")) ].

Definition extract_request (fileId : jsval) (config : Config) : jsval :=
  JObj [ ("items", JArr [JObj [("type", JStr "file"); ("id", fileId)]]);
         ("fields", JArr (map vendor_field (fields config))) ].

(** The [catch] of the AI routes. *)
Definition extraction_error (message : string) (details : jsval) : Response :=
  status_json 500 (JObj [ ("success", JBool false);
                          ("error", JStr message);
                          ("details", details) ]).

Definition with_client (s : Service) : Service :=
  mkService true (BOX_WEBHOOK_PRIMARY_KEY s) (N8N_WEBHOOK_URL s).

(** [app.post('/extract', ...)] *)
Definition extract (s : Service) (w : World) (body : jsval) : Result :=
  match
    fileId0 ← js_get body "fileId";
    fileId1 ← js_get body "file_id";
    type0 ← js_get body "extractionType";
    type1 ← js_get body "extraction_type";
    mret (js_or fileId0 fileId1, js_or type0 type1)
  with
  | Throw m => mkResult (extraction_error m JUndefined) [] s
  | Return (fileId, extractionType) =>
      if negb (truthy fileId) then
        mkResult (status_json 400 (JObj [("error", JStr "fileId is required")])) [] s
      else
        match
          (if truthy extractionType
           then key ← js_to_string extractionType; mret (lookup_config key)
           else mret NoEntry)
        with
        | Throw m => mkResult (extraction_error m JUndefined) [] s
        | Return NoEntry =>
            mkResult (status_json 400
                        (JObj [ ("error", JStr "Invalid extractionType");
                                ("validTypes", JArr (map (fun e => JStr (fst e)) EXTRACTION_CONFIGS)) ]))
                     [] s
        | Return found =>
            match (if boxClient s then None else initializeBoxClient w) with
            | Some m => mkResult (extraction_error m JUndefined) [] s
            | None =>
                let s' := with_client s in
                (* console.log(`Extracting ${extractionType} data from file ${fileId}`) *)
                match
                  _ ← js_to_string extractionType;
                  js_to_string fileId
                with
                | Throw m => mkResult (extraction_error m JUndefined) [] s'
                | Return _ =>
                match found with
                | Entry config =>
                    let call := BoxPost "/ai/extract_structured" (extract_request fileId config) in
                    match vendor w with
                    | Rejected m details => mkResult (extraction_error m details) [call] s'
                    | Resolved extractResponse =>
                        match
                          rbody ← js_get extractResponse "body";
                          answer ← js_get rbody "answer";
                          aiInfo ← js_get rbody "ai_agent_info";
                          mret (JObj [ ("success", JBool true);
                                       ("fileId", fileId);
                                       ("extractionType", extractionType);
                                       ("timestamp", JStr (now w));
                                       ("data", js_or answer rbody);
                                       ("aiInfo", aiInfo) ])
                        with
                        | Return result => mkResult (json result) [call] s'
                        | Throw m => mkResult (extraction_error m JUndefined) [call] s'
                        end
                    end
                | _ =>
                    (* [config.fields] is undefined: [.map] throws before any call *)
                    mkResult (extraction_error "Cannot read properties of undefined (reading 'map')"
                                               JUndefined) [] s'
                end
                end
            end
        end
  end.

(** The request of the webhook receiver: the [x-box-signature] header, if
    any, and the parsed body. *)
Record WebhookRequest : Type := mkWebhookRequest {
  x_box_signature : option string;
  body : jsval
}.

(** An environment variable or a header as a value: unset is [undefined]. *)
Definition of_option (o : option string) : jsval :=
  match o with
  | Some v => JStr v
  | None => JUndefined
  end.

Definition quoted (s : string) : string :=
  String Crypto.dquote (s +:+ String Crypto.dquote EmptyString).

(** The HMAC the receiver computes over the re-serialised body;
    [hmac.update] throws on the [undefined] that [JSON.stringify] may answer. *)
Definition expectedSignature (primaryKey : string) (body : jsval) : completion string :=
  match Crypto.JSON_stringify body with
  | Some data => Return (Crypto.createHmac_sha256_base64 primaryKey data)
  | None =>
      Throw ("The " +:+ quoted "data" +:+ " argument must be of type string or an instance of "
             +:+ "Buffer, TypedArray, or DataView. Received undefined")
  end.

(** Determine extraction type based on filename. *)
Definition extraction_type_of (fileName : jsval) : completion string :=
  match fileName with
  | JStr n =>
      let l := toLowerCase n in
      Return (if includes l "medical" then "medical"
              else if includes l "estimate" then "estimate"
              else if includes l "police" then "police"
              else if includes l "invoice" then "invoice"
              else "fnol")
  | JUndefined => Throw "Cannot read properties of undefined (reading 'toLowerCase')"
  | JNull => Throw "Cannot read properties of null (reading 'toLowerCase')"
  | _ => Throw "fileName.toLowerCase is not a function"
  end.

Definition webhook_error (message : string) : Response :=
  status_json 500 (JObj [("error", JStr message)]).

Definition received : Response := json (JObj [("received", JBool true)]).

(** [const { trigger, source } = req.body] *)
Definition destructure_event (body : jsval) : completion (jsval * jsval) :=
  match body with
  | JUndefined =>
      Throw "Cannot destructure property 'trigger' of 'req.body' as it is undefined."
  | JNull =>
      Throw "Cannot destructure property 'trigger' of 'req.body' as it is null."
  | _ =>
      trigger ← js_get body "trigger";
      source ← js_get body "source";
      mret (trigger, source)
  end.

(** The event of a request, once it has been written to the log:
    [console.log(`Received webhook: ${trigger} for ${source?.type} ${source?.id}`)] *)
Definition read_event (body : jsval) : completion (jsval * jsval) :=
  '(trigger, source) ← destructure_event body;
  _ ← js_to_string trigger;
  _ ← js_to_string (js_get_opt source "type");
  _ ← js_to_string (js_get_opt source "id");
  mret (trigger, source).

(** The part of the receiver after the signature check: handle the event
    and acknowledge it. *)
Definition handle_event (s : Service) (w : World) (body : jsval) : Response * list Call :=
  match read_event body with
  | Throw m => (webhook_error m, [])
  | Return (trigger, source) =>
      if js_is_string trigger "FILE.UPLOADED" then
        match
          fileId ← js_get source "id";
          fileName ← js_get source "name";
          extractionType ← extraction_type_of fileName;
          mret (fileId, fileName, extractionType)
        with
        | Throw m => (webhook_error m, [])
        | Return (fileId, fileName, extractionType) =>
            if truthy (of_option (N8N_WEBHOOK_URL s)) then
              let n8nPayload :=
                JObj [ ("event", JStr "file.uploaded");
                       ("fileId", fileId);
                       ("fileName", fileName);
                       ("extractionType", JStr extractionType);
                       ("source", source);
                       ("timestamp", JStr (now w)) ] in
              let call :=
                Fetch (primitive_to_string (of_option (N8N_WEBHOOK_URL s)) +:+ "/box-file-upload")
                      n8nPayload in
              match n8n w with
              | Resolved _ => (received, [call])
              | Rejected m _ => (webhook_error m, [call])
              end
            else (received, [])
        end
      else (received, [])
  end.

(** The receiver from [const { trigger, source } = req.body] on: handle the
    event and answer, with no signature involved. *)
Definition acknowledge (s : Service) (w : World) (body : jsval) : Result :=
  let '(r, cs) := handle_event s w body in mkResult r cs s.

(** [app.post('/webhook/box', ...)] *)
Definition webhook_box (s : Service) (w : World) (req : WebhookRequest) : Result :=
  let signature := of_option (x_box_signature req) in
  let primaryKey := of_option (BOX_WEBHOOK_PRIMARY_KEY s) in
  if truthy primaryKey && truthy signature then
    match expectedSignature (primitive_to_string primaryKey) (body req) with
    | Throw m => mkResult (webhook_error m) [] s
    | Return expected =>
        if negb (js_is_string signature expected)
        then mkResult (status_json 401 (JObj [("error", JStr "Invalid signature")])) [] s
        else acknowledge s w (body req)
    end
  else acknowledge s w (body req).

(** *** Observations on a run *)

(** The document-type keys of the configuration table. *)
Definition document_types : list string := map fst EXTRACTION_CONFIGS.

(** The answer of the route once the vendor has been called. *)
Definition answer_of (w : World) (fileId extractionType : jsval) : Response :=
  match vendor w with
  | Rejected m details => extraction_error m details
  | Resolved extractResponse =>
      match js_get extractResponse "body" with
      | Throw m => extraction_error m JUndefined
      | Return rbody =>
          match js_get rbody "answer" with
          | Throw m => extraction_error m JUndefined
          | Return answer =>
              json (JObj [ ("success", JBool true);
                           ("fileId", fileId);
                           ("extractionType", extractionType);
                           ("timestamp", JStr (now w));
                           ("data", js_or answer rbody);
                           ("aiInfo", js_get_opt rbody "ai_agent_info") ])
          end
      end
  end.

(** The twenty field keys of the FNOL configuration. *)
Definition fnol_keys : list string :=
  [ "claimantName"; "dateOfLoss"; "timeOfLoss"; "incidentLocation"; "incidentDescription";
    "lossType"; "policyNumber"; "contactPhone"; "contactEmail"; "injuriesReported";
    "injuryDescription"; "policeReportFiled"; "policeReportNumber"; "otherParties";
    "witnesses"; "estimatedDamage"; "vehicleYear"; "vehicleMake"; "vehicleModel";
    "vehicleVIN" ].

(** The field keys a request to [/ai/extract_structured] asks for. *)
Definition requested_keys (request : jsval) : list jsval :=
  match js_get_opt request "fields" with
  | JArr fs => map (fun f => js_get_opt f "key") fs
  | _ => []
  end.

(** *** Concrete runs *)

(** A gateway with a Box client and the webhook key [secret]; the same
    without a key. *)
Definition keyed_service : Service := mkService true (Some "secret") None.
Definition keyless_service : Service := mkService true None None.

(** Box AI answers an extraction, n8n is reachable. *)
Definition calm_world : World :=
  mkWorld None
          (Resolved (JObj [("body", JObj [ ("answer", JObj [("claimantName", JStr "John Smith")]);
                                           ("ai_agent_info", JObj [("models", JArr [])]) ])]))
          (Resolved JNull)
          "2023-11-14T22:13:20.000Z".

(** Box AI answers with a key that no configuration asks for. *)
Definition vendor_off_script : World :=
  mkWorld None
          (Resolved (JObj [("body", JObj [ ("answer", JObj [ ("claimantName", JStr "John Smith");
                                                             ("confidence", JStr "high") ]);
                                           ("ai_agent_info", JObj [("models", JArr [])]) ])]))
          (Resolved JNull)
          "2023-11-14T22:13:20.000Z".

(** Box AI refuses. *)
Definition vendor_down : World :=
  mkWorld None (Rejected "Unexpected API Response [429 Too Many Requests]" JUndefined)
          (Resolved JNull) "2023-11-14T22:13:20.000Z".

Definition fnol_request : jsval :=
  JObj [("fileId", JStr "123"); ("extractionType", JStr "fnol")].

(** An upload event without its [source]. *)
Definition upload_event_without_source : jsval := JObj [("trigger", JStr "FILE.UPLOADED")].

(** A well-formed upload event, on a gateway that forwards to n8n while n8n
    is unreachable. *)
Definition upload_event : jsval :=
  JObj [ ("trigger", JStr "FILE.UPLOADED");
         ("source", JObj [ ("id", JStr "1234567890"); ("type", JStr "file");
                           ("name", JStr "Medical_Report.pdf") ]) ].

Definition forwarding_service : Service :=
  mkService true (Some "secret") (Some "https://n8n.suresafe.com/webhook").

Definition n8n_down : World :=
  mkWorld None (Resolved JNull) (Rejected "fetch failed" JUndefined)
          "2023-11-14T22:13:20.000Z".

End Gateway.

(** ** The portal backend *)

Module Portal.

(** *** Configuration (the defaults checked into the source) *)

Definition CLOUD_RUN_API : string := "https://suresafe-box-ai-579767694933.us-central1.run.app".
Definition CLAIMS_FOLDER_ID : string := "360172830890".
Definition CAMUNDA_REST_URL : string := "http://34.174.224.170:8088".
Definition CAMUNDA_TASKLIST_URL : string := "http://34.174.224.170:8082".
Definition PROCESS_DEFINITION_KEY : string := "Process_ClaimsProcessing".
Definition RELAY_WORKFLOW_ID : string := "1568430561".

(** *** Data model *)

(** A row of the claims table.  [status] is free text, [statusHistory] a
    JSON array of entries [{status, date, note, updatedBy}], newest first;
    no route below writes the last three workflow columns. *)
Record Claim : Type := mkClaim {
  id : string;
  userId : jsval;
  userName : jsval;
  policyNumber : jsval;
  claimType : jsval;
  description : jsval;
  incidentDate : jsval;
  estimatedAmount : jsval;
  status : jsval;
  statusHistory : jsval;
  boxFolderId : jsval;
  documents : jsval;
  aiExtraction : jsval;
  processInstanceKey : jsval;
  workflowStatus : jsval;
  riskScore : jsval;
  assignedAdjusterId : jsval;
  assignedAdjusterName : jsval;
  createdAt : jsval;
  updatedAt : jsval
}.

(** The process: the Box client (absent when its initialisation failed at
    start-up) and the claims table. *)
Record Server : Type := mkServer {
  boxClient : bool;
  claims : gmap string Claim
}.

(** [req.session] *)
Record Session : Type := mkSession {
  user : jsval;
  adminUser : jsval
}.

(** An uploaded file as multer hands it over (the buffer is not modelled). *)
Record File : Type := mkFile {
  originalname : string;
  size : Z;
  mimetype : string
}.

(** The answer to a [fetch] of the workflow engine. *)
Record HttpReply : Type := mkHttpReply {
  reply_status : Z;
  reply_is_json : bool;          (* content-type includes application/json *)
  reply_text : string;           (* [response.text()] *)
  reply_json : completion jsval  (* [response.json()] *)
}.

Inductive HttpAnswer : Type :=
| NetworkError (message : string)
| Reply (r : HttpReply).

(** What the outside world answers during one request. *)
Record World : Type := mkWorld {
  now : Z;                       (* [Date.now()] when the request starts *)
  later : Z;                     (* [Date.now()] in the fallback branch *)
  isoNow : string;               (* [new Date().toISOString()] *)
  uuid : string;                 (* [uuidv4()] *)
  parsedAmount : jsval;          (* [parseFloat(estimatedAmount) || 0], a float *)
  folder : Outcome;              (* [boxClient.folders.create] *)
  upload : nat -> Outcome;       (* [boxClient.files.uploadFile], per file index *)
  extraction : Outcome;          (* the extraction gateway, parsed *)
  camunda : HttpAnswer;          (* the workflow engine *)
  db_find : option string;       (* [Some m]: the query throws with message [m] *)
  db_create : option string;
  db_update : nat -> option string (* per [claim.update] of the request *)
}.

(** What leaves the portal. *)
Inductive Call : Type :=
| FoldersCreate (parentId name : string)
| BoxPost (path : string) (body : jsval)
| UploadFile (folderId : jsval) (name : string)
| Fetch (url : string) (body : jsval)
| CamundaFetch (url method : string) (body : jsval).

Record Result : Type := mkResult {
  response : option Response;    (* [None]: the handler rejects, nothing is sent *)
  calls : list Call;
  server : Server;
  session : Session
}.

(** *** The workflow engine request helper *)

(** [camundaRequest(endpoint, options)]: one [fetch], an error for a status
    outside 2xx, the body as JSON or as text.  (The bearer token of
    [getCamundaAccessToken] only adds a header and is left out.) *)
Definition camunda_url (endpoint : string) : string :=
  if String.prefix "http" endpoint then endpoint else CAMUNDA_REST_URL +:+ endpoint.

Definition camunda_answer (w : World) : completion jsval :=
  match camunda w with
  | NetworkError m => Throw m
  | Reply r =>
      if (200 <=? reply_status r) && (reply_status r <=? 299) then
        (if reply_is_json r then reply_json r else Return (JStr (reply_text r)))
      else
        Throw ("Camunda API error: " +:+ pretty (reply_status r) +:+ " - " +:+ reply_text r)
  end.

Definition camundaRequest (w : World) (endpoint method : string) (body : jsval)
  : completion jsval * list Call :=
  (camunda_answer w, [CamundaFetch (camunda_url endpoint) method body]).

(** *** Database access *)

(** [Claim.findByPk(key)]: the row with that primary key, if any. *)
Definition findByPk (sv : Server) (w : World) (key : jsval) : completion (option Claim) :=
  match db_find w with
  | Some m => Throw m
  | None =>
      match key with
      | JStr k => Return (claims sv !! k)
      | _ => Return None
      end
  end.

(** [claim.update(...)] writes the instance back under its primary key. *)
Definition save (sv : Server) (c : Claim) : Server :=
  mkServer (boxClient sv) (<[id c := c]> (claims sv)).

Definition update (sv : Server) (w : World) (n : nat) (c : Claim) : completion Server :=
  match db_update w n with
  | Some m => Throw m
  | None => Return (save sv c)
  end.

(** The fields of [claim.update({...})]: Sequelize leaves out a value that
    is [undefined], so the column keeps what it had. *)
Definition assign (given current : jsval) : jsval :=
  match given with
  | JUndefined => current
  | _ => given
  end.

(** [claim.update({ processInstanceKey, workflowStatus })] *)
Definition set_workflow (c : Claim) (key workflow : jsval) (at_ : jsval) : Claim :=
  mkClaim (id c) (userId c) (userName c) (policyNumber c) (claimType c) (description c)
          (incidentDate c) (estimatedAmount c) (status c) (statusHistory c) (boxFolderId c)
          (documents c) (aiExtraction c)
          (assign key (processInstanceKey c)) (assign workflow (workflowStatus c))
          (riskScore c) (assignedAdjusterId c) (assignedAdjusterName c)
          (createdAt c) at_.

(** [claim.update({ status, statusHistory })] *)
Definition set_status (c : Claim) (newStatus history : jsval) (at_ : jsval) : Claim :=
  mkClaim (id c) (userId c) (userName c) (policyNumber c) (claimType c) (description c)
          (incidentDate c) (estimatedAmount c)
          (assign newStatus (status c)) (assign history (statusHistory c)) (boxFolderId c)
          (documents c) (aiExtraction c) (processInstanceKey c) (workflowStatus c)
          (riskScore c) (assignedAdjusterId c) (assignedAdjusterName c)
          (createdAt c) at_.

(** The status of the newest entry of a history. *)
Definition history_head_status (history : jsval) : option jsval :=
  match history with
  | JArr (JObj entry :: _) => Some (object_get entry "status")
  | _ => None
  end.

(** [statusHistory.unshift(entry)] on [claim.statusHistory || []] *)
Definition unshift (history entry : jsval) : completion jsval :=
  match js_or history (JArr []) with
  | JArr xs => Return (JArr (entry :: xs))
  | _ => Throw "statusHistory.unshift is not a function"
  end.

(** [const { a, b } = req.body] *)
Definition destructure2 (body : jsval) (a b : string) : completion (jsval * jsval) :=
  match body with
  | JUndefined =>
      Throw ("Cannot destructure property '" +:+ a +:+ "' of 'req.body' as it is undefined.")
  | JNull =>
      Throw ("Cannot destructure property '" +:+ a +:+ "' of 'req.body' as it is null.")
  | _ =>
      x ← js_get body a;
      y ← js_get body b;
      mret (x, y)
  end.

(** *** Claim submission: [app.post('/api/claims', ...)] *)

Record Submission : Type := mkSubmission {
  body : jsval;
  files : list File
}.

(** Create claim folder in Box and trigger the Relay workflow for it; a
    failure of either is logged and swallowed (so the answer to the Relay
    start is never looked at). *)
Definition create_folder (sv : Server) (w : World) (folderName : string) : jsval * list Call :=
  if boxClient sv then
    let create := FoldersCreate CLAIMS_FOLDER_ID folderName in
    match folder w with
    | Rejected _ _ => (JUndefined, [create])
    | Resolved f =>
        match js_get f "id" with
        | Throw _ => (JUndefined, [create])
        | Return claimFolderId =>
            (* console.log(`Created claim folder: ${folder.id}`): when it
               throws, the folder id is kept and the Relay start skipped *)
            match js_to_string claimFolderId with
            | Throw _ => (claimFolderId, [create])
            | Return _ =>
                (claimFolderId,
                 [ create;
                   BoxPost ("/workflows/" +:+ RELAY_WORKFLOW_ID +:+ "/start")
                           (JObj [ ("type", JStr "workflow_parameters");
                                   ("flow", JObj [("id", JStr RELAY_WORKFLOW_ID); ("type", JStr "flow")]);
                                   ("folder", JObj [("id", claimFolderId); ("type", JStr "folder")]) ]) ])
            end
        end
    end
  else (JUndefined, []).

(** [uploadedFile.entries[0].id] *)
Definition uploaded_id (o : Outcome) : completion jsval :=
  match o with
  | Rejected m _ => Throw m
  | Resolved uploadedFile =>
      entries ← js_get uploadedFile "entries";
      first ← js_first entries;
      js_get first "id"
  end.

(** Upload documents to Box: each file on its own, a failed one is logged
    and skipped.  [i] is the index of the first file of [fs] in [req.files]. *)
Fixpoint upload_files (w : World) (claimFolderId : jsval) (i : nat) (fs : list File)
  : list jsval * list Call :=
  match fs with
  | [] => ([], [])
  | file :: rest =>
      let '(docs, cs) := upload_files w claimFolderId (S i) rest in
      let call := UploadFile claimFolderId (originalname file) in
      match uploaded_id (upload w i) with
      | Return fileId =>
          (JObj [ ("id", fileId);
                  ("name", JStr (originalname file));
                  ("size", JNum (size file));
                  ("type", JStr (mimetype file)) ] :: docs,
           call :: cs)
      | Throw _ => (docs, call :: cs)
      end
  end.

Definition upload_documents (sv : Server) (w : World) (claimFolderId : jsval) (fs : list File)
  : list jsval * list Call :=
  if (0 <? length fs)%nat && boxClient sv && truthy claimFolderId
  then upload_files w claimFolderId 0 fs
  else ([], []).

(** Trigger AI extraction via Cloud Run API, on [uploadedDocs[0]]. *)
Definition trigger_extraction (w : World) (claimFolderId : jsval) (uploadedDocs : list jsval)
  : jsval * list Call :=
  match uploadedDocs with
  | first :: _ =>
      if truthy claimFolderId then
        let call := Fetch (CLOUD_RUN_API +:+ "/extract")
                          (JObj [ ("file_id", js_get_opt first "id");
                                  ("extraction_type", JStr "insurance_claim") ]) in
        match extraction w with
        | Resolved aiExtraction => (aiExtraction, [call])
        | Rejected _ _ => (JNull, [call])
        end
      else (JNull, [])
  | [] => (JNull, [])
  end.

(** Start Camunda process for the claim; on any failure fall back to demo
    mode.  The first [claim.update] of the request is update 0, the one of
    the fallback comes next. *)
Definition start_process (sv : Server) (w : World) (claim : Claim) (session_user : jsval)
  : completion (jsval * Claim * Server) * list Call :=
  let request :=
    JObj [ ("processDefinitionKey", JStr PROCESS_DEFINITION_KEY);
           ("variables",
            JObj [ ("claimId", JObj [("value", JStr (id claim)); ("type", JStr "String")]);
                   ("userName", JObj [("value", js_get_opt session_user "name"); ("type", JStr "String")]);
                   ("userId", JObj [("value", js_get_opt session_user "id"); ("type", JStr "String")]);
                   ("claimType", JObj [("value", claimType claim); ("type", JStr "String")]);
                   ("estimatedAmount", JObj [("value", estimatedAmount claim); ("type", JStr "Double")]);
                   ("boxFolderId", JObj [("value", js_or (boxFolderId claim) (JStr "")); ("type", JStr "String")]) ]) ] in
  let '(answer, cs) := camundaRequest w "/v2/process-instances" "POST" request in
  let demo (updates : nat) :=
    let processInstanceKey := JStr ("demo-process-" +:+ pretty (later w)) in
    let claim' := set_workflow claim processInstanceKey (JStr "DEMO") (JStr (isoNow w)) in
    sv' ← update sv w updates claim';
    mret (processInstanceKey, claim', sv') in
  match
    processResponse ← answer;
    k ← js_get processResponse "key";
    k' ← js_get processResponse "processInstanceKey";
    mret (js_or k k')
  with
  | Throw _ => (demo 0%nat, cs)
  | Return processInstanceKey =>
      let claim' := set_workflow claim processInstanceKey (JStr "STARTED") (JStr (isoNow w)) in
      match update sv w 0 claim' with
      | Return sv' => (Return (processInstanceKey, claim', sv'), cs)
      | Throw _ => (demo 1%nat, cs)
      end
  end.

Definition submission_response (claim : Claim) (processInstanceKey : jsval) (w : World) : Response :=
  json (JObj [ ("success", JBool true);
               ("claim",
                JObj [ ("id", JStr (id claim));
                       ("userId", userId claim);
                       ("userName", userName claim);
                       ("policyNumber", policyNumber claim);
                       ("claimType", claimType claim);
                       ("description", description claim);
                       ("incidentDate", incidentDate claim);
                       ("estimatedAmount", estimatedAmount claim);
                       ("status", status claim);
                       ("statusHistory", statusHistory claim);
                       ("boxFolderId", boxFolderId claim);
                       ("documents", documents claim);
                       ("aiExtraction", aiExtraction claim);
                       ("processInstanceKey", processInstanceKey);
                       ("workflowStatus", workflowStatus claim);
                       ("createdAt", createdAt claim);
                       ("updatedAt", updatedAt claim) ]) ]).

Definition failure (code : Z) (message : string) : Response :=
  status_json code (JObj [("success", JBool false); ("message", JStr message)]).

Definition submit_claim (sv : Server) (ss : Session) (w : World) (req : Submission) : Result :=
  if negb (truthy (user ss)) then
    mkResult (Some (failure 401 "Not authenticated")) [] sv ss
  else
    match
      '(claimType_, description_) ← destructure2 (body req) "claimType" "description";
      incidentDate_ ← js_get (body req) "incidentDate";
      estimatedAmount_ ← js_get (body req) "estimatedAmount";
      name ← js_get (user ss) "name";
      match name with
      | JStr n => mret (claimType_, description_, incidentDate_, estimatedAmount_, n)
      | JUndefined => Throw "Cannot read properties of undefined (reading 'replace')"
      | JNull => Throw "Cannot read properties of null (reading 'replace')"
      | _ => Throw "req.session.user.name.replace is not a function"
      end
    with
    | Throw m => mkResult (Some (failure 500 m)) [] sv ss
    | Return (claimType_, description_, incidentDate_, estimatedAmount_, userName_) =>
        let claimId :=
          "CLM-" +:+ pretty (now w) +:+ "-" +:+ toUpperCase (String.substring 0 4 (uuid w)) in
        let folderName := claimId +:+ "_" +:+ replace_spaces false userName_ in
        let '(claimFolderId, cs1) := create_folder sv w folderName in
        let '(uploadedDocs, cs2) := upload_documents sv w claimFolderId (files req) in
        let statusHistory_ :=
          JArr [JObj [ ("status", JStr "Submitted");
                       ("date", JStr (isoNow w));
                       ("note", JStr "Claim submitted by member") ]] in
        let '(aiExtraction_, cs3) := trigger_extraction w claimFolderId uploadedDocs in
        let claim :=
          mkClaim claimId (js_get_opt (user ss) "id") (JStr userName_)
                  (js_get_opt (user ss) "policyNumber") claimType_ description_ incidentDate_
                  (parsedAmount w) (JStr "Submitted") statusHistory_ claimFolderId
                  (JArr uploadedDocs) aiExtraction_ JUndefined (JStr "NOT_STARTED")
                  JNull JNull JNull
                  (JStr (isoNow w)) (JStr (isoNow w)) in
        (* [parseFloat(estimatedAmount)] first turns its argument into a
           string; the number it reads there is [parsedAmount w] *)
        match js_to_string estimatedAmount_ with
        | Throw m => mkResult (Some (failure 500 m)) (cs1 ++ cs2 ++ cs3) sv ss
        | Return _ =>
        match db_create w with
        | Some m => mkResult (Some (failure 500 m)) (cs1 ++ cs2 ++ cs3) sv ss
        | None =>
            let sv1 := save sv claim in
            let '(started, cs4) := start_process sv1 w claim (user ss) in
            match started with
            | Throw m => mkResult (Some (failure 500 m)) (cs1 ++ cs2 ++ cs3 ++ cs4) sv1 ss
            | Return (processInstanceKey, claim', sv2) =>
                mkResult (Some (submission_response claim' processInstanceKey w))
                         (cs1 ++ cs2 ++ cs3 ++ cs4) sv2 ss
            end
        end
        end
    end.

(** *** Admin routes *)

(** [requireAdminAuth] on an [/api/] path. *)
Definition not_authenticated : Response := failure 401 "Not authenticated".

(** A claim as [res.json] serialises it: every column of the model. *)
Definition claim_json (c : Claim) : jsval :=
  JObj [ ("id", JStr (id c));
         ("userId", userId c);
         ("userName", userName c);
         ("policyNumber", policyNumber c);
         ("claimType", claimType c);
         ("description", description c);
         ("incidentDate", incidentDate c);
         ("estimatedAmount", estimatedAmount c);
         ("status", status c);
         ("statusHistory", statusHistory c);
         ("boxFolderId", boxFolderId c);
         ("documents", documents c);
         ("aiExtraction", aiExtraction c);
         ("processInstanceKey", processInstanceKey c);
         ("workflowStatus", workflowStatus c);
         ("riskScore", riskScore c);
         ("assignedAdjusterId", assignedAdjusterId c);
         ("assignedAdjusterName", assignedAdjusterName c);
         ("createdAt", createdAt c);
         ("updatedAt", updatedAt c) ].

(** The demo-mode decision table of the task-completion route. *)
Definition decision_of (variables : jsval) : jsval :=
  let value_of (k : string) := js_get_opt (js_get_opt variables k) "value" in
  js_or (js_or (js_or (value_of "adjusterDecision") (value_of "reviewDecision"))
               (value_of "managerDecision"))
        (value_of "investigationOutcome").

Definition demo_status (current decision : jsval) : jsval :=
  if js_is_string decision "approve" || js_is_string decision "approved"
     || js_is_string decision "CLEARED" then JStr "Approved"
  else if js_is_string decision "deny" || js_is_string decision "FRAUD_CONFIRMED" then JStr "Denied"
  else if js_is_string decision "escalate" then JStr "Escalated"
  else if js_is_string decision "request_more_docs" then JStr "Pending Documents"
  else current.

Definition demo_completed (taskId : string) : Response :=
  json (JObj [ ("success", JBool true);
               ("result", JObj [("completed", JBool true); ("taskId", JStr taskId)]);
               ("demo", JBool true) ]).

(** The [catch] of the task-completion route: update claim status based on
    decision.  Nothing catches what it throws itself. *)
Definition complete_task_demo (sv : Server) (ss : Session) (w : World)
  (taskId : string) (body : jsval) : completion (Response * Server) :=
  '(variables, claimId) ← destructure2 body "variables" "claimId";
  found ← findByPk sv w claimId;
  match found with
  | Some claim =>
      if truthy variables then
        let decision := decision_of variables in
        let newStatus := demo_status (status claim) decision in
        text ← js_to_string decision;
        let entry :=
          JObj [ ("status", newStatus);
                 ("date", JStr (isoNow w));
                 ("note", JStr ("Task completed with decision: " +:+ text));
                 ("updatedBy", js_or (js_get_opt (adminUser ss) "name") (JStr "System")) ] in
        statusHistory_ ← unshift (statusHistory claim) entry;
        sv' ← update sv w 0 (set_status claim newStatus statusHistory_ (JStr (isoNow w)));
        mret (demo_completed taskId, sv')
      else mret (demo_completed taskId, sv)
  | None => mret (demo_completed taskId, sv)
  end.

(** [app.post('/api/admin/camunda/task/:taskId/complete', ...)] *)
Definition complete_task (sv : Server) (ss : Session) (w : World)
  (taskId : string) (body : jsval) : Result :=
  if negb (truthy (adminUser ss)) then mkResult (Some not_authenticated) [] sv ss
  else
    let '(answer, cs) :=
      match destructure2 body "variables" "claimId" with
      | Throw m => (Throw m, [])
      | Return (variables, _) =>
          camundaRequest w (CAMUNDA_TASKLIST_URL +:+ "/v1/tasks/" +:+ taskId +:+ "/complete")
                         "PATCH" (JObj [("variables", variables)])
      end in
    match answer with
    | Return result =>
        mkResult (Some (json (JObj [("success", JBool true); ("result", result)]))) cs sv ss
    | Throw _ =>
        match complete_task_demo sv ss w taskId body with
        | Return (r, sv') => mkResult (Some r) cs sv' ss
        | Throw _ => mkResult None cs sv ss
        end
    end.

(** [app.put('/api/admin/claims/:id/status', ...)] *)
Definition update_claim_status (sv : Server) (ss : Session) (w : World)
  (claimId : string) (body : jsval) : Result :=
  if negb (truthy (adminUser ss)) then mkResult (Some not_authenticated) [] sv ss
  else
    match
      '(status_, notes) ← destructure2 body "status" "notes";
      found ← findByPk sv w (JStr claimId);
      match found with
      | None => mret (failure 404 "Claim not found", sv)
      | Some claim =>
          let by_ := js_get_opt (adminUser ss) "name" in
          note ← (if truthy notes then mret notes
                  else
                    to ← js_to_string status_;
                    name ← js_to_string by_;
                    mret (JStr ("Status updated to " +:+ to +:+ " by " +:+ name)));
          let entry :=
            JObj [ ("status", status_);
                   ("date", JStr (isoNow w));
                   ("note", note);
                   ("updatedBy", by_) ] in
          statusHistory_ ← unshift (statusHistory claim) entry;
          let claim' := set_status claim status_ statusHistory_ (JStr (isoNow w)) in
          sv' ← update sv w 0 claim';
          mret (json (JObj [("success", JBool true); ("claim", claim_json claim')]), sv')
      end
    with
    | Return (r, sv') => mkResult (Some r) [] sv' ss
    | Throw _ => mkResult (Some (failure 500 "Failed to update claim")) [] sv ss
    end.

(** Admin users (in production, these would be in the database). *)
Definition admin (id_ name_ email_ : string) : string * jsval :=
  (email_, JObj [ ("id", JStr id_); ("name", JStr name_); ("email", JStr email_);
                  ("password", JStr "admin123") ]).

Definition adminUsers : list (string * jsval) :=
  [ admin "ADM001" "Admin User" "admin@suresafe.com";
    admin "ADM002" "Sarah Mitchell" "adjuster@suresafe.com";
    admin "ADM003" "Michael Chen" "supervisor@suresafe.com";
    admin "ADM004" "David Thompson" "investigator@suresafe.com";
    admin "ADM005" "Jennifer Roberts" "legal@suresafe.com";
    admin "ADM006" "Robert Williams" "executive@suresafe.com" ].

(** [{ ...o }]: the own enumerable properties of an object; a built-in
    function has none. *)
Definition spread (o : jsval) : list (string * jsval) :=
  match o with
  | JObj props => props
  | _ => []
  end.

(** A later property of an object literal overwrites an earlier one of the
    same name in place, or is added at the end. *)
Fixpoint set_property (props : list (string * jsval)) (k : string) (v : jsval)
  : list (string * jsval) :=
  match props with
  | [] => [(k, v)]
  | (k', v') :: rest =>
      if String.eqb k' k then (k, v) :: rest else (k', v') :: set_property rest k v
  end.

(** The user the login route checks the password against:
    [adminUsers[email] || adminUsers['admin@suresafe.com']]. *)
Definition login_user (email : jsval) : completion jsval :=
  key ← js_to_string email;
  mret (js_or (object_get adminUsers key) (object_get adminUsers "admin@suresafe.com")).

Definition default_admin : jsval := object_get adminUsers "admin@suresafe.com".

(** [app.post('/api/admin/login', ...)]: the response and the session, or
    the TypeError of a request without a body or with an email that is no
    property key (the handler has no [try]: Express answers these). *)
Definition admin_login (ss : Session) (body : jsval) : completion (Response * Session) :=
  '(email, password) ← destructure2 body "email" "password";
  role ← js_get body "role";
  adminUser_ ← login_user email;
  if truthy adminUser_
     && (js_is_string password "admin123"
         || js_strict_eq (js_get_opt adminUser_ "password") password)
  then
    let sessionUser :=
      JObj (set_property (set_property (spread adminUser_) "role" (js_or role (JStr "adjuster")))
                         "password" JUndefined) in
    mret (json (JObj [("success", JBool true); ("user", sessionUser)]),
          mkSession (user ss) sessionUser)
  else
    mret (failure 401 "Invalid credentials", ss).

(** *** Observations on a run *)

(** The calls of a run that go to the extraction gateway's [/extract], and
    those that go to the workflow engine. *)
Definition is_extract (c : Call) : bool :=
  match c with
  | Fetch u _ => String.eqb u (CLOUD_RUN_API +:+ "/extract")
  | _ => false
  end.

Definition is_camunda (c : Call) : bool :=
  match c with
  | CamundaFetch _ _ _ => true
  | _ => false
  end.

Definition extraction_calls (cs : list Call) : list Call := List.filter is_extract cs.
Definition camunda_calls (cs : list Call) : list Call := List.filter is_camunda cs.

(** The decision values the demo-mode table knows. *)
Definition recognized_decisions : list string :=
  [ "approve"; "approved"; "CLEARED"; "deny"; "FRAUD_CONFIRMED"; "escalate";
    "request_more_docs" ].

Definition recognized (decision : jsval) : bool :=
  match decision with
  | JStr d => string_mem d recognized_decisions
  | _ => false
  end.

(** A stored history on which [unshift] works: an array, or nothing yet. *)
Definition is_history (v : jsval) : bool :=
  match js_or v (JArr []) with
  | JArr _ => true
  | _ => false
  end.

(** The body of the extraction request for a file id. *)
Definition extract_body (fileId : jsval) : jsval :=
  JObj [("file_id", fileId); ("extraction_type", JStr "insurance_claim")].

(** The first of the files [i, i+1, ..., i+n-1], in submission order, whose
    upload succeeds, with the id Box gave it. *)
Fixpoint first_uploaded (w : World) (i n : nat) : option (nat * jsval) :=
  match n with
  | O => None
  | S n' =>
      match uploaded_id (upload w i) with
      | Return fileId => Some (i, fileId)
      | Throw _ => first_uploaded w (S i) n'
      end
  end.

End Portal.

(** ** Concrete runs *)

Module Scenario.
Import Portal.

(** A logged-in member, an admin, and a portal with a Box client and no
    claims yet. *)
Definition member : jsval :=
  JObj [ ("id", JStr "USR001"); ("name", JStr "John Smith");
         ("email", JStr "john.smith@email.com"); ("policyNumber", JStr "POL-2024-001") ].

Definition adjuster : jsval :=
  JObj [ ("id", JStr "ADM002"); ("name", JStr "Sarah Mitchell");
         ("email", JStr "adjuster@suresafe.com"); ("password", JUndefined);
         ("role", JStr "adjuster") ].

Definition member_session : Session := mkSession member JUndefined.
Definition admin_session : Session := mkSession JUndefined adjuster.
Definition fresh_portal : Server := mkServer true ∅.

(** Two documents are submitted; Box refuses the first upload and stores
    the second as file [f2].  The workflow engine is unreachable. *)
Definition two_files : Submission :=
  mkSubmission (JObj [ ("claimType", JStr "auto"); ("description", JStr "Rear-end collision");
                       ("incidentDate", JStr "2024-03-01"); ("estimatedAmount", JStr "2500") ])
               [ mkFile "police-report.pdf" 1024 "application/pdf";
                 mkFile "estimate.pdf" 2048 "application/pdf" ].

Definition second_upload_only (i : nat) : Outcome :=
  match i with
  | 1%nat => Resolved (JObj [("entries", JArr [JObj [("id", JStr "f2")]])])
  | _ => Rejected "Conflict" JUndefined
  end.

Definition engine_down : World :=
  mkWorld 1700000000000 1700000000500 "2023-11-14T22:13:20.000Z"
          "9f3a7c1e-2b4d-4e6f-8a90-b1c2d3e4f506" (JNum 2500)
          (Resolved (JObj [("id", JStr "folder1")]))
          second_upload_only
          (Resolved (JObj [("success", JBool true)]))
          (NetworkError "fetch failed")
          None None (fun _ => None).

(** The claim that this submission stores. *)
Definition stored_claim_id : string := "CLM-1700000000000-9F3A".

Definition stored_claim : Claim :=
  {| id := stored_claim_id;
     userId := JStr "USR001";
     userName := JStr "John Smith";
     policyNumber := JStr "POL-2024-001";
     claimType := JStr "auto";
     description := JStr "Rear-end collision";
     incidentDate := JStr "2024-03-01";
     estimatedAmount := JNum 2500;
     status := JStr "Submitted";
     statusHistory :=
       JArr [JObj [ ("status", JStr "Submitted");
                    ("date", JStr "2023-11-14T22:13:20.000Z");
                    ("note", JStr "Claim submitted by member") ]];
     boxFolderId := JStr "folder1";
     documents :=
       JArr [JObj [ ("id", JStr "f2"); ("name", JStr "estimate.pdf");
                    ("size", JNum 2048); ("type", JStr "application/pdf") ]];
     aiExtraction := JObj [("success", JBool true)];
     processInstanceKey := JStr "demo-process-1700000000500";
     workflowStatus := JStr "DEMO";
     riskScore := JNull;
     assignedAdjusterId := JNull;
     assignedAdjusterName := JNull;
     createdAt := JStr "2023-11-14T22:13:20.000Z";
     updatedAt := JStr "2023-11-14T22:13:20.000Z" |}.

Definition portal_with_claim : Server :=
  mkServer true {[ stored_claim_id := stored_claim ]}.

(** The adjuster moves that claim to review, and later approves it on a
    task of the (unreachable) workflow engine. *)
Definition review_request : jsval :=
  JObj [("status", JStr "Under Review"); ("notes", JStr "Documents look complete")].

Definition approve_request : jsval :=
  JObj [ ("claimId", JStr stored_claim_id);
         ("variables", JObj [("adjusterDecision", JObj [("value", JStr "approve")])]) ].





(** A status update that names no status. *)
Definition notes_only_request : jsval := JObj [("notes", JStr "no status given")].

End Scenario.

(** ** The other AI routes of the gateway *)

Module GatewayRoutes.
Import Gateway.

(** The body of a call to [/ai/ask]. *)
Definition ask_request (prompt fileId : jsval) : jsval :=
  JObj [ ("mode", JStr "single_item_qa");
         ("prompt", prompt);
         ("items", JArr [JObj [("type", JStr "file"); ("id", fileId)]]) ].

(** [app.post('/ask', ...)] *)
Definition ask (s : Service) (w : World) (body : jsval) : Result :=
  match
    fileId0 ← js_get body "fileId";
    fileId1 ← js_get body "file_id";
    question ← js_get body "question";
    mret (js_or fileId0 fileId1, question)
  with
  | Throw m => mkResult (extraction_error m JUndefined) [] s
  | Return (fileId, question) =>
      if negb (truthy fileId) || negb (truthy question) then
        mkResult (status_json 400 (JObj [("error", JStr "fileId and question are required")])) [] s
      else
        match (if boxClient s then None else initializeBoxClient w) with
        | Some m => mkResult (extraction_error m JUndefined) [] s
        | None =>
            let s' := with_client s in
            (* console.log(`Asking question about file ${fileId}: ${question}`) *)
            match
              _ ← js_to_string fileId;
              js_to_string question
            with
            | Throw m => mkResult (extraction_error m JUndefined) [] s'
            | Return _ =>
            let call := BoxPost "/ai/ask" (ask_request question fileId) in
            match vendor w with
            | Rejected m details => mkResult (extraction_error m details) [call] s'
            | Resolved askResponse =>
                match
                  rbody ← js_get askResponse "body";
                  answer ← js_get rbody "answer";
                  mret (JObj [ ("success", JBool true);
                               ("fileId", fileId);
                               ("question", question);
                               ("answer", answer);
                               ("timestamp", JStr (now w)) ])
                with
                | Return result => mkResult (json result) [call] s'
                | Throw m => mkResult (extraction_error m JUndefined) [call] s'
                end
            end
            end
        end
  end.

Definition claim_summary_prompt : string :=
  "Summarize this claim document with the following structure:

**CLAIM SUMMARY**

1. **Incident Overview**: Brief description of what happened (2-3 sentences)
2. **Key Facts**: Date/Time of Loss, Location, Parties Involved, Type of Claim
3. **Damages/Injuries**: Summary of reported damages or injuries
4. **Current Status**: Where the claim stands in the process
5. **Key Documents**: List of important documents in the file
6. **Red Flags/Concerns**: Any inconsistencies or items requiring attention
7. **Recommended Next Steps**: Suggested actions for the adjuster

Keep the summary concise but comprehensive.".

Definition medical_summary_prompt : string :=
  "Summarize this medical record for insurance claims review:

**MEDICAL SUMMARY**

1. **Patient & Provider**: Who and where
2. **Date of Treatment**: When services were provided
3. **Chief Complaint**: Why the patient sought treatment
4. **Diagnosis**: Primary and secondary diagnoses with ICD-10 codes
5. **Treatment Provided**: Procedures and medications
6. **Injury Causation**: Is the treatment related to the claimed incident?
7. **Prognosis & Follow-up**: Expected recovery and next steps
8. **Charges**: Total billed amount
9. **Claims Relevance**: How this relates to the insurance claim".

Definition general_summary_prompt : string :=
  "Provide a comprehensive summary of this document, highlighting the key information relevant to insurance claims processing.".

(** The prompts of [/summarize], by summary type. *)
Definition summaryPrompts : list (string * jsval) :=
  [ ("claim", JStr claim_summary_prompt);
    ("medical", JStr medical_summary_prompt);
    ("general", JStr general_summary_prompt) ].

(** [summaryPrompts[summaryType] || summaryPrompts.general] *)
Definition summary_prompt (summaryType : jsval) : completion jsval :=
  key ← js_to_string summaryType;
  mret (js_or (object_get summaryPrompts key) (object_get summaryPrompts "general")).

(** [app.post('/summarize', ...)] *)
Definition summarize (s : Service) (w : World) (body : jsval) : Result :=
  match
    fileId0 ← js_get body "fileId";
    fileId1 ← js_get body "file_id";
    type0 ← js_get body "summaryType";
    type1 ← js_get body "summary_type";
    mret (js_or fileId0 fileId1, js_or type0 type1)
  with
  | Throw m => mkResult (extraction_error m JUndefined) [] s
  | Return (fileId, summaryType) =>
      if negb (truthy fileId) then
        mkResult (status_json 400 (JObj [("error", JStr "fileId is required")])) [] s
      else
        match (if boxClient s then None else initializeBoxClient w) with
        | Some m => mkResult (extraction_error m JUndefined) [] s
        | None =>
            let s' := with_client s in
            match summary_prompt summaryType with
            | Throw m => mkResult (extraction_error m JUndefined) [] s'
            | Return prompt =>
            let call := BoxPost "/ai/ask" (ask_request prompt fileId) in
            match vendor w with
            | Rejected m details => mkResult (extraction_error m details) [call] s'
            | Resolved askResponse =>
                match
                  rbody ← js_get askResponse "body";
                  answer ← js_get rbody "answer";
                  mret (JObj [ ("success", JBool true);
                               ("fileId", fileId);
                               ("summaryType", js_or summaryType (JStr "general"));
                               ("summary", answer);
                               ("timestamp", JStr (now w)) ])
                with
                | Return result => mkResult (json result) [call] s'
                | Throw m => mkResult (extraction_error m JUndefined) [call] s'
                end
            end
            end
        end
  end.

(** The prompt of a call to [/ai/ask]. *)
Definition call_prompt (c : Call) : jsval :=
  match c with
  | BoxPost _ request => js_get_opt request "prompt"
  | Fetch _ _ => JUndefined
  end.

(** The calls of a run that go to Box. *)
Definition is_box_post (path : string) (c : Call) : bool :=
  match c with
  | BoxPost p _ => String.eqb p path
  | Fetch _ _ => false
  end.

(** [app.get('/extraction-types', ...)]: one entry per own key of the
    table. *)
Definition extraction_type_entry (e : string * Config) : jsval :=
  JObj [ ("type", JStr (fst e));
         ("name", JStr (name (snd e)));
         ("fieldCount", JNum (Z.of_nat (length (fields (snd e)))));
         ("fields", JArr (map (fun f => JStr (key f)) (fields (snd e)))) ].

Definition extraction_types : Response :=
  json (JObj [("extractionTypes", JArr (map extraction_type_entry EXTRACTION_CONFIGS))]).

End GatewayRoutes.

(** ** The other routes of the portal *)

Module PortalRoutes.
Import Portal.

(** *** Member login and reading a claim *)


(** [Claim.findOne({ where: { id, userId } })]: the row with that primary
    key, when it belongs to that user; Sequelize refuses a condition whose
    value is [undefined]. *)
Definition findOne_of_user (sv : Server) (w : World) (claimId : string) (userId_ : jsval)
  : completion (option Claim) :=
  match db_find w with
  | Some m => Throw m
  | None =>
      match userId_ with
      | JUndefined =>
          Throw ("WHERE parameter " +:+ Gateway.quoted "userId" +:+ " has invalid "
                 +:+ Gateway.quoted "undefined" +:+ " value")
      | _ =>
          match claims sv !! claimId with
          | Some c => Return (if js_strict_eq (userId c) userId_ then Some c else None)
          | None => Return None
          end
      end
  end.

(** A claim as the member routes show it; [amount] is
    [parseFloat(claim.estimatedAmount)], a float. *)
Definition member_claim_json (c : Claim) (amount : jsval) : jsval :=
  JObj [ ("id", JStr (id c));
         ("userId", userId c);
         ("userName", userName c);
         ("policyNumber", policyNumber c);
         ("claimType", claimType c);
         ("description", description c);
         ("incidentDate", incidentDate c);
         ("estimatedAmount", amount);
         ("status", status c);
         ("statusHistory", statusHistory c);
         ("boxFolderId", boxFolderId c);
         ("documents", documents c);
         ("aiExtraction", aiExtraction c);
         ("createdAt", createdAt c);
         ("updatedAt", updatedAt c) ].

(** [app.get('/api/claims/:id', ...)]; the world gives the parsed amount. *)
Definition get_claim (sv : Server) (ss : Session) (w : World) (claimId : string) : Response :=
  if negb (truthy (user ss)) then failure 401 "Not authenticated"
  else
    match findOne_of_user sv w claimId (js_get_opt (user ss) "id") with
    | Throw _ => failure 500 "Failed to fetch claim"
    | Return None => failure 404 "Claim not found"
    | Return (Some claim) =>
        json (JObj [("success", JBool true);
                    ("claim", member_claim_json claim (parsedAmount w))])
    end.

(** *** The demo-mode task list and flow nodes *)

(** The simulated tasks of the [catch] of the task-list route. *)
Definition demo_tasks (found : option Claim) : list jsval :=
  match found with
  | Some claim =>
      if js_is_string (status claim) "Under Review" || js_is_string (status claim) "Submitted" then
        [JObj [ ("id", JStr ("task-" +:+ id claim +:+ "-1"));
                ("name", JStr "Adjuster Claim Review");
                ("taskDefinitionId", JStr "Task_AdjusterReview");
                ("assignee", JNull);
                ("candidateGroups", JArr [JStr "Claims_Adjusters"]);
                ("creationDate", createdAt claim);
                ("processInstanceKey",
                 js_or (processInstanceKey claim) (JStr ("demo-" +:+ id claim)));
                ("variables", JObj [ ("claimId", JStr (id claim));
                                     ("estimatedAmount", estimatedAmount claim) ]) ]]
      else if js_is_string (status claim) "Investigation" then
        [JObj [ ("id", JStr ("task-" +:+ id claim +:+ "-inv"));
                ("name", JStr "SIU Investigation");
                ("taskDefinitionId", JStr "Task_InvestigatorReview");
                ("assignee", JNull);
                ("candidateGroups", JArr [JStr "SIU_Investigators"]);
                ("creationDate", updatedAt claim);
                ("processInstanceKey",
                 js_or (processInstanceKey claim) (JStr ("demo-" +:+ id claim)));
                ("variables", JObj [ ("claimId", JStr (id claim));
                                     ("riskScore", JNum 85) ]) ]]
      else []
  | None => []
  end.

(** [app.get('/api/admin/camunda/claim/:claimId/tasks', ...)] *)
Definition claim_tasks (sv : Server) (ss : Session) (w : World) (claimId : string) : Result :=
  if negb (truthy (adminUser ss)) then mkResult (Some not_authenticated) [] sv ss
  else
    let '(answer, cs) :=
      camundaRequest w (CAMUNDA_TASKLIST_URL +:+ "/v1/tasks/search") "POST"
                     (JObj [ ("state", JStr "CREATED");
                             ("processInstanceKey", JStr claimId);
                             ("pageSize", JNum 50) ]) in
    match answer with
    | Return tasks =>
        mkResult (Some (json (JObj [("success", JBool true); ("tasks", tasks)]))) cs sv ss
    | Throw _ =>
        match findByPk sv w (JStr claimId) with
        | Throw _ => mkResult None cs sv ss
        | Return found =>
            mkResult (Some (json (JObj [ ("success", JBool true);
                                         ("tasks", JArr (demo_tasks found));
                                         ("demo", JBool true) ])))
                     cs sv ss
        end
    end.

(** The simulated position of a claim in the process, by its status. *)
Definition demo_flow_node (found : option Claim) : string :=
  match found with
  | Some claim =>
      let has := js_is_string (status claim) in
      if has "Submitted" then "Task_CalculateRiskScore"
      else if has "Under Review" then "Task_AdjusterReview"
      else if has "Pending Documents" then "Event_WaitForDocuments"
      else if has "Approved" then "Task_GenerateSettlement"
      else if has "Investigation" then "Task_InvestigatorReview"
      else if has "Denied" then "End_ClaimDenied"
      else if has "Paid" then "End_ClaimPaid"
      else "Task_AdjusterReview"
  | None => "Task_AdjusterReview"
  end.

Definition demo_flow_nodes (sv : Server) (ss : Session) (w : World) (claimId : string)
  (cs : list Call) : Result :=
  match findByPk sv w (JStr claimId) with
  | Throw _ => mkResult None cs sv ss
  | Return found =>
      mkResult (Some (json (JObj [ ("success", JBool true);
                                   ("flowNodes",
                                    JArr [JObj [ ("flowNodeId", JStr (demo_flow_node found));
                                                 ("state", JStr "ACTIVE");
                                                 ("startDate", JStr (isoNow w)) ]]);
                                   ("demo", JBool true) ])))
               cs sv ss
  end.

(** [app.get('/api/admin/camunda/claim/:claimId/flow-nodes', ...)] *)
Definition flow_nodes (sv : Server) (ss : Session) (w : World) (claimId : string) : Result :=
  if negb (truthy (adminUser ss)) then mkResult (Some not_authenticated) [] sv ss
  else
    match findByPk sv w (JStr claimId) with
    | Throw _ => demo_flow_nodes sv ss w claimId []
    | Return found =>
        match found with
        | Some claim =>
            if truthy (processInstanceKey claim) then
              match js_to_string (processInstanceKey claim) with
              | Throw _ => demo_flow_nodes sv ss w claimId []
              | Return key =>
                  let '(answer, cs) :=
                    camundaRequest w ("/v2/process-instances/" +:+ key +:+ "/flow-node-instances")
                                   "GET" JUndefined in
                  match answer with
                  | Return flowNodes =>
                      mkResult (Some (json (JObj [("success", JBool true); ("flowNodes", flowNodes)])))
                               cs sv ss
                  | Throw _ => demo_flow_nodes sv ss w claimId cs
                  end
              end
            else
              mkResult (Some (failure 404 "No process instance found for this claim")) [] sv ss
        | None =>
            mkResult (Some (failure 404 "No process instance found for this claim")) [] sv ss
        end
    end.

(** *** The access token of the workflow engine *)

(** The OAuth settings, empty strings when unset, and the module-level
    token cache ([None] for an expiry that is [null] or not a number). *)
Record OAuth : Type := mkOAuth {
  CAMUNDA_AUTH_URL : string;
  CAMUNDA_CLIENT_ID : string;
  CAMUNDA_CLIENT_SECRET : string
}.

Record TokenCache : Type := mkTokenCache {
  camundaAccessToken : jsval;
  camundaTokenExpiry : option Z
}.

(** The answer of the token endpoint: a failure (of the [fetch], or of
    reading its JSON), or the [access_token] and the number [expires_in]
    of the reply ([None] when the reply has no such number). *)
Inductive TokenAnswer : Type :=
| TokenError (message : string)
| TokenData (access_token : jsval) (expires_in : option Z).

Definition configured (o : OAuth) : bool :=
  negb (String.eqb (CAMUNDA_AUTH_URL o) "") && negb (String.eqb (CAMUNDA_CLIENT_ID o) "")
  && negb (String.eqb (CAMUNDA_CLIENT_SECRET o) "").

(** Whether the cache answers at time [now]. *)
Definition cache_valid (cache : TokenCache) (now_ : Z) : bool :=
  truthy (camundaAccessToken cache)
  && match camundaTokenExpiry cache with
     | Some e => negb (e =? 0) && (now_ <? e)
     | None => false
     end.

(** [getCamundaAccessToken()]: the token (or [null]), the cache afterwards
    and the calls made.  [now_] is the time of the cache check, [later_] the
    time at which a new token is stored. *)
Definition getCamundaAccessToken (o : OAuth) (cache : TokenCache) (now_ later_ : Z)
  (answer : TokenAnswer) : jsval * TokenCache * list Call :=
  if cache_valid cache now_ then (camundaAccessToken cache, cache, [])
  else if configured o then
    let call :=
      Fetch (CAMUNDA_AUTH_URL o)
            (JObj [ ("grant_type", JStr "client_credentials");
                    ("client_id", JStr (CAMUNDA_CLIENT_ID o));
                    ("client_secret", JStr (CAMUNDA_CLIENT_SECRET o));
                    ("audience", JStr "zeebe.camunda.io") ]) in
    match answer with
    | TokenError _ => (JNull, cache, [call])
    | TokenData token expires_in =>
        (token,
         mkTokenCache token
                      (match expires_in with
                       | Some seconds => Some (later_ + seconds * 1000 - 60000)
                       | None => None
                       end),
         [call])
    end
  else (JNull, cache, []).

(** *** Sessions *)

(** [app.post('/api/logout', ...)]: the session is destroyed, and the next
    request starts with an empty one. *)
Definition logout (ss : Session) : Response * Session :=
  (json (JObj [("success", JBool true)]), mkSession JUndefined JUndefined).

(** [app.get('/api/user', ...)] *)
Definition current_user (ss : Session) : Response :=
  if truthy (user ss) then json (JObj [("success", JBool true); ("user", user ss)])
  else failure 401 "Not authenticated".

(** [app.post('/api/admin/logout', ...)] *)
Definition admin_logout (ss : Session) : Response * Session :=
  (json (JObj [("success", JBool true)]), mkSession (user ss) JNull).

(** [app.get('/api/admin/user', ...)] *)
Definition admin_user (ss : Session) : Response :=
  if truthy (adminUser ss) then json (JObj [("success", JBool true); ("user", adminUser ss)])
  else failure 401 "Not authenticated".

(** *** Observations on a run *)

(** The claims table is keyed by claim id. *)
Definition well_keyed (sv : Server) : Prop :=
  forall (k : string) (c : Claim), claims sv !! k = Some c -> id c = k.

(** Whether Box stores the file of index [i]. *)
Definition uploaded (w : World) (i : nat) : bool :=
  match uploaded_id (upload w i) with
  | Return _ => true
  | Throw _ => false
  end.

(** The document recorded for the file of index [i], when Box stores it:
    the id Box gave it, with the name, size and type of the submitted
    file. *)
Definition stored_document (w : World) (indexed : nat * File) : option jsval :=
  match uploaded_id (upload w (fst indexed)) with
  | Return fileId =>
      Some (JObj [ ("id", fileId);
                   ("name", JStr (originalname (snd indexed)));
                   ("size", JNum (size (snd indexed)));
                   ("type", JStr (mimetype (snd indexed))) ])
  | Throw _ => None
  end.

End PortalRoutes.

(** ** More concrete runs *)

Module ScenarioRoutes.
Import Portal PortalRoutes.

(** Box, the extraction gateway and the workflow engine all fail; the
    database works. *)
Definition partners_down : World :=
  mkWorld 1700000000000 1700000000500 "2023-11-14T22:13:20.000Z"
          "9f3a7c1e-2b4d-4e6f-8a90-b1c2d3e4f506" (JNum 2500)
          (Rejected "Service Unavailable" JUndefined)
          (fun _ => Rejected "Service Unavailable" JUndefined)
          (Rejected "fetch failed" JUndefined)
          (Reply (mkHttpReply 503 false "Service Unavailable"
                              (Throw "Unexpected token S in JSON at position 0")))
          None None (fun _ => None).

(** Box stores every file, the workflow engine answers. *)
Definition all_uploaded (i : nat) : Outcome :=
  Resolved (JObj [("entries", JArr [JObj [("id", JStr ("f" +:+ pretty i))]])]).

Definition engine_up : World :=
  mkWorld 1700000000000 1700000000500 "2023-11-14T22:13:20.000Z"
          "9f3a7c1e-2b4d-4e6f-8a90-b1c2d3e4f506" (JNum 2500)
          (Resolved (JObj [("id", JStr "folder1")]))
          all_uploaded
          (Resolved (JObj [("success", JBool true)]))
          (Reply (mkHttpReply 200 true ""
                              (Return (JObj [ ("id", JStr "task-1");
                                              ("taskState", JStr "COMPLETED") ]))))
          None None (fun _ => None).

(** The row of the users table of John Smith, and another member's
    session. *)
Definition member_row : jsval :=
  JObj [ ("id", JStr "USR001"); ("name", JStr "John Smith");
         ("email", JStr "john.smith@email.com"); ("password", JStr "password123");
         ("policyNumber", JStr "POL-2024-001"); ("memberSince", JStr "2020-01-15") ].

Definition other_member_session : Session :=
  mkSession (JObj [ ("id", JStr "USR002"); ("name", JStr "Jane Doe");
                    ("email", JStr "jane.doe@email.com");
                    ("policyNumber", JStr "POL-2024-002") ])
            JUndefined.

(** An OAuth configuration of the workflow engine, and the cache at
    start-up. *)
Definition oauth : OAuth :=
  mkOAuth "https://login.cloud.camunda.io/oauth/token" "client" "secret".

Definition empty_cache : TokenCache := mkTokenCache JNull None.

End ScenarioRoutes.

(** * Properties *)

(** Unfold the monad of completions and run the binds that are decided. *)
Ltac run :=
  unfold mbind, mret, completion_bind, completion_ret in *;
  cbn [bind fst snd] in *.

(** ** The trigger dispatcher *)

Module ProxyProps.
Import Proxy.

Lemma known_triggers_cases (t : string) :
  In t known_triggers ->
  t = "FILE.UPLOADED" \/ t = "METADATA_INSTANCE.CREATED" \/ t = "METADATA_INSTANCE.UPDATED"
  \/ t = "METADATA_INSTANCE.DELETED" \/ t = "TASK_ASSIGNMENT.CREATED"
  \/ t = "TASK_ASSIGNMENT.UPDATED" \/ t = "SIGN_REQUEST.COMPLETED"
  \/ t = "SIGN_REQUEST.DECLINED" \/ t = "SIGN_REQUEST.EXPIRED"
  \/ t = "COLLABORATION.CREATED" \/ t = "COLLABORATION.REMOVED".
Proof. unfold known_triggers; simpl; intuition auto. Qed.

(** What the dispatcher does once the trigger has been turned into the
    key [t] of one of the eleven entries. *)
Lemma dispatcher_on_key (u : string) (b v : jsval) (t : string) :
  js_get_opt b "trigger" = v ->
  truthy v = true ->
  js_to_string v = Return t ->
  In t known_triggers ->
  box_dispatcher (mkRequest u b) =
    Return (mkRequest (if String.eqb t "FILE.UPLOADED" then u
                       else "/webhook/" +:+ primitive_to_string (object_get TRIGGER_ROUTES t))
                      b).
Proof.
  intros Hv Htruthy Hkey Hin.
  unfold box_dispatcher; cbn [body url]. rewrite Hv, Htruthy, Hkey. run.
  apply known_triggers_cases in Hin.
  repeat (destruct Hin as [-> | Hin]; [reflexivity |]).
  subst t; reflexivity.
Qed.

(** Each of the eleven triggers of the table is sent to the path the table
    gives for it; for [FILE.UPLOADED] that is the path the request came in
    on, and the URL is left as it is. *)
Lemma dispatcher_known_trigger (t u : string) (props : list (string * jsval)) :
  In t known_triggers ->
  own_property props "trigger" = Some (JStr t) ->
  box_dispatcher (mkRequest u (JObj props)) =
    Return (mkRequest (if String.eqb t "FILE.UPLOADED" then u
                       else "/webhook/" +:+ primitive_to_string (object_get TRIGGER_ROUTES t))
                      (JObj props)).
Proof.
  intros Hin Hown.
  assert (Hv : js_get_opt (JObj props) "trigger" = JStr t).
  { unfold js_get_opt, js_get, object_get. rewrite Hown. reflexivity. }
  apply (dispatcher_on_key u (JObj props) (JStr t) t Hv); [| reflexivity | exact Hin].
  apply known_triggers_cases in Hin.
  repeat (destruct Hin as [-> | Hin]; [reflexivity |]).
  subst t; reflexivity.
Qed.

(** Sign events never stay on the upload path. *)
Lemma dispatcher_sign_request (u : string) (props : list (string * jsval)) :
  own_property props "trigger" = Some (JStr "SIGN_REQUEST.COMPLETED") ->
  box_dispatcher (mkRequest u (JObj props)) = Return (mkRequest "/webhook/box-sign" (JObj props)).
Proof.
  intros Hown.
  rewrite (dispatcher_known_trigger "SIGN_REQUEST.COMPLETED" u props); [reflexivity | | exact Hown].
  unfold known_triggers; simpl; tauto.
Qed.

(** A request without a trigger passes through unchanged. *)
Lemma dispatcher_no_trigger (req : Request) :
  truthy (js_get_opt (body req) "trigger") = false -> box_dispatcher req = Return req.
Proof. intros H. unfold box_dispatcher. rewrite H. reflexivity. Qed.

(** So does a trigger that names neither an entry of the table nor a member
    of [Object.prototype]. *)
Lemma dispatcher_unknown_trigger (req : Request) (k : string) :
  js_to_string (js_get_opt (body req) "trigger") = Return k ->
  own_property TRIGGER_ROUTES k = None ->
  inherited_property k = JUndefined ->
  box_dispatcher req = Return req.
Proof.
  intros Hk Hown Hinh. unfold box_dispatcher, object_get.
  rewrite Hk. run. rewrite Hown, Hinh. cbn [truthy andb].
  destruct (truthy _); reflexivity.
Qed.

(** A trigger that cannot be turned into a property key stops the request:
    the lookup throws, and [next()] is not reached. *)
Lemma dispatcher_unprintable_trigger (u : string) :
  box_dispatcher (mkRequest u (JObj [("trigger", JObj [("toString", JNum 1)])]))
  = Throw "Cannot convert object to primitive value".
Proof. reflexivity. Qed.

(** C1. The dispatcher is meant to leave the URL alone for a trigger that is
    not one of the eleven names of the routing table.  It looks the trigger
    up with [TRIGGER_ROUTES[trigger]], which also finds what the table
    inherits from [Object.prototype]: for the trigger [constructor], which
    is no key of the table, the lookup answers the function [Object], and
    the request URL is rewritten to the text of that function. *)
Theorem dispatcher_rewrites_on_inherited_member :
  string_mem "constructor" known_triggers = false /\
  box_dispatcher (mkRequest "/webhook/box-file-upload"
                            (JObj [("trigger", JStr "constructor")]))
    = Return (mkRequest "/webhook/function Object() { [native code] }"
                        (JObj [("trigger", JStr "constructor")])).
Proof. split; reflexivity. Qed.

End ProxyProps.

(** ** Claim submission *)

Module SubmissionProps.
Import Portal.

(** The documents recorded by the upload loop start with the first file
    whose upload succeeded. *)
Lemma upload_files_first (w : World) (folderId : jsval) (fs : list File) (i : nat) :
  match first_uploaded w i (length fs) with
  | Some (_, fileId) =>
      exists d rest, fst (upload_files w folderId i fs) = d :: rest
                     /\ js_get_opt d "id" = fileId
  | None => fst (upload_files w folderId i fs) = []
  end.
Proof.
  revert i. induction fs as [| f fs IH]; intros i; cbn [length first_uploaded upload_files].
  - reflexivity.
  - specialize (IH (S i)).
    destruct (upload_files w folderId (S i) fs) as [docs cs] eqn:Hrest.
    destruct (uploaded_id (upload w i)) as [fileId | m]; cbn [fst].
    + eexists _, _. split; reflexivity.
    + exact IH.
Qed.

Lemma upload_files_no_fetch (w : World) (folderId : jsval) (fs : list File) (i : nat) :
  extraction_calls (snd (upload_files w folderId i fs)) = []
  /\ camunda_calls (snd (upload_files w folderId i fs)) = [].
Proof.
  revert i. induction fs as [| f fs IH]; intros i; cbn [upload_files].
  - split; reflexivity.
  - specialize (IH (S i)).
    destruct (upload_files w folderId (S i) fs) as [docs cs].
    destruct (uploaded_id (upload w i)); cbn [snd] in *; exact IH.
Qed.

Lemma upload_documents_no_fetch (sv : Server) (w : World) (folderId : jsval) (fs : list File) :
  extraction_calls (snd (upload_documents sv w folderId fs)) = []
  /\ camunda_calls (snd (upload_documents sv w folderId fs)) = [].
Proof.
  unfold upload_documents.
  destruct ((0 <? length fs)%nat && boxClient sv && truthy folderId).
  - apply upload_files_no_fetch.
  - split; reflexivity.
Qed.

Lemma create_folder_no_fetch (sv : Server) (w : World) (n : string) :
  extraction_calls (snd (create_folder sv w n)) = []
  /\ camunda_calls (snd (create_folder sv w n)) = [].
Proof.
  unfold create_folder.
  destruct (boxClient sv); [| split; reflexivity].
  destruct (folder w) as [f | m d]; [| split; reflexivity].
  destruct (js_get f "id") as [a | m]; [| split; reflexivity].
  destruct (js_to_string a); split; reflexivity.
Qed.

Lemma start_process_calls (sv : Server) (w : World) (c : Claim) (u : jsval) :
  extraction_calls (snd (start_process sv w c u)) = []
  /\ length (camunda_calls (snd (start_process sv w c u))) = 1%nat.
Proof.
  unfold start_process, camundaRequest. run.
  destruct (camunda_answer w) as [v | m]; run; [| split; reflexivity].
  destruct (js_get v "key") as [k | m]; run; [| split; reflexivity].
  destruct (js_get v "processInstanceKey") as [k' | m]; run; [| split; reflexivity].
  destruct (update sv w 0 _); split; reflexivity.
Qed.

(** The extraction call, when there is one, carries the id of the first
    document of the list it is given. *)
Lemma trigger_extraction_calls (w : World) (folderId : jsval) (docs : list jsval) :
  snd (trigger_extraction w folderId docs) = []
  \/ exists d rest, docs = d :: rest
       /\ snd (trigger_extraction w folderId docs)
          = [Fetch (CLOUD_RUN_API +:+ "/extract") (extract_body (js_get_opt d "id"))].
Proof.
  unfold trigger_extraction.
  destruct docs as [| d rest]; [left; reflexivity |].
  destruct (truthy folderId); [| left; reflexivity].
  right. exists d, rest. split; [reflexivity |].
  destruct (extraction w); reflexivity.
Qed.

End SubmissionProps.

Module SubmissionClaims.
Import Portal SubmissionProps.

Lemma extraction_calls_app (a b : list Call) :
  extraction_calls (a ++ b) = extraction_calls a ++ extraction_calls b.
Proof. apply List.filter_app. Qed.


(** The calls of a submission to the extraction gateway are those of its
    extraction step. *)
Lemma submit_claim_extraction_calls (sv : Server) (ss : Session) (w : World) (req : Submission) :
  extraction_calls (calls (submit_claim sv ss w req)) = []
  \/ exists folderName,
       let folderId := fst (create_folder sv w folderName) in
       let docs := fst (upload_documents sv w folderId (files req)) in
       extraction_calls (calls (submit_claim sv ss w req))
       = extraction_calls (snd (trigger_extraction w folderId docs)).
Proof.
  unfold submit_claim.
  destruct (negb (truthy (user ss))); [left; reflexivity |].
  match goal with |- context [match ?c with Return _ => _ | Throw _ => _ end] =>
    destruct c as [[[[[ct d] i] amount] n] | m] end; [| left; reflexivity].
  right.
  match goal with |- context [create_folder sv w ?name] =>
    exists name; cbv zeta;
    pose proof (create_folder_no_fetch sv w name) as [Hf _] end.
  destruct (create_folder sv w _) as [folderId cs1]; cbn [fst snd] in *.
  pose proof (upload_documents_no_fetch sv w folderId (files req)) as [Hu _].
  destruct (upload_documents sv w folderId (files req)) as [docs cs2]; cbn [fst snd] in *.
  destruct (trigger_extraction w folderId docs) as [ai cs3]; cbn [fst snd].
  destruct (js_to_string amount);
    [| cbn [calls]; rewrite !extraction_calls_app, Hf, Hu; reflexivity].
  destruct (db_create w).
  - cbn [calls]. rewrite !extraction_calls_app, Hf, Hu. reflexivity.
  - match goal with |- context [start_process ?a ?b ?c ?d] =>
      pose proof (start_process_calls a b c d) as [Hs _];
      destruct (start_process a b c d) as [started cs4] end.
    cbn [snd] in Hs.
    destruct started as [[[k c'] sv2] | m]; cbn [calls];
      rewrite !extraction_calls_app, Hf, Hu, Hs, ?app_nil_r; reflexivity.
Qed.

(** C3, as the code has it.  A claim submission makes at most one call to
    the extraction gateway's [/extract], and when it makes one, the file it
    names is the first file, in submission order, whose upload to Box
    succeeded (the files before it were refused and skipped). *)
Theorem extraction_names_first_uploaded_file
  (sv : Server) (ss : Session) (w : World) (req : Submission) :
  let cs := extraction_calls (calls (submit_claim sv ss w req)) in
  (length cs <= 1)%nat
  /\ (cs = []
      \/ exists i fileId,
           first_uploaded w 0 (length (files req)) = Some (i, fileId)
           /\ cs = [Fetch (CLOUD_RUN_API +:+ "/extract") (extract_body fileId)]).
Proof.
  cbv zeta.
  assert (H : extraction_calls (calls (submit_claim sv ss w req)) = []
              \/ exists i fileId,
                   first_uploaded w 0 (length (files req)) = Some (i, fileId)
                   /\ extraction_calls (calls (submit_claim sv ss w req))
                      = [Fetch (CLOUD_RUN_API +:+ "/extract") (extract_body fileId)]).
  { destruct (submit_claim_extraction_calls sv ss w req) as [H | [folderName H]];
      [left; exact H |].
    cbv zeta in H. rewrite H. clear H.
    set (folderId := fst (create_folder sv w folderName)).
    destruct (trigger_extraction_calls w folderId
                (fst (upload_documents sv w folderId (files req))))
      as [Hnil | (d & rest & Hdocs & Hcall)].
    - left. rewrite Hnil. reflexivity.
    - right. rewrite Hcall.
      unfold upload_documents in Hdocs.
      destruct ((0 <? length (files req))%nat && boxClient sv && truthy folderId);
        [| discriminate Hdocs].
      pose proof (upload_files_first w folderId (files req) 0) as Hfirst.
      destruct (first_uploaded w 0 (length (files req))) as [[i fileId] |].
      + destruct Hfirst as (d' & rest' & Hd' & Hid).
        rewrite Hd' in Hdocs. injection Hdocs as -> ->.
        exists i, fileId. split; [reflexivity |].
        rewrite Hid. unfold extraction_calls. cbn [List.filter is_extract].
        rewrite String.eqb_refl. reflexivity.
      + rewrite Hfirst in Hdocs. discriminate Hdocs. }
  split; [| exact H].
  destruct H as [-> | (i & fileId & _ & ->)]; cbn [length]; lia.
Qed.

(** C3, as the specification has it, fails: when Box refuses the upload of
    the first submitted file and accepts the second, the extraction call is
    made against the second file. *)
Lemma extraction_against_second_submitted_file :
  map originalname (files Scenario.two_files) = ["police-report.pdf"; "estimate.pdf"]
  /\ uploaded_id (upload Scenario.engine_down 0) = Throw "Conflict"
  /\ uploaded_id (upload Scenario.engine_down 1) = Return (JStr "f2")
  /\ extraction_calls
       (calls (submit_claim Scenario.fresh_portal Scenario.member_session
                            Scenario.engine_down Scenario.two_files))
     = [Fetch (CLOUD_RUN_API +:+ "/extract") (extract_body (JStr "f2"))].
Proof. repeat split; vm_compute; reflexivity. Qed.





(** The submission of the scenario stores exactly the claim shown there. *)
Example submission_stores_claim :
  server (submit_claim Scenario.fresh_portal Scenario.member_session
                       Scenario.engine_down Scenario.two_files)
  = Scenario.portal_with_claim.
Proof. vm_compute. reflexivity. Qed.

End SubmissionClaims.

(** ** Admin routes *)

Module AdminClaims.
Import Portal.

(** A response of another status than the one that was sent. *)
Ltac wrong_status :=
  match goal with
  | H : Some _ = Some ?r, H' : statusCode ?r = _ |- _ =>
      injection H as <-; discriminate H'
  | H : Some _ = Some ?r, H' : field ?r _ = _ |- _ =>
      injection H as <-; discriminate H'
  | H : None = Some _ |- _ => discriminate H
  end.

Lemma unshift_head (history entry h : jsval) (props : list (string * jsval)) :
  entry = JObj props ->
  unshift history entry = Return h ->
  history_head_status h = Some (object_get props "status").
Proof.
  intros -> H. unfold unshift in H.
  destruct (js_or history (JArr [])); try discriminate H.
  injection H as <-. reflexivity.
Qed.

Lemma unshift_array (history entry h : jsval) :
  unshift history entry = Return h -> assign h history = h.
Proof.
  unfold unshift. destruct (js_or history (JArr [])); try discriminate.
  intros H. injection H as <-. reflexivity.
Qed.

Lemma destructure2_object (body x y : jsval) (a b : string) :
  js_get body a = Return x -> js_get body b = Return y ->
  destructure2 body a b = Return (x, y).
Proof.
  intros Ha Hb. unfold destructure2.
  destruct body; try discriminate Ha; rewrite Ha, Hb; reflexivity.
Qed.

Lemma destructure2_fields (body x y : jsval) (a b : string) :
  destructure2 body a b = Return (x, y) ->
  x = js_get_opt body a /\ y = js_get_opt body b.
Proof.
  unfold destructure2, js_get_opt.
  destruct body; run; cbn; intros H; inversion H; split; reflexivity.
Qed.

(** What the status update does to the table: nothing, with an answer
    other than 200, or one write of the addressed row, with the 200 answer
    that shows the written row. *)
Lemma update_claim_status_cases (sv : Server) (ss : Session) (w : World)
  (claimId : string) (body : jsval) :
  let res := update_claim_status sv ss w claimId body in
  calls res = [] /\ session res = ss
  /\ ((server res = sv /\ exists r, response res = Some r /\ statusCode r <> 200)
      \/ exists c entry old,
           claims sv !! claimId = Some c
           /\ js_or (statusHistory c) (JArr []) = JArr old
           /\ js_get_opt entry "status" = js_get_opt body "status"
           /\ history_head_status (JArr (entry :: old)) = Some (js_get_opt body "status")
           /\ js_get_opt entry "updatedBy" = js_get_opt (adminUser ss) "name"
           /\ server res
              = save sv (set_status c (js_get_opt body "status") (JArr (entry :: old))
                                    (JStr (isoNow w)))
           /\ response res
              = Some (json (JObj [ ("success", JBool true);
                                   ("claim",
                                    claim_json (set_status c (js_get_opt body "status")
                                                  (JArr (entry :: old)) (JStr (isoNow w)))) ]))).
Proof.
  cbv zeta. unfold update_claim_status.
  destruct (negb (truthy (adminUser ss))).
  { repeat split. left. split; [reflexivity |]. eexists. split; [reflexivity | discriminate]. }
  assert (Hfail : forall m : string,
             calls (mkResult (Some (failure 500 m)) [] sv ss) = []
             /\ session (mkResult (Some (failure 500 m)) [] sv ss) = ss
             /\ ((server (mkResult (Some (failure 500 m)) [] sv ss) = sv
                  /\ exists r, response (mkResult (Some (failure 500 m)) [] sv ss) = Some r
                               /\ statusCode r <> 200)
                 \/ exists c entry old,
                      claims sv !! claimId = Some c
                      /\ js_or (statusHistory c) (JArr []) = JArr old
                      /\ js_get_opt entry "status" = js_get_opt body "status"
                      /\ history_head_status (JArr (entry :: old))
                         = Some (js_get_opt body "status")
                      /\ js_get_opt entry "updatedBy" = js_get_opt (adminUser ss) "name"
                      /\ server (mkResult (Some (failure 500 m)) [] sv ss)
                         = save sv (set_status c (js_get_opt body "status")
                                      (JArr (entry :: old)) (JStr (isoNow w)))
                      /\ response (mkResult (Some (failure 500 m)) [] sv ss)
                         = Some (json (JObj [ ("success", JBool true);
                                              ("claim",
                                               claim_json
                                                 (set_status c (js_get_opt body "status")
                                                    (JArr (entry :: old))
                                                    (JStr (isoNow w)))) ])))).
  { intros m. split; [reflexivity |]. split; [reflexivity |]. left.
    split; [reflexivity |]. eexists. split; [reflexivity | discriminate]. }
  destruct (destructure2 body "status" "notes") as [[status_ notes] | m] eqn:Hd;
    run; [| apply Hfail].
  apply destructure2_fields in Hd. destruct Hd as [-> ->].
  unfold findByPk. destruct (db_find w); run; [apply Hfail |].
  destruct (claims sv !! claimId) as [c |] eqn:Hc; run.
  2: { split; [reflexivity |]. split; [reflexivity |]. left.
       split; [reflexivity |]. eexists. split; [reflexivity | discriminate]. }
  match goal with |- context [if truthy ?n then Return ?a else ?b] =>
    destruct (if truthy n then Return a else b) as [note | m] end; run; [| apply Hfail].
  unfold unshift. destruct (js_or (statusHistory c) (JArr [])) eqn:Hold; run; try apply Hfail.
  unfold update. destruct (db_update w 0); run; [apply Hfail |].
  split; [reflexivity |]. split; [reflexivity |]. right.
  eexists c, _, _. split; [reflexivity |]. split; [exact Hold |].
  split; [| split; [| split; [| split]]]. all: revgoals. all: reflexivity.
Qed.

(** The admin status update: a success answer means that the row was
    written, with the requested status when the request names one, and
    with a history whose newest entry carries the requested status. *)
Lemma update_claim_status_ok (sv : Server) (ss : Session) (w : World)
  (claimId : string) (body : jsval) (r : Response) :
  response (update_claim_status sv ss w claimId body) = Some r ->
  statusCode r = 200 ->
  exists c c',
    claims sv !! claimId = Some c
    /\ claims (server (update_claim_status sv ss w claimId body)) !! id c = Some c'
    /\ status c' = assign (js_get_opt body "status") (status c)
    /\ history_head_status (statusHistory c') = Some (js_get_opt body "status").
Proof.
  intros Hr Hcode.
  destruct (update_claim_status_cases sv ss w claimId body)
    as (_ & _ & [[_ (r0 & Hr0 & Hcode0)]
                | (c & entry & old & Hc & Hold & _ & Hhead & _ & Hsv & _)]).
  - rewrite Hr0 in Hr. injection Hr as <-. contradiction.
  - rewrite Hsv. eexists c, _. split; [exact Hc |].
    split; [cbn [server save claims set_status id]; apply lookup_insert_eq |].
    cbn [set_status status statusHistory assign]. split; [reflexivity | exact Hhead].
Qed.

(** The decision table answers a value that [claim.update] writes as it
    is: one of its four statuses, or the current status. *)
Lemma assign_demo_status (current decision : jsval) :
  assign (demo_status current decision) current = demo_status current decision.
Proof.
  unfold demo_status.
  repeat match goal with |- context [if ?b then _ else _] => destruct b; try reflexivity end.
  destruct current; reflexivity.
Qed.

(** The demo branch of the task completion, for a claim that is found, a
    request with variables and a decision that can be written into the
    note: the row is written with the status that the decision table gives,
    and with a history whose newest entry carries that status. *)
Lemma complete_task_demo_run (sv : Server) (ss : Session) (w : World)
  (taskId : string) (body : jsval) (variables : jsval) (k m text : string) (c : Claim) :
  truthy (adminUser ss) = true ->
  camunda_answer w = Throw m ->
  js_get body "variables" = Return variables ->
  truthy variables = true ->
  js_get body "claimId" = Return (JStr k) ->
  claims sv !! k = Some c ->
  is_history (statusHistory c) = true ->
  db_find w = None ->
  db_update w 0 = None ->
  js_to_string (decision_of variables) = Return text ->
  exists c',
    complete_task sv ss w taskId body
    = mkResult (Some (demo_completed taskId))
               [CamundaFetch (camunda_url (CAMUNDA_TASKLIST_URL +:+ "/v1/tasks/" +:+ taskId
                                           +:+ "/complete"))
                             "PATCH" (JObj [("variables", variables)])]
               (save sv c') ss
    /\ id c' = id c
    /\ status c' = demo_status (status c) (decision_of variables)
    /\ history_head_status (statusHistory c') = Some (status c').
Proof.
  intros Hadmin Hfail Hvars Htruthy Hid Hc Hhist Hfind Hupdate Htext.
  unfold complete_task. rewrite Hadmin. cbn [negb].
  rewrite (destructure2_object _ _ _ _ _ Hvars Hid).
  unfold camundaRequest. rewrite Hfail.
  unfold complete_task_demo.
  rewrite (destructure2_object _ _ _ _ _ Hvars Hid). run.
  unfold findByPk. rewrite Hfind. run. rewrite Hc, Htruthy, Htext. run.
  unfold unshift. unfold is_history in Hhist.
  destruct (js_or (statusHistory c) (JArr [])) eqn:Hold; try discriminate Hhist. run.
  unfold update. rewrite Hupdate. run.
  eexists. split; [reflexivity |]. split; [reflexivity |].
  cbn [set_status status statusHistory]. rewrite assign_demo_status.
  split; [reflexivity |]. reflexivity.
Qed.

(** The demo branch of the task completion: its answer is marked [demo],
    and when it found the claim and was given variables, the row was
    written with the status the decision table gives, and with a history
    whose newest entry carries that status. *)
Lemma complete_task_demo_ok (sv : Server) (ss : Session) (w : World)
  (taskId : string) (body : jsval) (r : Response) (variables : jsval) (k : string) (c : Claim) :
  response (complete_task sv ss w taskId body) = Some r ->
  field r "demo" = JBool true ->
  js_get body "variables" = Return variables ->
  truthy variables = true ->
  js_get body "claimId" = Return (JStr k) ->
  claims sv !! k = Some c ->
  exists c',
    claims (server (complete_task sv ss w taskId body)) !! id c = Some c'
    /\ status c' = demo_status (status c) (decision_of variables)
    /\ history_head_status (statusHistory c') = Some (status c').
Proof.
  unfold complete_task. intros Hr Hdemo Hvars Htruthy Hid Hc.
  destruct (negb (truthy (adminUser ss))); [cbn in Hr; wrong_status |].
  rewrite (destructure2_object _ _ _ _ _ Hvars Hid) in Hr |- *.
  unfold camundaRequest in *.
  destruct (camunda_answer w) as [result | m]; [cbn in Hr; wrong_status |].
  unfold complete_task_demo in *.
  rewrite (destructure2_object _ _ _ _ _ Hvars Hid) in Hr |- *. run.
  unfold findByPk in *. destruct (db_find w); run; [cbn in Hr; wrong_status |].
  rewrite Hc, Htruthy in Hr |- *.
  destruct (js_to_string (decision_of variables)) as [text | m']; run;
    [| cbn in Hr; wrong_status].
  match type of Hr with context [unshift ?h ?e] =>
    destruct (unshift h e) as [h' |] eqn:Hu; run; [| cbn in Hr; wrong_status] end.
  unfold update in *. destruct (db_update w 0); run; [cbn in Hr; wrong_status |].
  eexists. split; [cbn [server save claims]; apply lookup_insert_eq |].
  cbn [set_status status statusHistory].
  rewrite assign_demo_status, (unshift_array _ _ _ Hu).
  split; [reflexivity |].
  eapply unshift_head in Hu; [| reflexivity]. exact Hu.
Qed.

(** C2, as the code has it.  After a status-changing call that completes
    successfully, the status of the claim row equals the status of the head
    entry of its status history: for the admin status update that names a
    status (a string) and is answered 200, and for the demo-mode branch of
    the task completion (an answer marked [demo]) that found the claim and
    was given variables. *)
Theorem status_agrees_with_history_head :
  (forall (sv : Server) (ss : Session) (w : World) (claimId : string) (body : jsval)
          (r : Response) (newStatus : string),
      response (update_claim_status sv ss w claimId body) = Some r ->
      statusCode r = 200 ->
      js_get_opt body "status" = JStr newStatus ->
      exists c c',
        claims sv !! claimId = Some c
        /\ claims (server (update_claim_status sv ss w claimId body)) !! id c = Some c'
        /\ status c' = JStr newStatus
        /\ history_head_status (statusHistory c') = Some (status c'))
  /\
  (forall (sv : Server) (ss : Session) (w : World) (taskId : string) (body : jsval)
          (r : Response) (variables : jsval) (k : string) (c : Claim),
      response (complete_task sv ss w taskId body) = Some r ->
      field r "demo" = JBool true ->
      js_get body "variables" = Return variables ->
      truthy variables = true ->
      js_get body "claimId" = Return (JStr k) ->
      claims sv !! k = Some c ->
      exists c',
        claims (server (complete_task sv ss w taskId body)) !! id c = Some c'
        /\ status c' = demo_status (status c) (decision_of variables)
        /\ history_head_status (statusHistory c') = Some (status c')).
Proof.
  split.
  - intros sv ss w claimId body r newStatus Hr Hcode Hstatus.
    destruct (update_claim_status_ok sv ss w claimId body r Hr Hcode)
      as (c & c' & Hc & Hc' & Hnew & Hhead).
    rewrite Hstatus in Hnew, Hhead. cbn [assign] in Hnew.
    exists c, c'. rewrite Hnew. auto.
  - intros sv ss w taskId body r variables k c Hr Hdemo Hvars Htruthy Hid Hc.
    exact (complete_task_demo_ok sv ss w taskId body r variables k c
             Hr Hdemo Hvars Htruthy Hid Hc).
Qed.

(** The adjuster's two status changes on the stored claim. *)
Lemma status_agrees_example :
  (exists c c',
     claims Scenario.portal_with_claim !! Scenario.stored_claim_id = Some c
     /\ claims (server (update_claim_status Scenario.portal_with_claim Scenario.admin_session
                          Scenario.engine_down Scenario.stored_claim_id
                          Scenario.review_request)) !! id c = Some c'
     /\ status c' = JStr "Under Review"
     /\ history_head_status (statusHistory c') = Some (status c'))
  /\
  (exists c',
     claims (server (complete_task Scenario.portal_with_claim Scenario.admin_session
                                   Scenario.engine_down "task-1" Scenario.approve_request))
       !! id Scenario.stored_claim = Some c'
     /\ status c' = JStr "Approved"
     /\ history_head_status (statusHistory c') = Some (status c')).
Proof.
  split.
  - eapply (proj1 status_agrees_with_history_head); reflexivity.
  - exact (proj2 status_agrees_with_history_head
             Scenario.portal_with_claim Scenario.admin_session Scenario.engine_down
             "task-1" Scenario.approve_request _ _ Scenario.stored_claim_id
             Scenario.stored_claim eq_refl eq_refl eq_refl eq_refl eq_refl eq_refl).
Defined.

(** C2, as the specification has it, fails: a status update that names no
    status is answered 200 all the same; the row keeps its status
    [Submitted], and the entry put at the head of its history has none. *)
Lemma status_update_without_status_disagrees :
  option_map statusCode
    (response (update_claim_status Scenario.portal_with_claim Scenario.admin_session
                 Scenario.engine_down Scenario.stored_claim_id Scenario.notes_only_request))
  = Some 200
  /\ option_map status
       (claims (server (update_claim_status Scenario.portal_with_claim Scenario.admin_session
                          Scenario.engine_down Scenario.stored_claim_id
                          Scenario.notes_only_request))
          !! Scenario.stored_claim_id)
     = Some (JStr "Submitted")
  /\ option_map (fun c => history_head_status (statusHistory c))
       (claims (server (update_claim_status Scenario.portal_with_claim Scenario.admin_session
                          Scenario.engine_down Scenario.stored_claim_id
                          Scenario.notes_only_request))
          !! Scenario.stored_claim_id)
     = Some (Some JUndefined).
Proof. repeat split; vm_compute; reflexivity. Qed.

(** The decision table, entry by entry. *)
Lemma demo_status_table (current : jsval) :
  demo_status current (JStr "approve") = JStr "Approved"
  /\ demo_status current (JStr "approved") = JStr "Approved"
  /\ demo_status current (JStr "CLEARED") = JStr "Approved"
  /\ demo_status current (JStr "deny") = JStr "Denied"
  /\ demo_status current (JStr "FRAUD_CONFIRMED") = JStr "Denied"
  /\ demo_status current (JStr "escalate") = JStr "Escalated"
  /\ demo_status current (JStr "request_more_docs") = JStr "Pending Documents".
Proof. repeat split. Qed.






End AdminClaims.


(** ** Admin login *)

Module LoginClaims.
Import Portal.

Lemma login_user_truthy (email : jsval) (key : string) :
  js_to_string email = Return key ->
  exists account, login_user email = Return account /\ truthy account = true.
Proof.
  intros Hkey. unfold login_user. rewrite Hkey. run.
  eexists. split; [reflexivity |]. unfold js_or.
  destruct (truthy (object_get adminUsers key)) eqn:H; [exact H | reflexivity].
Qed.

(** The password [admin123] opens a session whatever the email is, as long
    as the email can be used as a property key (any string can). *)
Lemma admin123_always_authenticates (ss : Session) (props : list (string * jsval))
  (key : string) :
  js_to_string (object_get props "email") = Return key ->
  object_get props "password" = JStr "admin123" ->
  exists r ss',
    admin_login ss (JObj props) = Return (r, ss')
    /\ statusCode r = 200
    /\ field r "success" = JBool true
    /\ truthy (adminUser ss') = true.
Proof.
  intros Hkey Hpw. unfold admin_login, destructure2, js_get. run.
  destruct (login_user_truthy _ _ Hkey) as (account & -> & Htruthy). run.
  rewrite Hpw, Htruthy. cbn [js_is_string String.eqb andb orb].
  eexists _, _. split; [reflexivity |]. repeat split.
Qed.

(** The route answers 401 exactly when the password is neither [admin123]
    nor the stored password of the user that was looked up (or put in its
    place). *)
Lemma login_refused_iff (ss : Session) (props : list (string * jsval)) (account : jsval) :
  login_user (object_get props "email") = Return account ->
  let password := object_get props "password" in
  let stored := js_get_opt account "password" in
  admin_login ss (JObj props) = Return (failure 401 "Invalid credentials", ss)
  <-> js_is_string password "admin123" = false /\ js_strict_eq stored password = false.
Proof.
  intros Haccount. cbv zeta.
  assert (Htruthy : truthy account = true).
  { unfold login_user in Haccount.
    destruct (js_to_string (object_get props "email")) as [key | m]; run;
      [| discriminate Haccount].
    injection Haccount as <-. unfold js_or.
    destruct (truthy (object_get adminUsers key)) eqn:H; [exact H | reflexivity]. }
  unfold admin_login, destructure2, js_get. run.
  rewrite Haccount. run. rewrite Htruthy. cbn [andb].
  destruct (js_is_string (object_get props "password") "admin123"); cbn [orb].
  - split; [intros H; discriminate H | intros [H _]; discriminate H].
  - destruct (js_strict_eq _ _).
    + split; [intros H; discriminate H | intros [_ H]; discriminate H].
    + split; [intros _; split; reflexivity | intros _; reflexivity].
Qed.

(** An email that names neither an admin nor a member of [Object.prototype]
    is replaced by the default admin account. *)
Lemma unknown_email_gets_default_admin (email : jsval) (key : string) :
  js_to_string email = Return key ->
  own_property adminUsers key = None ->
  inherited_property key = JUndefined ->
  login_user email = Return default_admin.
Proof.
  intros Hkey Hown Hinh. unfold login_user. rewrite Hkey. run.
  unfold object_get at 1. rewrite Hown, Hinh. reflexivity.
Qed.

(** C9. The login route is meant to put the default admin account in the
    place of an email that is not in the admin-user table.  It looks the
    email up with [adminUsers[email]], which also finds what the table
    inherits from [Object.prototype]: the email [constructor] is no key of
    the table, yet the lookup answers the function [Object], no
    substitution takes place, and with the password [admin123] the session
    user is an account without id, name or email instead of the default
    admin [ADM001]. *)
Theorem login_with_inherited_member (ss : Session) :
  let body := JObj [("email", JStr "constructor"); ("password", JStr "admin123")] in
  let sessionUser := JObj [("role", JStr "adjuster"); ("password", JUndefined)] in
  own_property adminUsers "constructor" = None
  /\ login_user (JStr "constructor") = Return (JFun "Object")
  /\ js_get_opt default_admin "id" = JStr "ADM001"
  /\ admin_login ss body
     = Return (json (JObj [("success", JBool true); ("user", sessionUser)]),
               mkSession (user ss) sessionUser)
  /\ js_get_opt sessionUser "id" = JUndefined.
Proof. repeat split. Qed.

(** The same lookup lets a request through that carries no password at
    all: the function [Object] has no [password] either. *)
Example login_without_password (ss : Session) :
  exists r ss',
    admin_login ss (JObj [("email", JStr "constructor")]) = Return (r, ss')
    /\ statusCode r = 200.
Proof. eexists _, _. split; reflexivity. Qed.

End LoginClaims.

(** ** The extraction route *)

Module ExtractClaims.
Import Gateway.

(** The fixed set of document types is the set of keys of the table. *)
Lemma document_types_fixed :
  document_types = ["fnol"; "medical"; "estimate"; "police"; "invoice"; "insurance_claim"].
Proof. reflexivity. Qed.

Lemma document_type_config (t : string) :
  In t document_types ->
  exists config, own_config EXTRACTION_CONFIGS t = Some config /\ truthy (JStr t) = true.
Proof.
  rewrite document_types_fixed. cbn [In].
  intros [<- | [<- | [<- | [<- | [<- | [<- | []]]]]]]; eexists; split; reflexivity.
Qed.

Lemma js_get_object (props : list (string * jsval)) (k : string) :
  js_get (JObj props) k = Return (object_get props k).
Proof. reflexivity. Qed.

(** The two ways in which [/extract] ends: without a call to the vendor
    and with an answer other than 200, or after one call to
    [/ai/extract_structured] that asks for the fields of the configuration
    of the requested type, with the answer built from the vendor's. *)
Lemma extract_cases (s : Service) (w : World) (props : list (string * jsval)) :
  let res := extract s w (JObj props) in
  let fileId := js_or (object_get props "fileId") (object_get props "file_id") in
  let extractionType :=
    js_or (object_get props "extractionType") (object_get props "extraction_type") in
  (calls res = [] /\ statusCode (response res) <> 200)
  \/ exists key config text,
       truthy fileId = true
       /\ truthy extractionType = true
       /\ js_to_string extractionType = Return key
       /\ own_config EXTRACTION_CONFIGS key = Some config
       /\ js_to_string fileId = Return text
       /\ (if boxClient s then None else initializeBoxClient w) = None
       /\ res = mkResult (answer_of w fileId extractionType)
                         [BoxPost "/ai/extract_structured" (extract_request fileId config)]
                         (with_client s).
Proof.
  cbv zeta. unfold extract. rewrite !js_get_object. run.
  destruct (truthy (js_or (object_get props "fileId") (object_get props "file_id"))) eqn:Hfid;
    cbn [negb]; [| left; split; [reflexivity | discriminate]].
  destruct (truthy (js_or (object_get props "extractionType")
                          (object_get props "extraction_type"))) eqn:Ht;
    [| left; split; [reflexivity | discriminate]].
  destruct (js_to_string (js_or (object_get props "extractionType")
                                (object_get props "extraction_type"))) as [key | m] eqn:Hkey;
    run; [| left; split; [reflexivity | discriminate]].
  unfold lookup_config.
  destruct (own_config EXTRACTION_CONFIGS key) as [config |] eqn:Hcfg.
  - destruct (if boxClient s then None else initializeBoxClient w) eqn:Hclient;
      [left; split; [reflexivity | discriminate] |].
    destruct (js_to_string (js_or (object_get props "fileId") (object_get props "file_id")))
      as [text | m] eqn:Htext; [| left; split; [reflexivity | discriminate]].
    right. exists key, config, text.
    repeat (split; [first [reflexivity | assumption] |]).
    unfold answer_of.
    destruct (vendor w) as [extractResponse | m d]; [| reflexivity].
    destruct (js_get extractResponse "body") as [rbody | m]; run; [| reflexivity].
    destruct (js_get rbody "answer") as [answer | m] eqn:Hanswer; run; [| reflexivity].
    unfold js_get_opt. destruct rbody; try discriminate Hanswer; reflexivity.
  - destruct (truthy (inherited_property key));
      [| left; split; [reflexivity | discriminate]].
    destruct (if boxClient s then None else initializeBoxClient w);
      [left; split; [reflexivity | discriminate] |].
    destruct (js_to_string (js_or (object_get props "fileId") (object_get props "file_id")));
      left; split; try reflexivity; discriminate.
Qed.

(** The route up to the vendor call, for a request that carries a file id
    and a document type of the table, both of which can be written into
    the log line, on a service whose Box client is, or can be, initialised:
    one call to [/ai/extract_structured], asking for the fields of the
    configuration, and an answer built from the vendor's. *)
Lemma extract_calls_vendor (s : Service) (w : World) (props : list (string * jsval))
  (fileId : jsval) (t text : string) (config : Config) :
  js_or (object_get props "fileId") (object_get props "file_id") = fileId ->
  truthy fileId = true ->
  js_to_string fileId = Return text ->
  js_or (object_get props "extractionType") (object_get props "extraction_type") = JStr t ->
  truthy (JStr t) = true ->
  own_config EXTRACTION_CONFIGS t = Some config ->
  (if boxClient s then None else initializeBoxClient w) = None ->
  extract s w (JObj props)
  = mkResult (answer_of w fileId (JStr t))
             [BoxPost "/ai/extract_structured" (extract_request fileId config)]
             (with_client s).
Proof.
  intros Hfile Hfid Htext Htype Ht Hcfg Hclient.
  destruct (extract_cases s w props) as [[Hnone _] | (key & config' & text' & H)].
  - exfalso. revert Hnone. unfold extract. rewrite !js_get_object. run.
    rewrite Hfile, Htype, Hfid, Ht. cbn [negb js_to_string primitive_to_string]. run.
    unfold lookup_config. rewrite Hcfg, Hclient, Htext.
    destruct (vendor w); [| discriminate].
    match goal with |- context [match ?c with Return _ => _ | Throw _ => _ end] =>
      destruct c end; discriminate.
  - cbv zeta in H. rewrite Hfile, Htype in H.
    destruct H as (_ & _ & Hkey & Hcfg' & _ & _ & ->).
    cbn in Hkey. injection Hkey as <-. rewrite Hcfg in Hcfg'. injection Hcfg' as <-.
    reflexivity.
Qed.

(** C5. For a POST to [/extract] whose body carries a file id and a
    document type of the fixed set, a successful vendor call (one that is
    made, and answered with a body) yields a 200 response with the
    normalised envelope: [success] true, the [fileId] of the request, the
    [timestamp] of the answer and [data] holding the vendor's answer; a
    failed vendor call yields a 500 whose [error] is the vendor's error
    text. *)
Theorem extract_envelope
  (s : Service) (w : World) (props : list (string * jsval)) (fileId : jsval) (t : string) :
  js_or (object_get props "fileId") (object_get props "file_id") = fileId ->
  truthy fileId = true ->
  js_or (object_get props "extractionType") (object_get props "extraction_type") = JStr t ->
  In t document_types ->
  calls (extract s w (JObj props)) <> [] ->
  let r := response (extract s w (JObj props)) in
  (forall extractResponse rbody answer : jsval,
      vendor w = Resolved extractResponse ->
      js_get extractResponse "body" = Return rbody ->
      js_get rbody "answer" = Return answer ->
      statusCode r = 200
      /\ field r "success" = JBool true
      /\ field r "fileId" = fileId
      /\ field r "timestamp" = JStr (now w)
      /\ field r "data" = js_or answer rbody)
  /\ (forall (m : string) (details : jsval),
        vendor w = Rejected m details ->
        statusCode r = 500 /\ field r "error" = JStr m).
Proof.
  intros Hfile Hfid Htype Hin Hcalled. cbv zeta.
  destruct (extract_cases s w props) as [[Hnone _] | (key & config & text & H)];
    [contradiction |].
  cbv zeta in H. rewrite Hfile, Htype in H.
  destruct H as (_ & _ & _ & _ & _ & _ & ->). cbn [response]. unfold answer_of.
  split.
  - intros extractResponse rbody answer -> -> ->. repeat split.
  - intros m details ->. split; reflexivity.
Qed.

(** An FNOL extraction answered by Box AI, and one that Box AI refuses. *)
Lemma extract_envelope_example :
  (let r := response (extract keyed_service calm_world fnol_request) in
   statusCode r = 200
   /\ field r "success" = JBool true
   /\ field r "fileId" = JStr "123"
   /\ field r "timestamp" = JStr "2023-11-14T22:13:20.000Z"
   /\ field r "data" = JObj [("claimantName", JStr "John Smith")])
  /\
  (let r := response (extract keyed_service vendor_down fnol_request) in
   statusCode r = 500
   /\ field r "error" = JStr "Unexpected API Response [429 Too Many Requests]").
Proof.
  assert (Hcalm : calls (extract keyed_service calm_world fnol_request) <> [])
    by (vm_compute; discriminate).
  assert (Hdown : calls (extract keyed_service vendor_down fnol_request) <> [])
    by (vm_compute; discriminate).
  split.
  - exact (proj1 (extract_envelope keyed_service calm_world
                    [("fileId", JStr "123"); ("extractionType", JStr "fnol")]
                    (JStr "123") "fnol"
                    eq_refl eq_refl eq_refl (or_introl eq_refl) Hcalm)
                 _ _ _ eq_refl eq_refl eq_refl).
  - exact (proj2 (extract_envelope keyed_service vendor_down
                    [("fileId", JStr "123"); ("extractionType", JStr "fnol")]
                    (JStr "123") "fnol"
                    eq_refl eq_refl eq_refl (or_introl eq_refl) Hdown)
                 _ _ eq_refl).
Defined.

Lemma fnol_config_keys :
  map key (fields fnol_config) = fnol_keys
  /\ length (fields fnol_config) = 20%nat
  /\ NoDup fnol_keys.
Proof.
  split; [reflexivity |]. split; [reflexivity |].
  apply (bool_decide_unpack _). vm_compute. reflexivity.
Qed.

(** The request built from a configuration asks for its keys, in order. *)
Lemma requested_keys_of_config (fileId : jsval) (config : Config) :
  requested_keys (extract_request fileId config) = map (fun f => JStr (key f)) (fields config).
Proof.
  unfold requested_keys, extract_request. cbn.
  rewrite map_map. reflexivity.
Qed.

(** C6, as the code has it.  The [fnol] entry of the configuration table
    has exactly twenty fields, with twenty different keys.  An [/extract]
    request of type [fnol] that succeeds has sent the vendor one request
    that asks for exactly those twenty keys, and it returns [success] true
    with, as [data], what the vendor answered: its [answer], or its whole
    body when that has no answer.  The keys of [data] are the vendor's; the
    route does not compare them with the configuration. *)
Theorem fnol_extraction_asks_twenty_keys
  (s : Service) (w : World) (props : list (string * jsval)) :
  js_or (object_get props "extractionType") (object_get props "extraction_type") = JStr "fnol" ->
  statusCode (response (extract s w (JObj props))) = 200 ->
  let res := extract s w (JObj props) in
  length (fields fnol_config) = 20%nat
  /\ NoDup (map key (fields fnol_config))
  /\ (exists request,
        calls res = [BoxPost "/ai/extract_structured" request]
        /\ requested_keys request = map JStr fnol_keys
        /\ length (requested_keys request) = 20%nat)
  /\ field (response res) "success" = JBool true
  /\ exists extractResponse rbody,
       vendor w = Resolved extractResponse
       /\ js_get extractResponse "body" = Return rbody
       /\ field (response res) "data" = js_or (js_get_opt rbody "answer") rbody.
Proof.
  intros Htype Hok. cbv zeta.
  destruct fnol_config_keys as (Hkeys & Hlen & Hnodup).
  split; [exact Hlen |]. split; [rewrite Hkeys; exact Hnodup |].
  destruct (extract_cases s w props) as [[_ Hnot] | (key & config & text & H)];
    [contradiction |].
  cbv zeta in H. rewrite Htype in H.
  destruct H as (_ & _ & Hkey & Hcfg & _ & _ & Hres).
  cbn in Hkey. injection Hkey as <-. cbn in Hcfg. injection Hcfg as <-.
  rewrite Hres in Hok |- *. cbn [response calls] in *. split.
  - eexists. split; [reflexivity |].
    rewrite requested_keys_of_config. split.
    + rewrite <- Hkeys, map_map. reflexivity.
    + rewrite length_map. exact Hlen.
  - unfold answer_of in *.
    destruct (vendor w) as [extractResponse | m d]; [| discriminate Hok].
    destruct (js_get extractResponse "body") as [rbody | m] eqn:Hbody; [| discriminate Hok].
    destruct (js_get rbody "answer") as [answer | m] eqn:Hanswer; [| discriminate Hok].
    split; [reflexivity |]. exists extractResponse, rbody.
    split; [reflexivity |]. split; [exact Hbody |].
    unfold js_get_opt. rewrite Hanswer. reflexivity.
Qed.

(** The request of the specification's example. *)
Lemma fnol_extraction_example :
  let res := extract keyed_service calm_world fnol_request in
  length (fields fnol_config) = 20%nat
  /\ NoDup (map key (fields fnol_config))
  /\ (exists request,
        calls res = [BoxPost "/ai/extract_structured" request]
        /\ requested_keys request = map JStr fnol_keys
        /\ length (requested_keys request) = 20%nat)
  /\ field (response res) "success" = JBool true
  /\ field (response res) "data" = JObj [("claimantName", JStr "John Smith")].
Proof.
  destruct (fnol_extraction_asks_twenty_keys keyed_service calm_world
              [("fileId", JStr "123"); ("extractionType", JStr "fnol")]
              eq_refl eq_refl) as (Hlen & Hnodup & Hcall & Hok & Hdata).
  split; [exact Hlen |]. split; [exact Hnodup |]. split; [exact Hcall |].
  split; [exact Hok | reflexivity].
Defined.

(** C6, as the specification has it, fails: the keys of [data] are not
    bound to the twenty FNOL keys.  When the vendor answers an [fnol]
    request with a key of its own, the response succeeds and [data] carries
    that key. *)
Lemma fnol_data_carries_foreign_key :
  statusCode (response (extract keyed_service vendor_off_script fnol_request)) = 200
  /\ field (response (extract keyed_service vendor_off_script fnol_request)) "success"
     = JBool true
  /\ field (response (extract keyed_service vendor_off_script fnol_request)) "data"
     = JObj [("claimantName", JStr "John Smith"); ("confidence", JStr "high")]
  /\ string_mem "confidence" fnol_keys = false.
Proof. repeat split. Qed.

End ExtractClaims.

(** ** The webhook receiver *)

Module WebhookClaims.
Import Gateway.

Lemma truthy_nonempty (v : string) : v <> "" -> truthy (JStr v) = true.
Proof. intros H. cbn [truthy]. apply String.eqb_neq in H. rewrite H. reflexivity. Qed.

Lemma truthy_of_option (o : option string) :
  truthy (of_option o) = true -> exists v, o = Some v /\ v <> "".
Proof.
  destruct o as [v |]; [| intros H; discriminate H].
  cbn [of_option truthy]. intros H. exists v. split; [reflexivity |].
  intros ->. discriminate H.
Qed.

(** Handling an event ends in the acknowledgement or in the 500 of the
    [catch]. *)
Lemma handle_event_answer (s : Service) (w : World) (body : jsval) :
  fst (handle_event s w body) = received
  \/ exists m, fst (handle_event s w body) = webhook_error m.
Proof.
  unfold handle_event.
  match goal with |- context [match ?c with Return _ => _ | Throw _ => _ end] =>
    destruct c as [[trigger source] | m] end; [| right; eexists; reflexivity].
  destruct (js_is_string trigger "FILE.UPLOADED"); [| left; reflexivity].
  match goal with |- context [match ?c with Return _ => _ | Throw _ => _ end] =>
    destruct c as [[[fileId fileName] extractionType] | m] end;
    [| right; eexists; reflexivity].
  destruct (truthy (of_option (N8N_WEBHOOK_URL s))); [| left; reflexivity].
  destruct (n8n w); [left; reflexivity | right; eexists; reflexivity].
Qed.

Lemma acknowledge_answer (s : Service) (w : World) (body : jsval) :
  response (acknowledge s w body) = received
  \/ exists m, response (acknowledge s w body) = webhook_error m.
Proof.
  unfold acknowledge.
  pose proof (handle_event_answer s w body) as H.
  destruct (handle_event s w body) as [r cs]. exact H.
Qed.

(** Without a key, or without a signature header, the receiver does not
    verify anything. *)
Lemma webhook_box_unverified (s : Service) (w : World) (req : WebhookRequest) :
  truthy (of_option (BOX_WEBHOOK_PRIMARY_KEY s)) && truthy (of_option (x_box_signature req))
    = false ->
  webhook_box s w req = acknowledge s w (body req).
Proof. intros H. unfold webhook_box. rewrite H. reflexivity. Qed.

(** A signature that is the HMAC of the body is accepted. *)
Lemma valid_signature_accepted (s : Service) (w : World) (req : WebhookRequest)
  (key data : string) :
  BOX_WEBHOOK_PRIMARY_KEY s = Some key ->
  Crypto.JSON_stringify (body req) = Some data ->
  x_box_signature req = Some (Crypto.createHmac_sha256_base64 key data) ->
  webhook_box s w req = acknowledge s w (body req).
Proof.
  intros Hkey Hdata Hsig. unfold webhook_box, expectedSignature.
  rewrite Hkey, Hsig, Hdata. cbn [of_option primitive_to_string js_is_string].
  rewrite String.eqb_refl. cbn [negb].
  destruct (truthy (JStr key) && truthy (JStr _)); reflexivity.
Qed.

(** C4, as the code has it.  The receiver answers 401 [Invalid signature]
    whenever the primary key is configured (and not empty), the request
    carries a (non-empty) [x-box-signature] header, and the HMAC-SHA256 of
    the re-serialised JSON body under that key differs from the header.
    When the primary key is unset nothing is verified, whatever the
    signature: the request goes on to the event handling and is answered
    200 [received], or 500 when handling the event throws; never 401. *)
Theorem signature_mismatch_rejected_keyless_unchecked :
  (forall (s : Service) (w : World) (req : WebhookRequest) (key sig data : string),
      BOX_WEBHOOK_PRIMARY_KEY s = Some key -> key <> "" ->
      x_box_signature req = Some sig -> sig <> "" ->
      Crypto.JSON_stringify (body req) = Some data ->
      sig <> Crypto.createHmac_sha256_base64 key data ->
      webhook_box s w req
      = mkResult (status_json 401 (JObj [("error", JStr "Invalid signature")])) [] s)
  /\
  (forall (s : Service) (w : World) (req : WebhookRequest),
      BOX_WEBHOOK_PRIMARY_KEY s = None ->
      webhook_box s w req = acknowledge s w (body req)
      /\ (response (webhook_box s w req) = received
          \/ exists m, response (webhook_box s w req) = webhook_error m)).
Proof.
  split.
  - intros s w req key sig data Hkey Hk Hsig Hs Hdata Hne.
    unfold webhook_box, expectedSignature.
    rewrite Hkey, Hsig, Hdata. cbn [of_option primitive_to_string js_is_string].
    rewrite (truthy_nonempty key Hk), (truthy_nonempty sig Hs). cbn [andb].
    apply String.eqb_neq in Hne. rewrite Hne. reflexivity.
  - intros s w req Hkey.
    assert (H : webhook_box s w req = acknowledge s w (body req)).
    { apply webhook_box_unverified. rewrite Hkey. reflexivity. }
    split; [exact H |]. rewrite H. apply acknowledge_answer.
Qed.

(** A forged signature under the key [secret], and a request to a gateway
    without a key. *)
Lemma signature_mismatch_example :
  webhook_box keyed_service calm_world (mkWebhookRequest (Some "forged") (JObj []))
  = mkResult (status_json 401 (JObj [("error", JStr "Invalid signature")])) [] keyed_service
  /\ webhook_box keyless_service calm_world (mkWebhookRequest (Some "forged") (JObj []))
     = acknowledge keyless_service calm_world (JObj []).
Proof.
  split.
  - apply (proj1 signature_mismatch_rejected_keyless_unchecked
             keyed_service calm_world (mkWebhookRequest (Some "forged") (JObj []))
             "secret" "forged" "{}");
      [reflexivity | discriminate | reflexivity | discriminate | reflexivity
      | vm_compute; discriminate].
  - apply (proj2 signature_mismatch_rejected_keyless_unchecked
             keyless_service calm_world (mkWebhookRequest (Some "forged") (JObj []))).
    reflexivity.
Defined.

(** C4, as the specification has it, fails on both sides.  With the key
    [secret] configured and no signature header, the HMAC of the body is
    not the (absent) header value, yet the request is answered 200; and
    with no key configured, an upload event without its source is
    answered 500, not 200. *)
Lemma unsigned_request_accepted_keyless_request_fails :
  (BOX_WEBHOOK_PRIMARY_KEY keyed_service = Some "secret"
   /\ expectedSignature "secret" (JObj []) = Return "dzJZAsrKgS3CWXM6rNBGtzgXNyx3e42VtAJkdHRRbhM="
   /\ js_is_string (of_option (x_box_signature (mkWebhookRequest None (JObj []))))
                   "dzJZAsrKgS3CWXM6rNBGtzgXNyx3e42VtAJkdHRRbhM=" = false
   /\ response (webhook_box keyed_service calm_world (mkWebhookRequest None (JObj [])))
      = received
   /\ statusCode received = 200)
  /\
  (BOX_WEBHOOK_PRIMARY_KEY keyless_service = None
   /\ statusCode (response (webhook_box keyless_service calm_world
                              (mkWebhookRequest (Some "forged") upload_event_without_source)))
      = 500).
Proof. repeat split; vm_compute; reflexivity. Qed.

(** C10, as the code has it.  When the request carries no
    [x-box-signature] header, the receiver verifies nothing, key or no key:
    it goes straight on to the event handling and answers 200 [received],
    or 500 when handling the event throws.  A 401 is only ever answered
    when both the key and the header are present (and not empty). *)
Theorem missing_signature_skips_verification :
  (forall (s : Service) (w : World) (body : jsval),
      let res := webhook_box s w (mkWebhookRequest None body) in
      res = acknowledge s w body
      /\ (response res = received \/ exists m, response res = webhook_error m))
  /\
  (forall (s : Service) (w : World) (req : WebhookRequest),
      statusCode (response (webhook_box s w req)) = 401 ->
      exists key sig,
        BOX_WEBHOOK_PRIMARY_KEY s = Some key /\ key <> ""
        /\ x_box_signature req = Some sig /\ sig <> "").
Proof.
  split.
  - intros s w body. cbv zeta.
    assert (H : webhook_box s w (mkWebhookRequest None body) = acknowledge s w body).
    { apply webhook_box_unverified. cbn. apply andb_false_r. }
    split; [exact H |]. rewrite H. apply acknowledge_answer.
  - intros s w req H401.
    destruct (truthy (of_option (BOX_WEBHOOK_PRIMARY_KEY s))
              && truthy (of_option (x_box_signature req))) eqn:Hboth.
    + apply andb_prop in Hboth. destruct Hboth as [Hk Hs].
      destruct (truthy_of_option _ Hk) as (key & Hkey & Hkne).
      destruct (truthy_of_option _ Hs) as (sig & Hsig & Hsne).
      exists key, sig. auto.
    + rewrite (webhook_box_unverified s w req Hboth) in H401.
      destruct (acknowledge_answer s w (body req)) as [Hr | [m Hr]];
        rewrite Hr in H401; discriminate H401.
Qed.

(** An unsigned event on the keyed gateway, and the forged one that is
    refused. *)
Lemma missing_signature_example :
  (webhook_box keyed_service calm_world (mkWebhookRequest None (JObj []))
   = acknowledge keyed_service calm_world (JObj [])
   /\ response (webhook_box keyed_service calm_world (mkWebhookRequest None (JObj [])))
      = received)
  /\ exists key sig,
       BOX_WEBHOOK_PRIMARY_KEY keyed_service = Some key /\ key <> ""
       /\ x_box_signature (mkWebhookRequest (Some "forged") (JObj [])) = Some sig /\ sig <> "".
Proof.
  split.
  - split.
    + apply (proj1 missing_signature_skips_verification keyed_service calm_world (JObj [])).
    + reflexivity.
  - apply (proj2 missing_signature_skips_verification keyed_service calm_world
             (mkWebhookRequest (Some "forged") (JObj []))).
    vm_compute. reflexivity.
Defined.

(** C10, as the specification has it, fails: with the key configured and
    no signature header, an upload event without its source is not
    answered 200 [received] but 500, and so is a well-formed upload event
    whose forward to n8n fails. *)
Lemma unsigned_upload_event_fails :
  (BOX_WEBHOOK_PRIMARY_KEY keyed_service = Some "secret"
   /\ x_box_signature (mkWebhookRequest None upload_event_without_source) = None
   /\ response (webhook_box keyed_service calm_world
                  (mkWebhookRequest None upload_event_without_source))
      = webhook_error "Cannot read properties of undefined (reading 'id')"
   /\ statusCode (webhook_error "Cannot read properties of undefined (reading 'id')") = 500)
  /\
  (BOX_WEBHOOK_PRIMARY_KEY forwarding_service = Some "secret"
   /\ webhook_box forwarding_service n8n_down (mkWebhookRequest None upload_event)
      = mkResult (webhook_error "fetch failed")
                 [Fetch "https://n8n.suresafe.com/webhook/box-file-upload"
                        (JObj [ ("event", JStr "file.uploaded");
                                ("fileId", JStr "1234567890");
                                ("fileName", JStr "Medical_Report.pdf");
                                ("extractionType", JStr "medical");
                                ("source", JObj [ ("id", JStr "1234567890"); ("type", JStr "file");
                                                  ("name", JStr "Medical_Report.pdf") ]);
                                ("timestamp", JStr "2023-11-14T22:13:20.000Z") ])]
                 forwarding_service).
Proof. repeat split; vm_compute; reflexivity. Qed.

End WebhookClaims.

(** * Further properties *)

(** ** The trigger dispatcher *)

Module ProxyExtras.
Import Proxy ProxyProps.

(** X1. For a request whose trigger turns into one of the eleven keys of
    the routing table, the dispatcher sets [req.url] to [/webhook/<route>]
    for the route the table gives, whatever URL (query string included) the
    request came in on, and then calls [next()]; when that route is
    [box-file-upload] itself the URL is left as it is.  The body is not
    touched.  The trigger need not be a string: an array holding the name
    is read as the name.  (What the proxy middleware mounted behind the
    dispatcher sends upstream is not part of the statement.) *)
Theorem dispatcher_routes_by_table (u : string) (b v : jsval) (t : string) :
  js_get_opt b "trigger" = v ->
  truthy v = true ->
  js_to_string v = Return t ->
  In t known_triggers ->
  exists route,
    own_property TRIGGER_ROUTES t = Some (JStr route)
    /\ box_dispatcher (mkRequest u b)
       = Return (mkRequest (if String.eqb route "box-file-upload" then u
                            else "/webhook/" +:+ route) b).
Proof.
  intros Hv Htruthy Hkey Hin.
  rewrite (dispatcher_on_key u b v t Hv Htruthy Hkey Hin).
  apply known_triggers_cases in Hin.
  repeat (destruct Hin as [-> | Hin]; [eexists; split; reflexivity |]).
  subst t. eexists; split; reflexivity.
Qed.

(** A sign event whose trigger comes wrapped in an array, on a URL with a
    query string. *)
Lemma dispatcher_routes_by_table_example :
  exists route,
    own_property TRIGGER_ROUTES "SIGN_REQUEST.DECLINED" = Some (JStr route)
    /\ box_dispatcher
         (mkRequest "/webhook/box-file-upload?retry=1"
                    (JObj [("trigger", JArr [JStr "SIGN_REQUEST.DECLINED"])]))
       = Return (mkRequest (if String.eqb route "box-file-upload"
                            then "/webhook/box-file-upload?retry=1"
                            else "/webhook/" +:+ route)
                           (JObj [("trigger", JArr [JStr "SIGN_REQUEST.DECLINED"])])).
Proof.
  apply (dispatcher_routes_by_table "/webhook/box-file-upload?retry=1"
           (JObj [("trigger", JArr [JStr "SIGN_REQUEST.DECLINED"])])
           (JArr [JStr "SIGN_REQUEST.DECLINED"]) "SIGN_REQUEST.DECLINED");
    [reflexivity | reflexivity | reflexivity | vm_compute; tauto].
Defined.

End ProxyExtras.

(** ** The extraction gateway *)

Module GatewayExtras.
Import Gateway GatewayRoutes ExtractClaims.

(** X2. [/extract] validates before it does anything else: a request
    without a file id (under either spelling) is answered 400 [fileId is
    required]; one with a file id but without an extraction type, or with a
    type whose key is neither in the configuration table nor a member of
    [Object.prototype], is answered 400 [Invalid extractionType] together
    with the six valid types; one whose type cannot be turned into a
    property key at all is answered 500 with the TypeError of the lookup.
    In all three cases Box is not called and the Box client is not
    initialised. *)
Theorem extract_validates_before_any_call
  (s : Service) (w : World) (props : list (string * jsval)) :
  let fileId := js_or (object_get props "fileId") (object_get props "file_id") in
  let extractionType :=
    js_or (object_get props "extractionType") (object_get props "extraction_type") in
  (truthy fileId = false ->
   extract s w (JObj props)
   = mkResult (status_json 400 (JObj [("error", JStr "fileId is required")])) [] s)
  /\
  (truthy fileId = true ->
   truthy extractionType = false
   \/ (exists key, js_to_string extractionType = Return key
                   /\ own_config EXTRACTION_CONFIGS key = None
                   /\ inherited_property key = JUndefined) ->
   extract s w (JObj props)
   = mkResult (status_json 400
                 (JObj [ ("error", JStr "Invalid extractionType");
                         ("validTypes", JArr (map JStr document_types)) ]))
              [] s)
  /\
  (forall m : string,
      truthy fileId = true ->
      truthy extractionType = true ->
      js_to_string extractionType = Throw m ->
      extract s w (JObj props) = mkResult (extraction_error m JUndefined) [] s).
Proof.
  cbv zeta. unfold extract. rewrite !js_get_object. run. split; [| split].
  - intros ->. reflexivity.
  - intros -> Htype. cbn [negb].
    destruct Htype as [-> | (key & Hkey & Hown & Hinh)]; [reflexivity |].
    rewrite Hkey. run. unfold lookup_config. rewrite Hown, Hinh. cbn [truthy].
    destruct (truthy (js_or _ _)); reflexivity.
  - intros m -> -> ->. reflexivity.
Qed.

(** A request without file id, one for a document type that does not
    exist, and one whose type is an object without a usable [toString]. *)
Lemma extract_validates_example :
  extract keyed_service calm_world (JObj [("extractionType", JStr "fnol")])
  = mkResult (status_json 400 (JObj [("error", JStr "fileId is required")])) [] keyed_service
  /\ extract keyed_service calm_world
             (JObj [("file_id", JStr "123"); ("extraction_type", JStr "passport")])
     = mkResult (status_json 400
                   (JObj [ ("error", JStr "Invalid extractionType");
                           ("validTypes", JArr (map JStr document_types)) ]))
                [] keyed_service
  /\ extract keyed_service calm_world
             (JObj [("fileId", JStr "123"); ("extractionType", JObj [("toString", JNum 1)])])
     = mkResult (extraction_error "Cannot convert object to primitive value" JUndefined)
                [] keyed_service.
Proof.
  split; [| split].
  - apply (proj1 (extract_validates_before_any_call keyed_service calm_world
                    [("extractionType", JStr "fnol")])).
    reflexivity.
  - apply (proj1 (proj2 (extract_validates_before_any_call keyed_service calm_world
                           [("file_id", JStr "123"); ("extraction_type", JStr "passport")]))).
    + reflexivity.
    + right. exists "passport". repeat split.
  - apply (proj2 (proj2 (extract_validates_before_any_call keyed_service calm_world
                           [ ("fileId", JStr "123");
                             ("extractionType", JObj [("toString", JNum 1)]) ])));
      reflexivity.
Defined.

(** X3. An extraction type that names a member of [Object.prototype]
    ([constructor], [toString], ...) passes the validation of [/extract],
    since the table lookup finds the inherited member: for a file id that
    can be written into the log line, the request is not answered 400 but
    fails on the missing field list, with a 500, after the Box client was
    initialised and before Box is called. *)
Theorem extract_inherited_type_fails_late
  (s : Service) (w : World) (props : list (string * jsval)) (fileId extractionType : jsval)
  (key text : string) :
  js_or (object_get props "fileId") (object_get props "file_id") = fileId ->
  truthy fileId = true ->
  js_to_string fileId = Return text ->
  js_or (object_get props "extractionType") (object_get props "extraction_type") = extractionType ->
  truthy extractionType = true ->
  js_to_string extractionType = Return key ->
  own_config EXTRACTION_CONFIGS key = None ->
  truthy (inherited_property key) = true ->
  (if boxClient s then None else initializeBoxClient w) = None ->
  extract s w (JObj props)
  = mkResult (extraction_error "Cannot read properties of undefined (reading 'map')" JUndefined)
             [] (with_client s).
Proof.
  intros Hfile Hfid Htext Htype Ht Hkey Hown Hinh Hclient.
  unfold extract. rewrite !js_get_object. run.
  rewrite Hfile, Htype, Hfid, Ht, Hkey. cbn [negb]. run.
  unfold lookup_config. rewrite Hown, Hinh, Hclient, Htext. reflexivity.
Qed.

Lemma extract_inherited_type_example :
  extract keyed_service calm_world
          (JObj [("fileId", JStr "123"); ("extractionType", JStr "toString")])
  = mkResult (extraction_error "Cannot read properties of undefined (reading 'map')" JUndefined)
             [] (with_client keyed_service).
Proof.
  apply (extract_inherited_type_fails_late keyed_service calm_world
           [("fileId", JStr "123"); ("extractionType", JStr "toString")]
           (JStr "123") (JStr "toString") "toString" "123");
    reflexivity.
Defined.

(** X4. Whatever the request and whatever Box answers, [/extract] calls Box
    at most once (a failed call is not repeated), and only at
    [/ai/extract_structured]; a 400 answer means that Box was not called,
    a 200 answer that it was called exactly once. *)
Theorem extract_calls_box_at_most_once (s : Service) (w : World) (body : jsval) :
  let res := extract s w body in
  (length (calls res) <= 1)%nat
  /\ Forall (fun c => is_box_post "/ai/extract_structured" c = true) (calls res)
  /\ (statusCode (response res) = 400 -> calls res = [])
  /\ (statusCode (response res) = 200 -> length (calls res) = 1%nat).
Proof.
  cbv zeta.
  assert (Hnone : forall r : Response,
             statusCode r <> 200 ->
             forall s' : Service,
               (length (calls (mkResult r [] s')) <= 1)%nat
               /\ Forall (fun c => is_box_post "/ai/extract_structured" c = true)
                         (calls (mkResult r [] s'))
               /\ (statusCode (response (mkResult r [] s')) = 400 ->
                   calls (mkResult r [] s') = [])
               /\ (statusCode (response (mkResult r [] s')) = 200 ->
                   length (calls (mkResult r [] s')) = 1%nat)).
  { intros r Hr s'. cbn [calls response length].
    split; [lia |]. split; [constructor |]. split; [reflexivity | intros H; contradiction]. }
  assert (Hone : forall (r : Response) (c : Call),
             statusCode r <> 400 ->
             is_box_post "/ai/extract_structured" c = true ->
             forall s' : Service,
               (length (calls (mkResult r [c] s')) <= 1)%nat
               /\ Forall (fun c => is_box_post "/ai/extract_structured" c = true)
                         (calls (mkResult r [c] s'))
               /\ (statusCode (response (mkResult r [c] s')) = 400 ->
                   calls (mkResult r [c] s') = [])
               /\ (statusCode (response (mkResult r [c] s')) = 200 ->
                   length (calls (mkResult r [c] s')) = 1%nat)).
  { intros r c Hr Hc s'. cbn [calls response length].
    split; [lia |]. split; [constructor; [exact Hc | constructor] |].
    split; [intros H; contradiction | reflexivity]. }
  unfold extract.
  match goal with |- context [match ?c with Return _ => _ | Throw _ => _ end] =>
    destruct c as [[fileId extractionType] | m] end; [| apply Hnone; discriminate].
  destruct (negb (truthy fileId)); [apply Hnone; discriminate |].
  match goal with |- context [match ?c with Return _ => _ | Throw _ => _ end] =>
    destruct c as [found | m] end; [| apply Hnone; discriminate].
  destruct found as [config | v |]; [| | apply Hnone; discriminate].
  all: destruct (if boxClient s then None else initializeBoxClient w);
    [apply Hnone; discriminate |].
  all: match goal with |- context [match ?c with Return _ => _ | Throw _ => _ end] =>
         destruct c as [text | m] end; [| apply Hnone; discriminate].
  2: apply Hnone; discriminate.
  destruct (vendor w) as [extractResponse | m details];
    [| apply Hone; [discriminate | reflexivity]].
  match goal with |- context [match ?c with Return _ => _ | Throw _ => _ end] =>
    destruct c end; apply Hone; try discriminate; reflexivity.
Qed.

End GatewayExtras.

Module ExtractExtras.
Import Gateway GatewayRoutes.

Lemma own_config_cases (t : string) (config : Config) :
  own_config EXTRACTION_CONFIGS t = Some config ->
  config = fnol_config \/ config = medical_config \/ config = estimate_config
  \/ config = police_config \/ config = invoice_config \/ config = insurance_claim_config.
Proof.
  unfold EXTRACTION_CONFIGS. cbn [own_config].
  repeat match goal with
         | |- context [String.eqb ?a t] => destruct (String.eqb a t)
         end;
    intros H; inversion H; tauto.
Qed.

(** X5. For each of the six document types, the field list sent to Box has
    one entry per configured field, in the configured order and under the
    configured key, and every entry is typed [string]: each configuration
    declares date fields, and none of them reaches Box as a date. *)
Theorem vendor_fields_all_typed_string (t : string) (config : Config) (fileId : jsval) :
  own_config EXTRACTION_CONFIGS t = Some config ->
  exists sent,
    js_get_opt (extract_request fileId config) "fields" = JArr sent
    /\ Forall (fun f => js_get_opt f "type" = JStr "string") sent
    /\ map (fun f => js_get_opt f "key") sent = map (fun f => JStr (key f)) (fields config)
    /\ existsb (fun f => String.eqb (type f) "date") (fields config) = true.
Proof.
  intros H. exists (map vendor_field (fields config)).
  split; [reflexivity |].
  apply own_config_cases in H.
  destruct H as [-> | [-> | [-> | [-> | [-> | ->]]]]];
    (split; [vm_compute; repeat constructor | split; reflexivity]).
Qed.

Lemma vendor_fields_example :
  exists sent,
    js_get_opt (extract_request (JStr "123") police_config) "fields" = JArr sent
    /\ Forall (fun f => js_get_opt f "type" = JStr "string") sent
    /\ map (fun f => js_get_opt f "key") sent = map (fun f => JStr (key f)) (fields police_config)
    /\ existsb (fun f => String.eqb (type f) "date") (fields police_config) = true.
Proof.
  apply (vendor_fields_all_typed_string "police" police_config (JStr "123")). reflexivity.
Defined.

End ExtractExtras.

(** ** The webhook receiver *)

Module WebhookExtras.
Import Gateway GatewayRoutes WebhookClaims.

Lemma lower_upper_ascii (c : ascii) : lower_ascii (upper_ascii c) = lower_ascii c.
Proof. destruct c as [[] [] [] [] [] [] [] []]; reflexivity. Qed.

Lemma toLowerCase_toUpperCase (n : string) : toLowerCase (toUpperCase n) = toLowerCase n.
Proof.
  unfold toLowerCase, toUpperCase.
  rewrite list_ascii_of_string_of_list_ascii, map_map.
  f_equal. apply map_ext. exact lower_upper_ascii.
Qed.

(** X7. The receiver derives an extraction type from every file name: one
    of [medical], [estimate], [police], [invoice] and [fnol], each of them
    a type that [/extract] accepts, and never [insurance_claim].  The name
    is matched case-insensitively, [medical] wins over the other words, and
    [fnol] is what a name with none of the four words gets. *)
Theorem extraction_type_from_file_name (n : string) :
  exists t,
    extraction_type_of (JStr n) = Return t
    /\ In t ["medical"; "estimate"; "police"; "invoice"; "fnol"]
    /\ In t document_types
    /\ extraction_type_of (JStr (toUpperCase n)) = Return t
    /\ (includes (toLowerCase n) "medical" = true -> t = "medical")
    /\ (includes (toLowerCase n) "medical" = false ->
        includes (toLowerCase n) "estimate" = false ->
        includes (toLowerCase n) "police" = false ->
        includes (toLowerCase n) "invoice" = false -> t = "fnol").
Proof.
  cbn [extraction_type_of]. rewrite toLowerCase_toUpperCase.
  destruct (includes (toLowerCase n) "medical");
    [| destruct (includes (toLowerCase n) "estimate");
       [| destruct (includes (toLowerCase n) "police");
          [| destruct (includes (toLowerCase n) "invoice")]]];
    eexists; (split; [reflexivity |]);
    (split; [cbn; tauto |]); (split; [vm_compute; tauto |]);
    (split; [reflexivity |]);
    split; intros; try reflexivity; discriminate.
Qed.

Lemma destructure_event_fields (b trigger source : jsval) :
  destructure_event b = Return (trigger, source) ->
  trigger = js_get_opt b "trigger" /\ source = js_get_opt b "source".
Proof.
  unfold destructure_event, js_get_opt.
  destruct b; cbn; intros H; inversion H; split; reflexivity.
Qed.

Lemma read_event_fields (b trigger source : jsval) :
  read_event b = Return (trigger, source) ->
  trigger = js_get_opt b "trigger" /\ source = js_get_opt b "source".
Proof.
  unfold read_event.
  destruct (destructure_event b) as [[t s] | m] eqn:Hd; run; [| discriminate].
  apply destructure_event_fields in Hd. destruct Hd as [-> ->].
  destruct (js_to_string (js_get_opt b "trigger")); run; [| discriminate].
  destruct (js_to_string (js_get_opt (js_get_opt b "source") "type")); run; [| discriminate].
  destruct (js_to_string (js_get_opt (js_get_opt b "source") "id")); run; [| discriminate].
  intros H. injection H as <- <-. split; reflexivity.
Qed.

Lemma js_get_return (v x : jsval) (k : string) :
  js_get v k = Return x -> x = js_get_opt v k.
Proof. unfold js_get_opt. intros ->. reflexivity. Qed.

Lemma js_is_string_true (v : jsval) (s : string) :
  js_is_string v s = true -> v = JStr s.
Proof.
  destruct v; cbn; try discriminate. intros H. apply String.eqb_eq in H. congruence.
Qed.

(** What handling an event sends out: nothing, or the one forward of an
    upload event to n8n. *)
Lemma handle_event_calls (s : Service) (w : World) (b : jsval) :
  snd (handle_event s w b) = []
  \/ exists url payload t,
       N8N_WEBHOOK_URL s = Some url /\ url <> ""
       /\ js_get_opt b "trigger" = JStr "FILE.UPLOADED"
       /\ snd (handle_event s w b) = [Fetch (url +:+ "/box-file-upload") payload]
       /\ js_get_opt payload "event" = JStr "file.uploaded"
       /\ js_get_opt payload "fileId" = js_get_opt (js_get_opt b "source") "id"
       /\ js_get_opt payload "extractionType" = JStr t
       /\ extraction_type_of (js_get_opt (js_get_opt b "source") "name") = Return t.
Proof.
  unfold handle_event.
  destruct (read_event b) as [[trigger source] | m] eqn:Hd; [| left; reflexivity].
  apply read_event_fields in Hd. destruct Hd as [-> ->].
  destruct (js_is_string (js_get_opt b "trigger") "FILE.UPLOADED") eqn:Htrigger;
    [| left; reflexivity].
  apply js_is_string_true in Htrigger.
  destruct (js_get (js_get_opt b "source") "id") as [fileId | m] eqn:Hid;
    [| left; reflexivity].
  apply js_get_return in Hid. run.
  destruct (js_get (js_get_opt b "source") "name") as [fileName | m] eqn:Hname;
    [| left; reflexivity].
  apply js_get_return in Hname. run.
  destruct (extraction_type_of fileName) as [t | m] eqn:Ht; [| left; reflexivity].
  destruct (truthy (of_option (N8N_WEBHOOK_URL s))) eqn:Hurl; [| left; reflexivity].
  apply truthy_of_option in Hurl. destruct Hurl as [url [Hurl Hne]].
  right. rewrite Hurl. cbn [of_option primitive_to_string].
  eexists url, _, t. split; [reflexivity |]. split; [exact Hne |].
  split; [exact Htrigger |].
  split; [destruct (n8n w); reflexivity |].
  split; [reflexivity |]. split; [cbn; congruence |]. split; [reflexivity |].
  subst fileName. exact Ht.
Qed.

(** An upload event that can be written to the log, for a file with a
    name, on a gateway with an n8n address: one forward, and the answer
    that n8n allows. *)
Lemma handle_upload_event (s : Service) (w : World) (props : list (string * jsval))
  (source fileId : jsval) (url name kind id_ : string) :
  N8N_WEBHOOK_URL s = Some url ->
  url <> "" ->
  object_get props "trigger" = JStr "FILE.UPLOADED" ->
  object_get props "source" = source ->
  js_get source "id" = Return fileId ->
  js_get_opt source "name" = JStr name ->
  js_to_string (js_get_opt source "type") = Return kind ->
  js_to_string fileId = Return id_ ->
  exists t,
    extraction_type_of (JStr name) = Return t
    /\ handle_event s w (JObj props)
       = (match n8n w with
          | Resolved _ => received
          | Rejected m _ => webhook_error m
          end,
          [Fetch (url +:+ "/box-file-upload")
                 (JObj [ ("event", JStr "file.uploaded");
                         ("fileId", fileId);
                         ("fileName", JStr name);
                         ("extractionType", JStr t);
                         ("source", source);
                         ("timestamp", JStr (now w)) ])]).
Proof.
  intros Hurl Hne Htrigger Hsource Hid Hname Hkind Hidtext.
  assert (Hfile : fileId = js_get_opt source "id") by (apply js_get_return; exact Hid).
  eexists. split; [reflexivity |].
  unfold handle_event, read_event, destructure_event. rewrite !ExtractClaims.js_get_object. run.
  rewrite Htrigger, Hsource. cbn [js_to_string primitive_to_string]. run.
  rewrite Hkind. run. rewrite <- Hfile, Hidtext. run.
  cbn [js_is_string String.eqb Ascii.eqb Bool.eqb]. rewrite Hid. run.
  assert (Hn : js_get source "name" = Return (JStr name)).
  { unfold js_get_opt in Hname. destruct (js_get source "name") as [x | m] eqn:E;
      [congruence | destruct source; discriminate]. }
  rewrite Hn. run. cbn [extraction_type_of]. run.
  rewrite Hurl. cbn [of_option primitive_to_string].
  rewrite (truthy_nonempty url Hne).
  destruct (n8n w); reflexivity.
Qed.

(** X8. The receiver never changes the service and sends at most one
    request out: nothing at all for a refused request or for an event other
    than [FILE.UPLOADED].  An upload event is forwarded: when an n8n
    address is configured and the request is not refused (no key, no
    signature header, or the right signature), an upload event that names
    its file (with an id and a type that can be written to the log) leads
    to exactly one request to [<address>/box-file-upload], carrying the
    event [file.uploaded], the id and name of the file, the extraction type
    derived from the name, and the source; the answer is 200 when n8n takes
    it and 500 with the error text when it does not. *)
Theorem webhook_forwards_only_uploads (s : Service) (w : World) (req : WebhookRequest) :
  let res := webhook_box s w req in
  service res = s
  /\ (statusCode (response res) = 401 -> calls res = [])
  /\ (calls res = []
      \/ exists url payload t,
           N8N_WEBHOOK_URL s = Some url /\ url <> ""
           /\ js_get_opt (body req) "trigger" = JStr "FILE.UPLOADED"
           /\ calls res = [Fetch (url +:+ "/box-file-upload") payload]
           /\ js_get_opt payload "event" = JStr "file.uploaded"
           /\ js_get_opt payload "fileId" = js_get_opt (js_get_opt (body req) "source") "id"
           /\ js_get_opt payload "extractionType" = JStr t
           /\ extraction_type_of (js_get_opt (js_get_opt (body req) "source") "name")
              = Return t)
  /\ (forall (props : list (string * jsval)) (source fileId : jsval)
             (url name kind id_ : string),
        body req = JObj props ->
        N8N_WEBHOOK_URL s = Some url ->
        url <> "" ->
        object_get props "trigger" = JStr "FILE.UPLOADED" ->
        object_get props "source" = source ->
        js_get source "id" = Return fileId ->
        js_get_opt source "name" = JStr name ->
        js_to_string (js_get_opt source "type") = Return kind ->
        js_to_string fileId = Return id_ ->
        BOX_WEBHOOK_PRIMARY_KEY s = None
        \/ x_box_signature req = None
        \/ (exists key data,
              BOX_WEBHOOK_PRIMARY_KEY s = Some key
              /\ Crypto.JSON_stringify (body req) = Some data
              /\ x_box_signature req = Some (Crypto.createHmac_sha256_base64 key data)) ->
        exists t,
          extraction_type_of (JStr name) = Return t
          /\ calls res
             = [Fetch (url +:+ "/box-file-upload")
                      (JObj [ ("event", JStr "file.uploaded");
                              ("fileId", fileId);
                              ("fileName", JStr name);
                              ("extractionType", JStr t);
                              ("source", source);
                              ("timestamp", JStr (now w)) ])]
          /\ response res
             = match n8n w with
               | Resolved _ => received
               | Rejected m _ => webhook_error m
               end).
Proof.
  cbv zeta.
  assert (Hack : service (acknowledge s w (body req)) = s
                 /\ (statusCode (response (acknowledge s w (body req))) = 401 ->
                     calls (acknowledge s w (body req)) = [])
                 /\ calls (acknowledge s w (body req)) = snd (handle_event s w (body req))
                 /\ response (acknowledge s w (body req)) = fst (handle_event s w (body req))).
  { pose proof (acknowledge_answer s w (body req)) as Hr. revert Hr.
    unfold acknowledge. destruct (handle_event s w (body req)) as [r cs]. cbn.
    intros Hr. split; [reflexivity |]. split; [| split; reflexivity].
    destruct Hr as [-> | [m ->]]; intros H; discriminate H. }
  destruct Hack as [Hs [H401 [Hcalls Hresp]]].
  pose proof (handle_event_calls s w (body req)) as Hh. rewrite <- Hcalls in Hh.
  split; [| split; [| split]].
  - unfold webhook_box.
    destruct (truthy _ && truthy _); [| exact Hs].
    destruct (expectedSignature _ (body req)) as [expected | m]; [| reflexivity].
    destruct (negb _); [reflexivity | exact Hs].
  - unfold webhook_box.
    destruct (truthy _ && truthy _); [| exact H401].
    destruct (expectedSignature _ (body req)) as [expected | m]; [| reflexivity].
    destruct (negb _); [reflexivity | exact H401].
  - unfold webhook_box.
    destruct (truthy _ && truthy _); [| exact Hh].
    destruct (expectedSignature _ (body req)) as [expected | m]; [| left; reflexivity].
    destruct (negb _); [left; reflexivity | exact Hh].
  - intros props source fileId url name kind id_ Hbody Hurl Hne Htrigger Hsource Hid Hname
           Hkind Hidtext Hpass.
    assert (Hsame : webhook_box s w req = acknowledge s w (body req)).
    { destruct Hpass as [Hkey | [Hsig | (key & data & Hkey & Hdata & Hsig)]].
      - apply webhook_box_unverified. rewrite Hkey. reflexivity.
      - apply webhook_box_unverified. rewrite Hsig. apply andb_false_r.
      - exact (valid_signature_accepted s w req key data Hkey Hdata Hsig). }
    rewrite Hsame, Hcalls, Hresp, Hbody.
    destruct (handle_upload_event s w props source fileId url name kind id_
                Hurl Hne Htrigger Hsource Hid Hname Hkind Hidtext) as (t & Ht & ->).
    exists t. split; [exact Ht |]. split; reflexivity.
Qed.

(** An unsigned upload event on a gateway that forwards to n8n. *)
Lemma webhook_forwards_example :
  exists t,
    extraction_type_of (JStr "Medical_Report.pdf") = Return t
    /\ calls (webhook_box forwarding_service calm_world (mkWebhookRequest None upload_event))
       = [Fetch ("https://n8n.suresafe.com/webhook" +:+ "/box-file-upload")
                (JObj [ ("event", JStr "file.uploaded");
                        ("fileId", JStr "1234567890");
                        ("fileName", JStr "Medical_Report.pdf");
                        ("extractionType", JStr t);
                        ("source", JObj [ ("id", JStr "1234567890"); ("type", JStr "file");
                                          ("name", JStr "Medical_Report.pdf") ]);
                        ("timestamp", JStr (now calm_world)) ])]
    /\ response (webhook_box forwarding_service calm_world (mkWebhookRequest None upload_event))
       = match n8n calm_world with
         | Resolved _ => received
         | Rejected m _ => webhook_error m
         end.
Proof.
  apply (proj2 (proj2 (proj2 (webhook_forwards_only_uploads forwarding_service calm_world
                                (mkWebhookRequest None upload_event))))
           [ ("trigger", JStr "FILE.UPLOADED");
             ("source", JObj [ ("id", JStr "1234567890"); ("type", JStr "file");
                               ("name", JStr "Medical_Report.pdf") ]) ]
           _ (JStr "1234567890") "https://n8n.suresafe.com/webhook" "Medical_Report.pdf"
           "file" "1234567890");
    try reflexivity; [discriminate | right; left; reflexivity].
Defined.

End WebhookExtras.

(** ** Claim submission, once more *)

Module SubmissionExtras.
Import Portal PortalRoutes SubmissionProps.

(** X9. A submission by a logged-in member whose estimated amount can be
    read as a string (any text, number, boolean, array of such, or nothing
    at all) is answered 200 [success] whatever Box, the extraction gateway
    and the workflow engine do (fail, refuse, answer nonsense), as long as
    the database takes the row: the claim is stored under its id for the
    submitting member, with status [Submitted], a history that starts with
    [Submitted], and a workflow status that is [STARTED] or [DEMO].  The
    session is left as it was. *)
Theorem submission_survives_partner_failures
  (sv : Server) (ss : Session) (w : World) (req : Submission)
  (props uprops : list (string * jsval)) (name amount : string) :
  body req = JObj props ->
  js_to_string (object_get props "estimatedAmount") = Return amount ->
  user ss = JObj uprops ->
  object_get uprops "name" = JStr name ->
  db_create w = None ->
  db_update w 0 = None ->
  let res := submit_claim sv ss w req in
  exists claim r,
    response res = Some r
    /\ statusCode r = 200
    /\ field r "success" = JBool true
    /\ js_get_opt (field r "claim") "id" = JStr (id claim)
    /\ claims (server res) !! id claim = Some claim
    /\ userId claim = js_get_opt (user ss) "id"
    /\ status claim = JStr "Submitted"
    /\ history_head_status (statusHistory claim) = Some (JStr "Submitted")
    /\ (workflowStatus claim = JStr "STARTED" \/ workflowStatus claim = JStr "DEMO")
    /\ session res = ss.
Proof.
  intros Hbody Hamount Huser Hname Hcreate Hupdate. cbv zeta.
  unfold submit_claim.
  rewrite Hbody, Huser. cbn [truthy negb].
  unfold destructure2, js_get. run. rewrite Hname. run.
  destruct (create_folder sv w _) as [folderId cs1].
  destruct (upload_documents sv w folderId (files req)) as [docs cs2].
  destruct (trigger_extraction w folderId docs) as [ai cs3].
  rewrite Hamount, Hcreate.
  unfold start_process, camundaRequest, update. rewrite Hupdate. run.
  destruct (camunda_answer w) as [v | m]; run.
  - destruct v; cbn [js_get]; run;
      (eexists _, _; split; [reflexivity |];
       repeat (split; [first [reflexivity | cbn [server save claims]; apply lookup_insert_eq
                              | left; reflexivity | right; reflexivity] |]);
       reflexivity).
  - eexists _, _; split; [reflexivity |].
    repeat (split; [first [reflexivity | cbn [server save claims]; apply lookup_insert_eq
                           | right; reflexivity] |]).
    reflexivity.
Qed.

(** John Smith submits two documents while Box, the gateway and the
    workflow engine are all down. *)
Lemma submission_survives_example :
  let res := submit_claim Scenario.fresh_portal Scenario.member_session
                          ScenarioRoutes.partners_down Scenario.two_files in
  exists claim r,
    response res = Some r
    /\ statusCode r = 200
    /\ field r "success" = JBool true
    /\ js_get_opt (field r "claim") "id" = JStr (id claim)
    /\ claims (server res) !! id claim = Some claim
    /\ userId claim = js_get_opt (user Scenario.member_session) "id"
    /\ status claim = JStr "Submitted"
    /\ history_head_status (statusHistory claim) = Some (JStr "Submitted")
    /\ (workflowStatus claim = JStr "STARTED" \/ workflowStatus claim = JStr "DEMO")
    /\ session res = Scenario.member_session.
Proof.
  refine (submission_survives_partner_failures
           Scenario.fresh_portal Scenario.member_session ScenarioRoutes.partners_down
           Scenario.two_files _ _ "John Smith" _ eq_refl _ eq_refl eq_refl eq_refl eq_refl).
  vm_compute. reflexivity.
Defined.

Lemma upload_files_trace (w : World) (folderId : jsval) (fs : list File) (i : nat) :
  snd (upload_files w folderId i fs) = map (fun f => UploadFile folderId (originalname f)) fs
  /\ fst (upload_files w folderId i fs)
     = omap (stored_document w) (zip (seq i (length fs)) fs).
Proof.
  revert i. induction fs as [| f fs IH]; intros i; [split; reflexivity |].
  cbn [upload_files length seq map zip_with].
  specialize (IH (S i)). destruct IH as (Hcs & Hdocs).
  destruct (upload_files w folderId (S i) fs) as [docs cs]. cbn [fst snd] in *.
  assert (Hstep : omap (stored_document w) ((i, f) :: zip (seq (S i) (length fs)) fs)
                  = match uploaded_id (upload w i) with
                    | Return fileId =>
                        JObj [ ("id", fileId);
                               ("name", JStr (originalname f));
                               ("size", JNum (size f));
                               ("type", JStr (mimetype f)) ]
                        :: omap (stored_document w) (zip (seq (S i) (length fs)) fs)
                    | Throw _ => omap (stored_document w) (zip (seq (S i) (length fs)) fs)
                    end).
  { cbn [omap list_omap]. unfold stored_document at 1. cbn [fst snd].
    destruct (uploaded_id (upload w i)); reflexivity. }
  rewrite Hstep.
  destruct (uploaded_id (upload w i)) as [fileId | m]; cbn [fst snd map].
  - split; [rewrite Hcs; reflexivity | rewrite Hdocs; reflexivity].
  - split; [rewrite Hcs; reflexivity | exact Hdocs].
Qed.

(** X10. With a Box client and a claim folder, the upload loop offers every
    submitted file to Box exactly once, in submission order, under its
    original name and into the claim folder, whether or not earlier uploads
    failed.  The documents it records are exactly the files Box stored, in
    submission order: each with the id Box gave it and the name, size and
    type of the submitted file, and nothing for a file whose upload
    failed. *)
Theorem upload_attempts_every_file
  (sv : Server) (w : World) (folderId : jsval) (fs : list File) :
  boxClient sv = true ->
  truthy folderId = true ->
  let docs := fst (upload_documents sv w folderId fs) in
  let cs := snd (upload_documents sv w folderId fs) in
  cs = map (fun f => UploadFile folderId (originalname f)) fs
  /\ docs = omap (stored_document w) (zip (seq 0 (length fs)) fs).
Proof.
  intros Hclient Hfolder. cbv zeta. unfold upload_documents.
  rewrite Hclient, Hfolder, andb_true_r, andb_true_r.
  destruct fs as [| f fs]; [split; reflexivity |].
  cbn [length Nat.ltb Nat.leb]. apply upload_files_trace.
Qed.

Lemma upload_attempts_example :
  let docs := fst (upload_documents Scenario.fresh_portal ScenarioRoutes.engine_up
                                    (JStr "folder1") (files Scenario.two_files)) in
  let cs := snd (upload_documents Scenario.fresh_portal ScenarioRoutes.engine_up
                                  (JStr "folder1") (files Scenario.two_files)) in
  cs = map (fun f => UploadFile (JStr "folder1") (originalname f)) (files Scenario.two_files)
  /\ docs = omap (stored_document ScenarioRoutes.engine_up)
                 (zip (seq 0 (length (files Scenario.two_files))) (files Scenario.two_files)).
Proof.
  apply (upload_attempts_every_file Scenario.fresh_portal ScenarioRoutes.engine_up
           (JStr "folder1") (files Scenario.two_files)); reflexivity.
Defined.

End SubmissionExtras.

(** ** Admin routes, once more *)

Module AdminExtras.
Import Portal PortalRoutes.

Lemma save_lookup_other (sv : Server) (c : Claim) (k : string) :
  k <> id c -> claims (save sv c) !! k = claims sv !! k.
Proof. intros H. cbn [save claims]. apply lookup_insert_ne. congruence. Qed.

Lemma save_well_keyed (sv : Server) (c : Claim) :
  well_keyed sv -> well_keyed (save sv c).
Proof.
  intros Hsv k c0. cbn [save claims].
  destruct (decide (id c = k)) as [<- | Hne].
  - rewrite lookup_insert_eq. intros H. injection H as <-. reflexivity.
  - rewrite lookup_insert_ne by exact Hne. apply Hsv.
Qed.

(** X11. The admin status update works on the addressed claim only, in a
    table keyed by claim id: it calls no other service, leaves the session
    and every other row as they were, neither adds nor removes a row, and
    keeps the table keyed by id.  An answer other than 200 means that
    nothing was written.  The history shown in a 200 answer is the stored
    history with one entry put in front, signed with the name of the admin:
    earlier entries are never dropped or rewritten. *)
Theorem status_update_touches_one_claim
  (sv : Server) (ss : Session) (w : World) (claimId : string) (body : jsval) :
  well_keyed sv ->
  let res := update_claim_status sv ss w claimId body in
  calls res = []
  /\ session res = ss
  /\ well_keyed (server res)
  /\ (forall k, k <> claimId -> claims (server res) !! k = claims sv !! k)
  /\ (forall k, is_Some (claims (server res) !! k) <-> is_Some (claims sv !! k))
  /\ (forall r, response res = Some r -> statusCode r <> 200 -> server res = sv)
  /\ (forall r c old,
        response res = Some r -> statusCode r = 200 ->
        claims sv !! claimId = Some c ->
        js_or (statusHistory c) (JArr []) = JArr old ->
        exists entry,
          js_get_opt (field r "claim") "statusHistory" = JArr (entry :: old)
          /\ js_get_opt entry "updatedBy" = js_get_opt (adminUser ss) "name").
Proof.
  intros Hkeyed. cbv zeta.
  destruct (AdminClaims.update_claim_status_cases sv ss w claimId body)
    as (Hcalls & Hsession & [[Hsv (r0 & Hr0 & Hcode0)]
                            | (c & entry & old & Hc & Hold & _ & _ & Hby & Hsv & Hr)]).
  - rewrite Hsv. split; [exact Hcalls |]. split; [exact Hsession |].
    split; [exact Hkeyed |]. split; [reflexivity |]. split; [reflexivity |].
    split; [reflexivity |].
    intros r c old Hr Hcode. rewrite Hr0 in Hr. injection Hr as <-. contradiction.
  - pose proof (Hkeyed _ _ Hc) as Hid.
    rewrite Hsv. split; [exact Hcalls |]. split; [exact Hsession |].
    split; [apply save_well_keyed; exact Hkeyed |].
    split; [intros k Hk; apply save_lookup_other; cbn [set_status id]; congruence |].
    split.
    { intros k. cbn [save claims set_status id]. rewrite lookup_insert_is_Some.
      split; [intros [<- | [_ H]]; [rewrite Hid, Hc; eexists; reflexivity | exact H] |].
      intros H. destruct (decide (id c = k)); [left; assumption | right; split; assumption]. }
    split.
    { intros r Hr' Hcode. rewrite Hr in Hr'. injection Hr' as <-. contradiction Hcode.
      reflexivity. }
    intros r c1 old1 Hr' _ Hc1 Hold1.
    rewrite Hr in Hr'. injection Hr' as <-.
    rewrite Hc in Hc1. injection Hc1 as <-.
    rewrite Hold in Hold1. injection Hold1 as <-.
    exists entry. split; [reflexivity | exact Hby].
Qed.

Lemma portal_with_claim_keyed : well_keyed Scenario.portal_with_claim.
Proof.
  intros k c. unfold Scenario.portal_with_claim. cbn [claims].
  rewrite lookup_singleton_Some. intros [<- <-]. reflexivity.
Qed.

(** The adjuster moves the stored claim to review. *)
Lemma status_update_example :
  let res := update_claim_status Scenario.portal_with_claim Scenario.admin_session
                                 Scenario.engine_down Scenario.stored_claim_id
                                 Scenario.review_request in
  calls res = []
  /\ session res = Scenario.admin_session
  /\ well_keyed (server res)
  /\ (forall k, k <> Scenario.stored_claim_id ->
                claims (server res) !! k = claims Scenario.portal_with_claim !! k)
  /\ (forall k, is_Some (claims (server res) !! k)
                <-> is_Some (claims Scenario.portal_with_claim !! k))
  /\ (forall r, response res = Some r -> statusCode r <> 200 ->
                server res = Scenario.portal_with_claim)
  /\ (forall r c old,
        response res = Some r -> statusCode r = 200 ->
        claims Scenario.portal_with_claim !! Scenario.stored_claim_id = Some c ->
        js_or (statusHistory c) (JArr []) = JArr old ->
        exists entry,
          js_get_opt (field r "claim") "statusHistory" = JArr (entry :: old)
          /\ js_get_opt entry "updatedBy" = js_get_opt (adminUser Scenario.admin_session) "name").
Proof.
  apply (status_update_touches_one_claim Scenario.portal_with_claim Scenario.admin_session
           Scenario.engine_down Scenario.stored_claim_id Scenario.review_request).
  exact portal_with_claim_keyed.
Defined.

(** X12. When the workflow engine accepts the completion of a task, the
    portal passes the engine's answer on and leaves its own claims table
    alone, whatever decision the variables carry: the claim status is
    changed by the portal itself only in the demo fallback.  The engine is
    asked once, with a PATCH of the task's [complete] address that carries
    the variables of the request. *)
Theorem task_completion_by_engine_leaves_claims
  (sv : Server) (ss : Session) (w : World) (taskId : string)
  (props : list (string * jsval)) (result : jsval) :
  truthy (adminUser ss) = true ->
  camunda_answer w = Return result ->
  complete_task sv ss w taskId (JObj props)
  = mkResult (Some (json (JObj [("success", JBool true); ("result", result)])))
             [CamundaFetch (CAMUNDA_TASKLIST_URL +:+ "/v1/tasks/" +:+ taskId +:+ "/complete")
                           "PATCH" (JObj [("variables", object_get props "variables")])]
             sv ss.
Proof.
  intros Hadmin Hanswer. unfold complete_task. rewrite Hadmin. cbn [negb].
  unfold destructure2, js_get. run. unfold camundaRequest. rewrite Hanswer. reflexivity.
Qed.

(** The adjuster approves a task while the engine is reachable: the stored
    claim is not touched. *)
Lemma task_completion_by_engine_example :
  complete_task Scenario.portal_with_claim Scenario.admin_session ScenarioRoutes.engine_up
                "task-1" Scenario.approve_request
  = mkResult (Some (json (JObj [ ("success", JBool true);
                                 ("result", JObj [ ("id", JStr "task-1");
                                                   ("taskState", JStr "COMPLETED") ]) ])))
             [CamundaFetch (CAMUNDA_TASKLIST_URL +:+ "/v1/tasks/" +:+ "task-1" +:+ "/complete")
                           "PATCH"
                           (JObj [("variables",
                                   JObj [("adjusterDecision", JObj [("value", JStr "approve")])])])]
             Scenario.portal_with_claim Scenario.admin_session.
Proof.
  apply (task_completion_by_engine_leaves_claims Scenario.portal_with_claim
           Scenario.admin_session ScenarioRoutes.engine_up "task-1"
           [ ("claimId", JStr Scenario.stored_claim_id);
             ("variables", JObj [("adjusterDecision", JObj [("value", JStr "approve")])]) ]);
    reflexivity.
Defined.

End AdminExtras.

(** ** Logging in *)

Module LoginExtras.
Import Portal PortalRoutes LoginClaims.

Lemma own_property_set_same (props : list (string * jsval)) (k : string) (v : jsval) :
  own_property (set_property props k v) k = Some v.
Proof.
  induction props as [| [k' v'] rest IH]; cbn [set_property own_property].
  - rewrite String.eqb_refl. reflexivity.
  - destruct (String.eqb k' k) eqn:E; cbn [own_property].
    + rewrite String.eqb_refl. reflexivity.
    + rewrite E. exact IH.
Qed.

Lemma own_property_set_other (props : list (string * jsval)) (k k' : string) (v : jsval) :
  k <> k' -> own_property (set_property props k v) k' = own_property props k'.
Proof.
  intros Hne. induction props as [| [k0 v0] rest IH]; cbn [set_property own_property].
  - apply String.eqb_neq in Hne. rewrite Hne. reflexivity.
  - destruct (String.eqb k0 k) eqn:E; cbn [own_property].
    + apply String.eqb_eq in E. subst k0.
      apply String.eqb_neq in Hne. rewrite Hne. reflexivity.
    + rewrite IH. reflexivity.
Qed.

(** X13. The admin login on a request with a JSON object as body.  When
    the email can be used as a property key, the account is what
    [adminUsers] has under that key, or else the default admin, and there
    are two outcomes.  The route answers 200 when the password is
    [admin123] or strictly equals the stored password of the account: the
    session admin, which the answer shows, has every property of the
    account (its id, name and email among them) except that its role is
    the one of the request (or [adjuster]) and its password is
    [undefined], and a member logged in on the same session stays logged
    in.  Otherwise it answers 401 and the session is left exactly as it
    was.  When the email cannot be turned into a property key, the handler
    throws before it answers or writes anything. *)
Theorem admin_login_outcomes (ss : Session) (props : list (string * jsval)) :
  let password := object_get props "password" in
  (forall key : string,
     js_to_string (object_get props "email") = Return key ->
     let account := js_or (object_get adminUsers key) default_admin in
     let stored := js_get_opt account "password" in
     exists r ss',
       admin_login ss (JObj props) = Return (r, ss')
       /\ ((js_is_string password "admin123" || js_strict_eq stored password = true
            /\ statusCode r = 200
            /\ field r "success" = JBool true
            /\ field r "user" = adminUser ss'
            /\ js_get_opt (adminUser ss') "password" = JUndefined
            /\ js_get_opt (adminUser ss') "role"
               = js_or (object_get props "role") (JStr "adjuster")
            /\ (forall k : string,
                  k <> "role" -> k <> "password" ->
                  js_get_opt (adminUser ss') k = object_get (spread account) k)
            /\ user ss' = user ss)
           \/ (js_is_string password "admin123" || js_strict_eq stored password = false
               /\ r = failure 401 "Invalid credentials"
               /\ ss' = ss)))
  /\ (forall m : string,
        js_to_string (object_get props "email") = Throw m ->
        admin_login ss (JObj props) = Throw m).
Proof.
  cbv zeta. split.
  - intros key Hkey.
    assert (Htruthy : truthy (js_or (object_get adminUsers key) default_admin) = true).
    { unfold js_or. destruct (truthy (object_get adminUsers key)) eqn:H;
        [exact H | reflexivity]. }
    unfold admin_login, destructure2, js_get, login_user. run. rewrite Hkey. run.
    fold default_admin. rewrite Htruthy. cbn [andb].
    destruct (js_is_string (object_get props "password") "admin123"
              || js_strict_eq _ (object_get props "password")).
    + eexists _, _. split; [reflexivity |]. left.
      split; [reflexivity |]. split; [reflexivity |]. split; [reflexivity |].
      split; [reflexivity |].
      cbn [adminUser js_get_opt js_get]. unfold object_get.
      rewrite own_property_set_same.
      rewrite own_property_set_other by discriminate.
      rewrite own_property_set_same.
      split; [reflexivity |]. split; [reflexivity |]. split; [| reflexivity].
      intros k Hrole Hpassword.
      rewrite own_property_set_other by congruence.
      rewrite own_property_set_other by congruence.
      reflexivity.
    + eexists _, _. split; [reflexivity |]. right. repeat split.
  - intros m Hkey. unfold admin_login, destructure2, js_get, login_user. run.
    rewrite Hkey. reflexivity.
Qed.

(** The supervisor logs in with the shared password and the role
    [supervisor], on a session where John Smith is logged in. *)
Lemma admin_login_example :
  exists r ss',
    admin_login Scenario.member_session
                (JObj [ ("email", JStr "supervisor@suresafe.com");
                        ("password", JStr "admin123");
                        ("role", JStr "supervisor") ])
    = Return (r, ss')
    /\ statusCode r = 200
    /\ field r "user" = adminUser ss'
    /\ adminUser ss' = JObj [ ("id", JStr "ADM003"); ("name", JStr "Michael Chen");
                              ("email", JStr "supervisor@suresafe.com");
                              ("password", JUndefined); ("role", JStr "supervisor") ]
    /\ user ss' = user Scenario.member_session.
Proof.
  destruct (proj1 (admin_login_outcomes
                     Scenario.member_session
                     [ ("email", JStr "supervisor@suresafe.com");
                       ("password", JStr "admin123");
                       ("role", JStr "supervisor") ])
                  "supervisor@suresafe.com" eq_refl)
    as (r & ss' & Hrun & _).
  exists r, ss'. split; [exact Hrun |].
  vm_compute in Hrun. injection Hrun as <- <-. repeat split.
Defined.


End LoginExtras.

(** ** The question and summary routes *)

Module AskExtras.
Import Gateway GatewayRoutes ExtractClaims.

(** X14. [/ask] needs both a file id and a question: when either is
    missing or empty the answer is 400 and Box is not called.  With both,
    on a service whose Box client is or can be initialised, the route
    first writes the two to the log.  When both can be written (each has
    a string form), Box is asked once, at [/ai/ask], in single-item mode
    about that one file, and the prompt is the question as the request
    gave it; what Box answers is passed on under [answer].  When one of
    them has no string form, the answer is 500 with the text of the
    TypeError and Box is not called. *)
Theorem ask_requires_file_and_question
  (s : Service) (w : World) (props : list (string * jsval)) :
  let fileId := js_or (object_get props "fileId") (object_get props "file_id") in
  let question := object_get props "question" in
  (truthy fileId && truthy question = false ->
   ask s w (JObj props)
   = mkResult (status_json 400 (JObj [("error", JStr "fileId and question are required")]))
              [] s)
  /\
  (truthy fileId && truthy question = true ->
   (if boxClient s then None else initializeBoxClient w) = None ->
   (forall f q : string,
      js_to_string fileId = Return f ->
      js_to_string question = Return q ->
      calls (ask s w (JObj props)) = [BoxPost "/ai/ask" (ask_request question fileId)]
      /\ map call_prompt (calls (ask s w (JObj props))) = [question]
      /\ forall rbody : list (string * jsval),
           vendor w = Resolved (JObj [("body", JObj rbody)]) ->
           statusCode (response (ask s w (JObj props))) = 200
           /\ field (response (ask s w (JObj props))) "answer" = object_get rbody "answer")
   /\ (forall m : string,
         js_to_string fileId = Throw m
         \/ (exists f, js_to_string fileId = Return f /\ js_to_string question = Throw m) ->
         ask s w (JObj props) = mkResult (extraction_error m JUndefined) [] (with_client s))).
Proof.
  cbv zeta. unfold ask. rewrite !js_get_object. run.
  destruct (truthy (js_or (object_get props "fileId") (object_get props "file_id")));
    destruct (truthy (object_get props "question")); cbn [andb negb orb];
    (split; [intros H; try discriminate H; reflexivity |]);
    intros H; try discriminate H.
  intros ->. split.
  - intros f q -> ->. run.
    destruct (vendor w) as [askResponse | m d] eqn:Hv.
    + assert (Hcalls : forall (A : Type) (c : completion A) (f : A -> Response)
                              (g : string -> Response) (call : Call) (s' : Service),
                 calls (match c with
                        | Return result => mkResult (f result) [call] s'
                        | Throw m => mkResult (g m) [call] s'
                        end) = [call]).
      { intros A c f0 g call s'. destruct c; reflexivity. }
      rewrite Hcalls. split; [reflexivity |]. split; [reflexivity |].
      intros rbody Hr. injection Hr as ->. split; reflexivity.
    + split; [reflexivity |]. split; [reflexivity |]. intros rbody Hr. discriminate Hr.
  - intros m [-> | (f & -> & ->)]; run; reflexivity.
Qed.

Lemma ask_example :
  (ask keyed_service calm_world (JObj [("fileId", JStr "123")])
   = mkResult (status_json 400 (JObj [("error", JStr "fileId and question are required")]))
              [] keyed_service)
  /\ calls (ask keyed_service calm_world
                (JObj [("file_id", JStr "123"); ("question", JStr "Who is the claimant?")]))
     = [BoxPost "/ai/ask" (ask_request (JStr "Who is the claimant?") (JStr "123"))]
  /\ ask keyed_service calm_world
         (JObj [("file_id", JStr "123"); ("question", JObj [("toString", JNum 1)])])
     = mkResult (extraction_error "Cannot convert object to primitive value" JUndefined) []
                (with_client keyed_service).
Proof.
  split; [| split].
  - apply (proj1 (ask_requires_file_and_question keyed_service calm_world
                    [("fileId", JStr "123")])).
    reflexivity.
  - apply (proj1 (proj2 (ask_requires_file_and_question keyed_service calm_world
                           [("file_id", JStr "123"); ("question", JStr "Who is the claimant?")])
                        eq_refl eq_refl)
             "123" "Who is the claimant?"); reflexivity.
  - apply (proj2 (proj2 (ask_requires_file_and_question keyed_service calm_world
                           [("file_id", JStr "123");
                            ("question", JObj [("toString", JNum 1)])])
                        eq_refl eq_refl)).
    right. exists "123". split; reflexivity.
Defined.

(** X15. [/summarize], given a file id, on a service whose Box client is
    or can be initialised.  When the requested summary type can be used as
    a property key, Box is asked once, at [/ai/ask], about that file, with
    the prompt of the type: the claim prompt for [claim], the medical
    prompt for [medical], the general prompt for [general].  A type the
    prompt table does not know (and that is no member of
    [Object.prototype]) silently gets the general prompt, as does a
    request without a type; in the answer the summary is nevertheless
    labelled with the requested type, and with [general] only when none
    was requested.  When the type cannot be used as a property key, the
    answer is 500 with the text of the TypeError and Box is not called. *)
Theorem summarize_prompt_choice
  (s : Service) (w : World) (props : list (string * jsval)) (fileId summaryType : jsval) :
  js_or (object_get props "fileId") (object_get props "file_id") = fileId ->
  truthy fileId = true ->
  js_or (object_get props "summaryType") (object_get props "summary_type") = summaryType ->
  (if boxClient s then None else initializeBoxClient w) = None ->
  (forall key : string,
     js_to_string summaryType = Return key ->
     exists prompt,
       summary_prompt summaryType = Return prompt
       /\ calls (summarize s w (JObj props)) = [BoxPost "/ai/ask" (ask_request prompt fileId)]
       /\ (key = "claim" -> prompt = JStr claim_summary_prompt)
       /\ (key = "medical" -> prompt = JStr medical_summary_prompt)
       /\ (key = "general" -> prompt = JStr general_summary_prompt)
       /\ (own_property summaryPrompts key = None ->
           inherited_property key = JUndefined ->
           prompt = JStr general_summary_prompt)
       /\ (statusCode (response (summarize s w (JObj props))) = 200 ->
           field (response (summarize s w (JObj props))) "summaryType"
           = js_or summaryType (JStr "general")))
  /\ (forall m : string,
        js_to_string summaryType = Throw m ->
        summarize s w (JObj props)
        = mkResult (extraction_error m JUndefined) [] (with_client s)).
Proof.
  intros Hfile Htruthy Htype Hclient.
  unfold summarize. rewrite !js_get_object. run.
  rewrite Hfile, Htruthy, Htype, Hclient. cbn [negb].
  split.
  - intros key Hkey. unfold summary_prompt. rewrite Hkey. run.
    eexists. split; [reflexivity |].
    split; [| split; [| split; [| split; [| split]]]].
    + destruct (vendor w) as [askResponse | m d]; [| reflexivity].
      match goal with |- context [match ?c with Return _ => _ | Throw _ => _ end] =>
        destruct c end; reflexivity.
    + intros ->. reflexivity.
    + intros ->. reflexivity.
    + intros ->. reflexivity.
    + intros Hown Hinh. unfold object_get at 1. rewrite Hown, Hinh. reflexivity.
    + destruct (vendor w) as [askResponse | m d]; [| intros H; discriminate H].
      destruct (js_get askResponse "body") as [rbody | m]; run; [| intros H; discriminate H].
      destruct (js_get rbody "answer") as [answer | m]; run;
        [reflexivity | intros H; discriminate H].
  - intros m Hkey. unfold summary_prompt. rewrite Hkey. reflexivity.
Qed.

(** A police summary is requested; the table has no such prompt. *)
Lemma summarize_example :
  exists prompt,
    summary_prompt (JStr "police") = Return prompt
    /\ calls (summarize keyed_service calm_world
                        (JObj [("fileId", JStr "123"); ("summaryType", JStr "police")]))
       = [BoxPost "/ai/ask" (ask_request prompt (JStr "123"))]
    /\ prompt = JStr general_summary_prompt.
Proof.
  destruct (proj1 (summarize_prompt_choice keyed_service calm_world
                     [("fileId", JStr "123"); ("summaryType", JStr "police")]
                     (JStr "123") (JStr "police") eq_refl eq_refl eq_refl eq_refl)
                  "police" eq_refl)
    as (prompt & Hprompt & Hcalls & _ & _ & _ & Hgeneral & _).
  exists prompt. split; [exact Hprompt |]. split; [exact Hcalls |].
  apply Hgeneral; reflexivity.
Defined.

End AskExtras.

(** ** Reading claims, tasks and flow nodes *)

Module ReadExtras.
Import Portal PortalRoutes AdminClaims.

(** X17. A member reads own claims only: a 200 answer of
    [GET /api/claims/:id] shows a stored claim whose user id strictly
    equals the id of the session user.  The claim of another member is
    answered exactly like a claim that does not exist, 404 [Claim not
    found], so the route does not reveal which claim ids are taken. *)
Theorem member_reads_only_own_claims
  (sv : Server) (ss : Session) (w : World) (claimId : string) :
  let r := get_claim sv ss w claimId in
  (statusCode r = 200 ->
   exists c,
     claims sv !! claimId = Some c
     /\ truthy (user ss) = true
     /\ js_strict_eq (userId c) (js_get_opt (user ss) "id") = true
     /\ js_get_opt (field r "claim") "id" = JStr (id c)
     /\ js_get_opt (field r "claim") "userId" = userId c)
  /\
  (truthy (user ss) = true ->
   db_find w = None ->
   js_get_opt (user ss) "id" <> JUndefined ->
   match claims sv !! claimId with
   | Some c => js_strict_eq (userId c) (js_get_opt (user ss) "id") = false
   | None => True
   end ->
   r = failure 404 "Claim not found").
Proof.
  cbv zeta. unfold get_claim, findOne_of_user. split.
  - destruct (truthy (user ss)); cbn [negb]; [| intros H; discriminate H].
    destruct (db_find w); [intros H; discriminate H |].
    destruct (js_get_opt (user ss) "id") eqn:Hid; try (intros H; discriminate H).
    all: destruct (claims sv !! claimId) as [c |]; [| intros H; discriminate H].
    all: destruct (js_strict_eq (userId c) _) eqn:Heq; [| intros H; discriminate H].
    all: intros _; exists c; repeat split; exact Heq.
  - intros -> -> Hid Hother. cbn [negb].
    destruct (js_get_opt (user ss) "id"); [contradiction Hid; reflexivity | ..].
    all: destruct (claims sv !! claimId) as [c |]; [rewrite Hother |]; reflexivity.
Qed.

(** Jane Doe asks for the claim of John Smith, and for a claim that does
    not exist. *)
Lemma member_reads_example :
  get_claim Scenario.portal_with_claim ScenarioRoutes.other_member_session
            Scenario.engine_down Scenario.stored_claim_id
  = failure 404 "Claim not found"
  /\ get_claim Scenario.portal_with_claim ScenarioRoutes.other_member_session
               Scenario.engine_down "CLM-0"
     = failure 404 "Claim not found".
Proof.
  split.
  - apply (proj2 (member_reads_only_own_claims Scenario.portal_with_claim
                    ScenarioRoutes.other_member_session Scenario.engine_down
                    Scenario.stored_claim_id));
      [reflexivity | reflexivity | discriminate | reflexivity].
  - apply (proj2 (member_reads_only_own_claims Scenario.portal_with_claim
                    ScenarioRoutes.other_member_session Scenario.engine_down "CLM-0"));
      [reflexivity | reflexivity | discriminate | exact I].
Defined.

Lemma recognized_demo_status (current decision : jsval) :
  recognized decision = true ->
  In (demo_status current decision)
     [JStr "Approved"; JStr "Denied"; JStr "Escalated"; JStr "Pending Documents"].
Proof.
  unfold recognized. destruct decision as [| | b | n | d | xs | props | f]; try discriminate.
  unfold string_mem, recognized_decisions. cbn [existsb]. intros H.
  repeat (apply orb_prop in H; destruct H as [H | H];
          [apply String.eqb_eq in H; subst d; cbn; tauto |]).
  discriminate H.
Qed.

Lemma recognized_printable (decision : jsval) :
  recognized decision = true -> exists text, js_to_string decision = Return text.
Proof.
  destruct decision as [| | b | n | d | xs | props | f]; try discriminate.
  intros _. exists d. reflexivity.
Qed.

(** X19. The demo task list follows the demo decisions.  When the workflow
    engine is down and an admin completes a task with a decision the demo
    table knows, the stored claim is moved to the status the table gives
    for the decision, one of [Approved], [Denied], [Escalated] and
    [Pending Documents], and a later request for the tasks of that claim
    (the engine still down) is answered with an empty, demo-marked task
    list: a decided claim offers no further task. *)
Theorem decided_claim_offers_no_task
  (sv : Server) (ss : Session) (w w' : World) (taskId : string) (body : jsval)
  (variables : jsval) (k m m' : string) (c : Claim) :
  truthy (adminUser ss) = true ->
  camunda_answer w = Throw m ->
  js_get body "variables" = Return variables ->
  truthy variables = true ->
  js_get body "claimId" = Return (JStr k) ->
  claims sv !! k = Some c ->
  id c = k ->
  is_history (statusHistory c) = true ->
  db_find w = None ->
  db_update w 0 = None ->
  recognized (decision_of variables) = true ->
  camunda_answer w' = Throw m' ->
  db_find w' = None ->
  let sv' := server (complete_task sv ss w taskId body) in
  exists c',
    claims sv' !! k = Some c'
    /\ status c' = demo_status (status c) (decision_of variables)
    /\ In (status c')
          [JStr "Approved"; JStr "Denied"; JStr "Escalated"; JStr "Pending Documents"]
    /\ response (complete_task sv ss w taskId body) = Some (demo_completed taskId)
    /\ response (claim_tasks sv' ss w' k)
       = Some (json (JObj [("success", JBool true); ("tasks", JArr []); ("demo", JBool true)])).
Proof.
  intros Hadmin Hfail Hvars Htruthy Hid Hc Hkey Hhist Hfind Hupdate Hknown Hfail' Hfind'.
  cbv zeta.
  destruct (recognized_printable _ Hknown) as [text Htext].
  destruct (complete_task_demo_run sv ss w taskId body variables k m text c
              Hadmin Hfail Hvars Htruthy Hid Hc Hhist Hfind Hupdate Htext)
    as (c' & -> & Hid' & Hstatus & _).
  assert (Hc' : claims (save sv c') !! k = Some c').
  { cbn [save claims]. rewrite Hid', Hkey. apply lookup_insert_eq. }
  pose proof (recognized_demo_status (status c) _ Hknown) as Hin.
  exists c'. cbn [server response]. split; [exact Hc' |]. split; [exact Hstatus |].
  split; [rewrite Hstatus; exact Hin |]. split; [reflexivity |].
  unfold claim_tasks, camundaRequest, findByPk. rewrite Hadmin, Hfail', Hfind', Hc'.
  cbn [negb response]. do 4 f_equal.
  unfold demo_tasks. rewrite Hstatus.
  cbn [In] in Hin.
  destruct Hin as [<- | [<- | [<- | [<- | []]]]]; reflexivity.
Qed.

(** The adjuster approves the stored claim while the engine is down. *)
Lemma decided_claim_example :
  exists c',
    claims (server (complete_task Scenario.portal_with_claim Scenario.admin_session
                                  Scenario.engine_down "task-1" Scenario.approve_request))
    !! Scenario.stored_claim_id = Some c'
    /\ status c' = JStr "Approved"
    /\ response (claim_tasks
                   (server (complete_task Scenario.portal_with_claim Scenario.admin_session
                                          Scenario.engine_down "task-1"
                                          Scenario.approve_request))
                   Scenario.admin_session Scenario.engine_down Scenario.stored_claim_id)
       = Some (json (JObj [("success", JBool true); ("tasks", JArr []); ("demo", JBool true)])).
Proof.
  destruct (decided_claim_offers_no_task
              Scenario.portal_with_claim Scenario.admin_session Scenario.engine_down
              Scenario.engine_down "task-1" Scenario.approve_request _ Scenario.stored_claim_id
              "fetch failed" "fetch failed" Scenario.stored_claim
              eq_refl eq_refl eq_refl eq_refl eq_refl eq_refl eq_refl eq_refl eq_refl eq_refl
              eq_refl eq_refl eq_refl)
    as (c' & Hc' & Hstatus & _ & _ & Htasks).
  exists c'. split; [exact Hc' |]. split; [exact Hstatus | exact Htasks].
Defined.

End ReadExtras.

(** ** From submission to the admin views *)

Module WorkflowExtras.
Import Portal PortalRoutes.

(** X18. A claim that was accepted shows up for the adjusters even without
    the workflow engine: after a successful submission (by a member, with
    an estimated amount that can be read as a string, into a database that
    takes the row), the task list of the new claim, asked for by an admin
    while the engine is down, holds exactly one simulated task, the
    adjuster review [task-<claim id>-1], whose variables name the claim. *)
Theorem submitted_claim_offers_adjuster_task
  (sv : Server) (ss admin_ss : Session) (w w' : World) (req : Submission)
  (props uprops : list (string * jsval)) (name amount m' : string) :
  body req = JObj props ->
  js_to_string (object_get props "estimatedAmount") = Return amount ->
  user ss = JObj uprops ->
  object_get uprops "name" = JStr name ->
  db_create w = None ->
  db_update w 0 = None ->
  truthy (adminUser admin_ss) = true ->
  camunda_answer w' = Throw m' ->
  db_find w' = None ->
  let res := submit_claim sv ss w req in
  exists r claimId task,
    response res = Some r
    /\ js_get_opt (field r "claim") "id" = JStr claimId
    /\ response (claim_tasks (server res) admin_ss w' claimId)
       = Some (json (JObj [ ("success", JBool true); ("tasks", JArr [task]);
                            ("demo", JBool true) ]))
    /\ js_get_opt task "id" = JStr ("task-" +:+ claimId +:+ "-1")
    /\ js_get_opt task "taskDefinitionId" = JStr "Task_AdjusterReview"
    /\ js_get_opt task "candidateGroups" = JArr [JStr "Claims_Adjusters"]
    /\ js_get_opt (js_get_opt task "variables") "claimId" = JStr claimId.
Proof.
  intros Hbody Hamount Huser Hname Hcreate Hupdate Hadmin Hfail' Hfind'. cbv zeta.
  unfold submit_claim.
  rewrite Hbody, Huser. cbn [truthy negb].
  unfold destructure2, js_get. run. rewrite Hname. run.
  destruct (create_folder sv w _) as [folderId cs1].
  destruct (upload_documents sv w folderId (files req)) as [docs cs2].
  destruct (trigger_extraction w folderId docs) as [ai cs3].
  rewrite Hamount, Hcreate.
  unfold start_process, camundaRequest, update. rewrite Hupdate. run.
  unfold claim_tasks, camundaRequest, findByPk. rewrite Hadmin, Hfail', Hfind'. cbn [negb].
  destruct (camunda_answer w) as [v | m]; run.
  - destruct v; cbn [js_get]; run;
      (eexists _, _, _; split; [reflexivity |]; split; [reflexivity |];
       cbn [server save claims set_workflow id];
       rewrite lookup_insert_eq; cbn [response demo_tasks status js_is_string String.eqb orb];
       split; [reflexivity |]; repeat split).
  - eexists _, _, _; split; [reflexivity |]; split; [reflexivity |].
    cbn [server save claims set_workflow id].
    rewrite lookup_insert_eq. cbn [response demo_tasks status js_is_string String.eqb orb].
    split; [reflexivity |]. repeat split.
Qed.

Lemma submitted_claim_example :
  let res := submit_claim Scenario.fresh_portal Scenario.member_session
                          ScenarioRoutes.partners_down Scenario.two_files in
  exists r claimId task,
    response res = Some r
    /\ js_get_opt (field r "claim") "id" = JStr claimId
    /\ response (claim_tasks (server res) Scenario.admin_session Scenario.engine_down claimId)
       = Some (json (JObj [ ("success", JBool true); ("tasks", JArr [task]);
                            ("demo", JBool true) ]))
    /\ js_get_opt task "id" = JStr ("task-" +:+ claimId +:+ "-1")
    /\ js_get_opt task "taskDefinitionId" = JStr "Task_AdjusterReview"
    /\ js_get_opt task "candidateGroups" = JArr [JStr "Claims_Adjusters"]
    /\ js_get_opt (js_get_opt task "variables") "claimId" = JStr claimId.
Proof.
  refine (submitted_claim_offers_adjuster_task
            Scenario.fresh_portal Scenario.member_session Scenario.admin_session
            ScenarioRoutes.partners_down Scenario.engine_down Scenario.two_files
            _ _ "John Smith" _ "fetch failed"
            eq_refl _ eq_refl eq_refl eq_refl eq_refl eq_refl eq_refl eq_refl).
  vm_compute. reflexivity.
Defined.

Lemma camunda_url_relative (rest : string) :
  camunda_url ("/v2/process-instances/" +:+ rest) = CAMUNDA_REST_URL +:+ "/v2/process-instances/" +:+ rest.
Proof. reflexivity. Qed.

(** X20. The flow-node view only reads.  It changes neither the claims
    table nor the session, and it asks the workflow engine at most once,
    and only about a stored claim that has a process key, at the
    flow-node address of that key (an unknown claim, or one without key, is
    answered without any call).  A simulated answer, marked [demo], shows
    exactly one node, [ACTIVE], placed by the status of the claim. *)
Theorem flow_nodes_only_reads (sv : Server) (ss : Session) (w : World) (claimId : string) :
  let res := flow_nodes sv ss w claimId in
  server res = sv
  /\ session res = ss
  /\ (calls res = []
      \/ exists c,
           claims sv !! claimId = Some c
           /\ truthy (processInstanceKey c) = true
           /\ exists key,
                js_to_string (processInstanceKey c) = Return key
                /\ calls res
                   = [CamundaFetch (CAMUNDA_REST_URL +:+ "/v2/process-instances/"
                                    +:+ key +:+ "/flow-node-instances")
                                   "GET" JUndefined])
  /\ (forall r, response res = Some r ->
                field r "demo" = JBool true ->
                exists node,
                  field r "flowNodes" = JArr [node]
                  /\ js_get_opt node "state" = JStr "ACTIVE"
                  /\ js_get_opt node "flowNodeId"
                     = JStr (demo_flow_node (claims sv !! claimId))).
Proof.
  cbv zeta. unfold flow_nodes.
  destruct (negb (truthy (adminUser ss))).
  { split; [reflexivity |]. split; [reflexivity |]. split; [left; reflexivity |].
    intros r H. injection H as <-. intros H. discriminate H. }
  unfold demo_flow_nodes, findByPk.
  destruct (db_find w).
  { split; [reflexivity |]. split; [reflexivity |]. split; [left; reflexivity |].
    intros r H. discriminate H. }
  destruct (claims sv !! claimId) as [c |] eqn:Hc.
  2: { split; [reflexivity |]. split; [reflexivity |]. split; [left; reflexivity |].
       intros r H. injection H as <-. intros H. discriminate H. }
  destruct (truthy (processInstanceKey c)) eqn:Hkey.
  2: { split; [reflexivity |]. split; [reflexivity |]. split; [left; reflexivity |].
       intros r H. injection H as <-. intros H. discriminate H. }
  destruct (js_to_string (processInstanceKey c)) as [key | m] eqn:Htext.
  2: { split; [reflexivity |]. split; [reflexivity |]. split; [left; reflexivity |].
       intros r H _. injection H as <-. eexists. repeat split. }
  unfold camundaRequest. rewrite camunda_url_relative.
  destruct (camunda_answer w) as [answer | m].
  - split; [reflexivity |]. split; [reflexivity |].
    split; [right; exists c; split; [reflexivity |]; split; [exact Hkey |];
            exists key; split; [exact Htext | reflexivity] |].
    intros r H. injection H as <-. intros H. discriminate H.
  - split; [reflexivity |]. split; [reflexivity |].
    split; [right; exists c; split; [reflexivity |]; split; [exact Hkey |];
            exists key; split; [exact Htext | reflexivity] |].
    intros r H _. injection H as <-. eexists. repeat split.
Qed.

End WorkflowExtras.

(** ** The access token of the workflow engine *)

Module TokenExtras.
Import Portal PortalRoutes.

(** X21. A token that was fetched is reused, without a further request to
    the token endpoint, by every call made earlier than one minute before
    it expires; a call at or after that moment fetches again.  So a token
    that is valid for a minute or less is never reused. *)
Theorem token_reused_until_a_minute_before_expiry
  (o : OAuth) (cache : TokenCache) (now_ later_ seconds : Z) (token : jsval) :
  cache_valid cache now_ = false ->
  configured o = true ->
  truthy token = true ->
  later_ + seconds * 1000 - 60000 <> 0 ->
  let first := getCamundaAccessToken o cache now_ later_ (TokenData token (Some seconds)) in
  let cache' := snd (fst first) in
  fst (fst first) = token
  /\ length (snd first) = 1%nat
  /\ forall (now' later' : Z) (answer' : TokenAnswer),
       (now' < later_ + seconds * 1000 - 60000 ->
        getCamundaAccessToken o cache' now' later' answer' = (token, cache', []))
       /\ (later_ + seconds * 1000 - 60000 <= now' ->
           length (snd (getCamundaAccessToken o cache' now' later' answer')) = 1%nat).
Proof.
  intros Hcache Hconf Htoken Hexp. cbv zeta.
  assert (Hfirst : exists call,
             getCamundaAccessToken o cache now_ later_ (TokenData token (Some seconds))
             = (token, mkTokenCache token (Some (later_ + seconds * 1000 - 60000)), [call])).
  { unfold getCamundaAccessToken. rewrite Hcache, Hconf. eexists. reflexivity. }
  destruct Hfirst as [call ->]. cbn [fst snd length].
  split; [reflexivity |]. split; [reflexivity |].
  intros now' later' answer'. unfold getCamundaAccessToken, cache_valid.
  cbn [camundaAccessToken camundaTokenExpiry]. rewrite Htoken. cbn [andb].
  apply Z.eqb_neq in Hexp. rewrite Hexp. cbn [negb andb].
  split; intros H.
  - apply Z.ltb_lt in H. rewrite H. reflexivity.
  - apply Z.ltb_ge in H. rewrite H, Hconf. destruct answer'; reflexivity.
Qed.

(** A token that is valid for an hour, fetched at start-up. *)
Lemma token_reused_example :
  let first := getCamundaAccessToken ScenarioRoutes.oauth ScenarioRoutes.empty_cache
                 1700000000000 1700000000200 (TokenData (JStr "eyJ") (Some 3600)) in
  let cache' := snd (fst first) in
  fst (fst first) = JStr "eyJ"
  /\ length (snd first) = 1%nat
  /\ forall (now' later' : Z) (answer' : TokenAnswer),
       (now' < 1700000000200 + 3600 * 1000 - 60000 ->
        getCamundaAccessToken ScenarioRoutes.oauth cache' now' later' answer'
        = (JStr "eyJ", cache', []))
       /\ (1700000000200 + 3600 * 1000 - 60000 <= now' ->
           length (snd (getCamundaAccessToken ScenarioRoutes.oauth cache' now' later' answer'))
           = 1%nat).
Proof.
  apply (token_reused_until_a_minute_before_expiry ScenarioRoutes.oauth
           ScenarioRoutes.empty_cache 1700000000000 1700000000200 3600 (JStr "eyJ"));
    [reflexivity | reflexivity | reflexivity | lia].
Defined.

End TokenExtras.

(** ** What the gateway advertises *)

Module AdvertisedExtras.
Import Gateway GatewayRoutes ExtractClaims.

Lemma extract_calls_one (s : Service) (w : World) (fileId : jsval) (t text : string)
  (config : Config) :
  truthy fileId = true ->
  js_to_string fileId = Return text ->
  truthy (JStr t) = true ->
  own_config EXTRACTION_CONFIGS t = Some config ->
  (if boxClient s then None else initializeBoxClient w) = None ->
  calls (extract s w (JObj [("fileId", fileId); ("extractionType", JStr t)]))
  = [BoxPost "/ai/extract_structured" (extract_request fileId config)].
Proof.
  intros Hfid Htext Ht Hcfg Hclient.
  rewrite (extract_calls_vendor s w _ fileId t text config); try assumption.
  - reflexivity.
  - cbn. unfold js_or. rewrite Hfid. reflexivity.
  - unfold js_or. cbn. cbn in Ht. rewrite Ht. reflexivity.
Qed.

(** X22. What [/extraction-types] advertises is what [/extract] does: the
    listed types are, in order, the valid types named by the 400 answer of
    [/extract], and for every listed entry a request for that type, about
    a file whose id can be written to the log, is let through and asks
    Box, in one call, for exactly the field keys the entry lists, as many
    as its [fieldCount] says. *)
Theorem advertised_types_are_extractable
  (s : Service) (w : World) (entry fileId : jsval) (text : string) :
  In entry (map extraction_type_entry EXTRACTION_CONFIGS) ->
  truthy fileId = true ->
  js_to_string fileId = Return text ->
  (if boxClient s then None else initializeBoxClient w) = None ->
  field extraction_types "extractionTypes" = JArr (map extraction_type_entry EXTRACTION_CONFIGS)
  /\ map (fun e => js_get_opt e "type") (map extraction_type_entry EXTRACTION_CONFIGS)
     = map JStr document_types
  /\ exists request,
       calls (extract s w (JObj [ ("fileId", fileId);
                                  ("extractionType", js_get_opt entry "type") ]))
       = [BoxPost "/ai/extract_structured" request]
       /\ js_get_opt entry "fields" = JArr (requested_keys request)
       /\ js_get_opt entry "fieldCount" = JNum (Z.of_nat (length (requested_keys request))).
Proof.
  intros Hin Hfid Htext Hclient. split; [reflexivity |]. split; [reflexivity |].
  unfold EXTRACTION_CONFIGS in Hin. cbn [map In] in Hin.
  destruct Hin as [<- | [<- | [<- | [<- | [<- | [<- | []]]]]]];
    (eexists; split;
     [apply (extract_calls_one s w fileId _ text);
      [exact Hfid | exact Htext | reflexivity | reflexivity | exact Hclient] |];
     rewrite requested_keys_of_config; split; reflexivity).
Qed.

Lemma advertised_types_example :
  field extraction_types "extractionTypes" = JArr (map extraction_type_entry EXTRACTION_CONFIGS)
  /\ map (fun e => js_get_opt e "type") (map extraction_type_entry EXTRACTION_CONFIGS)
     = map JStr document_types
  /\ exists request,
       calls (extract keyed_service calm_world
                (JObj [ ("fileId", JStr "123");
                        ("extractionType",
                         js_get_opt (extraction_type_entry ("invoice", invoice_config)) "type") ]))
       = [BoxPost "/ai/extract_structured" request]
       /\ js_get_opt (extraction_type_entry ("invoice", invoice_config)) "fields"
          = JArr (requested_keys request)
       /\ js_get_opt (extraction_type_entry ("invoice", invoice_config)) "fieldCount"
          = JNum (Z.of_nat (length (requested_keys request))).
Proof.
  apply (advertised_types_are_extractable keyed_service calm_world
           (extraction_type_entry ("invoice", invoice_config)) (JStr "123") "123");
    [vm_compute; tauto | reflexivity | reflexivity | reflexivity].
Defined.

End AdvertisedExtras.

(** ** Sessions *)

Module SessionExtras.
Import Portal PortalRoutes.

(** X23. The life of an admin session.  After a successful admin login,
    [/api/admin/user] shows the user the login showed.  After the admin
    logout the member of the same session is still logged in, while
    [/api/admin/user] and the admin routes answer 401 [Not authenticated]
    without calling the workflow engine or touching the claims table.  The
    member logout, which destroys the session, ends the admin session as
    well. *)
Theorem admin_session_lifecycle
  (ss : Session) (props : list (string * jsval)) (r : Response) (ss' : Session) :
  admin_login ss (JObj props) = Return (r, ss') ->
  statusCode r = 200 ->
  let out := snd (admin_logout ss') in
  admin_user ss' = json (JObj [("success", JBool true); ("user", field r "user")])
  /\ user out = user ss
  /\ admin_user out = not_authenticated
  /\ (forall sv w claimId body,
        update_claim_status sv out w claimId body = mkResult (Some not_authenticated) [] sv out)
  /\ (forall sv w taskId body,
        complete_task sv out w taskId body = mkResult (Some not_authenticated) [] sv out)
  /\ (forall sv w claimId,
        claim_tasks sv out w claimId = mkResult (Some not_authenticated) [] sv out
        /\ flow_nodes sv out w claimId = mkResult (Some not_authenticated) [] sv out)
  /\ admin_user (snd (logout ss')) = not_authenticated
  /\ current_user (snd (logout ss')) = not_authenticated.
Proof.
  intros Hlogin Hcode. cbv zeta.
  unfold admin_login, destructure2, js_get in Hlogin. run.
  destruct (login_user (object_get props "email")) as [account | m]; run;
    [| discriminate Hlogin].
  destruct (truthy account && _).
  - injection Hlogin as <- <-. repeat split.
  - injection Hlogin as <- <-. discriminate Hcode.
Qed.

Lemma admin_session_example :
  exists r ss',
    admin_login Scenario.member_session
                (JObj [("email", JStr "adjuster@suresafe.com"); ("password", JStr "admin123")])
    = Return (r, ss')
    /\ admin_user ss' = json (JObj [("success", JBool true); ("user", field r "user")])
    /\ user (snd (admin_logout ss')) = user Scenario.member_session
    /\ admin_user (snd (admin_logout ss')) = not_authenticated.
Proof.
  eexists _, _. split; [reflexivity |].
  pose proof (admin_session_lifecycle Scenario.member_session
                [("email", JStr "adjuster@suresafe.com"); ("password", JStr "admin123")]
                _ _ eq_refl eq_refl) as H.
  cbv zeta in H. destruct H as (H1 & H2 & H3 & _).
  split; [exact H1 |]. split; [exact H2 | exact H3].
Defined.

End SessionExtras.
